(** * gabber: a shallow embedding of [gabber/client.py]

    The development follows the source file from top to bottom: the HTTP
    wrapper [_get] with its session-refresh counter, the entity fetchers
    [pull_user] and [pull_group], the user-post paginator [pull_statuses],
    the search [find_latest_user], the login [get_sess_cookie] and the
    two range walks behind the [posts] and [groups] commands.

    Python integers are [Z]; dictionaries are [gmap string value]; the
    remote service and the wall clock are oracles, so that every theorem
    holds for every behaviour of the network.  Loops take a [fuel]
    argument; a run that uses it up ends in [OutOfFuel], which no
    [except] clause catches. *)

From Stdlib Require Import ZArith Lia List Bool Sorted.
From stdpp Require Import base option list gmap strings.

Local Open Scope Z_scope.

(** ** Python values and exceptions *)

(** Exception classes the code meets.  [RequestError] stands for every
    exception of [requests] other than [HTTPError] (connection errors,
    timeouts, exhausted retries). *)
Inductive exn : Type :=
  | HTTPError
  | RequestError
  | JSONDecodeError
  | ValueError
  | TypeError
  | KeyError
  | AttributeError
  | OverflowError
  | RuntimeError.

#[global] Instance exn_eq_dec : EqDecision exn.
Proof. solve_decision. Defined.

(** A field of a JSON object.  [VTime t] is a string that [dateutil]
    parses to the instant [t] (microseconds, the resolution of
    [datetime]); it is also what [datetime.isoformat()] produces.
    [VStr] is any other string, [VOther] a nested document kept opaque. *)
Inductive value : Type :=
  | VNull
  | VBool (b : bool)
  | VInt (z : Z)
  | VStr (s : string)
  | VTime (t : Z)
  | VOther (tag : nat).

Abbreviation dict := (gmap string value).
Abbreviation cookiejar := (gmap string string).

(** A status of a user timeline: the value of ["id"], the instant
    parsed from ["created_at"], and the remaining keys. *)
Record post : Type := mk_post {
  post_id : Z;
  post_created_at : Z;
  post_fields : dict
}.

(** What [response.json()] may decode to.  [JStatuses] is an array of
    status objects, each with an integer ["id"] and a ["created_at"]
    that parses; arrays of anything else are left out (on those the
    paginators raise [KeyError], [ParserError] or [TypeError]). *)
Inductive json : Type :=
  | JNull
  | JBool (b : bool)
  | JInt (z : Z)
  | JStr (s : string)
  | JDict (d : dict)
  | JStatuses (l : list post).

(** ** The wire *)

(** The URLs the client builds, by shape:
    [/auth/sign_in], [/api/v1/accounts/{id}], [/api/v1/groups/{id}],
    [/api/v1/accounts/{id}/statuses(?exclude_replies=true)] and
    [/api/v1/timelines/group/{id}]. *)
Inductive endpoint : Type :=
  | SignIn
  | Account (id : Z)
  | Group (id : Z)
  | AccountStatuses (id : Z) (exclude_replies : bool)
  | GroupTimeline (id : Z).

Inductive request : Type :=
  | Get (e : endpoint) (params : dict) (cookies : option cookiejar)
  | Post (e : endpoint) (payload : gmap string string) (cookies : cookiejar).

(** A response, seen through the observers the client applies to it:
    [json_body] is [None] when [.json()] raises; [csrf_meta] is what
    [BeautifulSoup(text).find("meta", attrs={"name": "csrf-token"})]
    finds: no tag, a tag without [content], or the content. *)
Record response : Type := mk_response {
  status_code : Z;
  json_body : option json;
  csrf_meta : option (option string);
  cookies : cookiejar
}.

Inductive http_result : Type :=
  | HttpFail (e : exn)
  | HttpOk (r : response).

Definition exchange : Type := request * http_result.

(** ** The client object and the machine state *)

(** [sess_cookie] is [None] while the attribute has never been assigned
    ([__init__] assigns it only when both credentials are non-empty). *)
Record client : Type := mk_client {
  username : string;
  password : string;
  threads : Z;
  _requests_since_refresh : Z;
  sess_cookie : option (option cookiejar)
}.

(** [wire] logs every HTTP exchange, oldest first; [ticks] counts the
    clock readings taken so far. *)
Record state : Type := mk_state {
  self : client;
  wire : list exchange;
  ticks : nat
}.

Inductive result (A : Type) : Type :=
  | Ret (a : A)
  | Raise (e : exn)
  | OutOfFuel.
Arguments Ret {A} a.
Arguments Raise {A} e.
Arguments OutOfFuel {A}.

Definition M (A : Type) : Type := state -> result A * state.

Definition ret {A} (a : A) : M A := fun s => (Ret a, s).
Definition raise {A} (e : exn) : M A := fun s => (Raise e, s).
Definition out_of_fuel {A} : M A := fun s => (OutOfFuel, s).

Definition bind {A B} (m : M A) (k : A -> M B) : M B := fun s =>
  match m s with
  | (Ret a, s') => k a s'
  | (Raise e, s') => (Raise e, s')
  | (OutOfFuel, s') => (OutOfFuel, s')
  end.

Notation "'let*' x ':=' m 'in' k" := (bind m (fun x => k))
  (at level 10, x name, m at level 100, k at level 200, only parsing).
Notation "'exec' m 'in' k" := (bind m (fun _ => k))
  (at level 10, m at level 100, k at level 200, only parsing).

(** [try: m except Exception as e: h e]. *)
Definition try_except {A} (m : M A) (h : exn -> M A) : M A := fun s =>
  match m s with
  | (Raise e, s') => h e s'
  | other => other
  end.

Definition get_self : M client := fun s => (Ret (self s), s).
Definition set_self (c : client) : M unit := fun s =>
  (Ret tt, mk_state c (wire s) (ticks s)).

Definition set_requests_since_refresh (n : Z) : M unit :=
  let* c := get_self in
  set_self (mk_client (username c) (password c) (threads c) n (sess_cookie c)).

Definition set_sess_cookie (ck : option cookiejar) : M unit :=
  let* c := get_self in
  set_self (mk_client (username c) (password c) (threads c)
                      (_requests_since_refresh c) (Some ck)).

(** Reading [self.sess_cookie]. *)
Definition read_sess_cookie : M (option cookiejar) :=
  let* c := get_self in
  match sess_cookie c with
  | Some ck => ret ck
  | None => raise AttributeError
  end.

(** ** Python's [round(n * 1.2)] on integers

    [n * 1.2] converts [n] to the nearest double, multiplies by the
    double nearest to 1.2 (which is [DBL_1_2 / 2^52]) rounding to 53
    significant bits, and [round] takes the nearest integer; every
    rounding breaks ties to even.  A conversion or product of 2^1024
    or more has no finite double: Python raises [OverflowError]. *)

(** [n / 2^s] rounded to the nearest integer, ties to even. *)
Definition round_half_even_shift (n s : Z) : Z :=
  if s <=? 0 then n
  else
    let q := Z.shiftr n s in
    let r := Z.land n (Z.ones s) in
    let half := Z.shiftl 1 (s - 1) in
    if (half <? r) || ((r =? half) && Z.odd q) then q + 1 else q.

(** A positive integer cut to 53 significant bits: [(m, s)] stands for
    [m * 2^s]. *)
Definition round53 (n : Z) : Z * Z :=
  let s := Z.log2 n + 1 - 53 in
  if s <=? 0 then (n, 0) else (round_half_even_shift n s, s).

(** [2^1024], the first magnitude without a finite double. *)
Definition DBL_OVERFLOW : Z := Z.shiftl 1 1024.
Definition DBL_1_2 : Z := 5404319552844595.

(** [Z.shiftl m s] is [m * 2^s]. *)
Definition round_times_1_2_pos (n : Z) : option Z :=
  let '(m, s) := round53 n in
  if DBL_OVERFLOW <=? Z.shiftl m s then None
  else
    let '(m', s') := round53 (m * DBL_1_2) in
    let e := s' + s - 52 in
    if 0 <=? e then
      if DBL_OVERFLOW <=? Z.shiftl m' e then None else Some (Z.shiftl m' e)
    else Some (round_half_even_shift m' (- e)).

(** [None] is [OverflowError]. *)
Definition round_times_1_2 (n : Z) : option Z :=
  match n with
  | 0 => Some 0
  | Zpos _ => round_times_1_2_pos n
  | Zneg _ => option_map Z.opp (round_times_1_2_pos (- n))
  end.

Definition REQUESTS_PER_SESSION_REFRESH : Z := 1000.

Section Gab.

(** The remote service: the answer to the [n]-th exchange of the run. *)
Variable net : nat -> request -> http_result.
(** The wall clock: the [n]-th reading. *)
Variable clock : nat -> Z.

Definition now : M Z := fun s =>
  (Ret (clock (ticks s)), mk_state (self s) (wire s) (S (ticks s))).

(** One HTTP round trip, logged on the wire. *)
Definition send (rq : request) : M response := fun s =>
  let ans := net (length (wire s)) rq in
  let s' := mk_state (self s) (wire s ++ [(rq, ans)]) (ticks s) in
  match ans with
  | HttpFail e => (Raise e, s')
  | HttpOk r => (Ret r, s')
  end.

Definition raise_for_status (r : response) : M unit :=
  if (400 <=? status_code r) && (status_code r <? 600)
  then raise HTTPError else ret tt.

Definition response_json (r : response) : M json :=
  match json_body r with
  | Some j => ret j
  | None => raise JSONDecodeError
  end.

(** [get_sess_cookie], with the GET it uses as a parameter; the source
    passes [self._get(url, skip_sess_refresh=True)]. *)
Definition get_sess_cookie_with (get : request -> M response)
    (username password : string) : M (option cookiejar) :=
  let* attempt := try_except
    (let* login_req := get (Get SignIn ∅ None) in
     exec raise_for_status login_req in
     let* csrf := match csrf_meta login_req with
             | None => raise TypeError
             | Some None => raise KeyError
             | Some (Some c) => ret c
             end in
     if String.eqb csrf ""
     then ret (inl None)
     else
       let payload : gmap string string :=
         <["authenticity_token" := csrf]>
           (<["user[password]" := password]>
              (<["user[email]" := username]> ∅)) in
       let* sess_req := send (Post SignIn payload (cookies login_req)) in
       exec raise_for_status sess_req in
       ret (inr sess_req))
    (fun e => match e with
              | HTTPError => ret (inl None)
              | _ => raise e
              end) in
  match attempt with
  | inl early => ret early
  | inr sess_req =>
      match cookies sess_req !! "_session_id" with
      | None => raise ValueError
      | Some v =>
          if String.eqb v "" then raise ValueError
          else ret (Some (cookies sess_req))
      end
  end.

(** [_get]: the request, then the refresh bookkeeping.  The rate-limit
    decorators only delay the call.  The refresh is [get_sess_cookie],
    whose own GET is the exempt one: with the flag set [_get] is
    [send] (lemma [_get_skip]), which is what the login is given
    here. *)
Definition _get (skip_sess_refresh : bool) (rq : request) : M response :=
  let* response := send rq in
  exec (if negb skip_sess_refresh then
     let* c := get_self in
     exec set_requests_since_refresh (_requests_since_refresh c + 1) in
     let* c := get_self in
     if _requests_since_refresh c >? REQUESTS_PER_SESSION_REFRESH then
       let* ck := get_sess_cookie_with send (username c) (password c) in
       exec set_sess_cookie ck in
       set_requests_since_refresh 0
     else ret tt
   else ret tt) in
  ret response.

Definition get_sess_cookie (username password : string)
  : M (option cookiejar) :=
  get_sess_cookie_with (_get true) username password.

Definition is_record_not_found (d : dict) : bool :=
  match d !! "error" with
  | Some (VStr s) => String.eqb s "Record not found"
  | _ => false
  end.

Definition pull_user (id : Z) : M (option dict) :=
  let* fetched := try_except
    (let* r := _get false (Get (Account id) ∅ None) in
     let* j := response_json r in
     ret (Some j))
    (fun _ => ret None) in
  match fetched with
  | None => ret None
  | Some (JDict result) =>
      if is_record_not_found result then ret None
      else let* t := now in ret (Some (<["_pulled" := VTime t]> result))
  | Some _ => raise AttributeError
  end.

Definition pull_group (id : Z) : M (option dict) :=
  let* fetched := try_except
    (let* r := _get false (Get (Group id) ∅ None) in
     let* j := response_json r in
     ret (Some j))
    (fun _ => ret None) in
  match fetched with
  | None => ret None
  | Some (JDict result) =>
      if is_record_not_found result then ret None
      else let* t := now in ret (Some (<["_pulled" := VTime t]> result))
  | Some _ => raise AttributeError
  end.

(** *** [pull_statuses] *)

(** [sorted(result, key=lambda k: k["id"])]: a stable ascending sort. *)
Fixpoint insert_by_id (p : post) (l : list post) : list post :=
  match l with
  | [] => [p]
  | q :: l' =>
      if post_id p <=? post_id q then p :: q :: l'
      else q :: insert_by_id p l'
  end.

Fixpoint sorted_by_id (l : list post) : list post :=
  match l with
  | [] => []
  | p :: l' => insert_by_id p (sorted_by_id l')
  end.

Definition MICROSECONDS_PER_DAY : Z := 86400000000.

(** [datetime.date()] as a day number. *)
Definition date_of (t : Z) : Z := t `div` MICROSECONDS_PER_DAY.

(** [created_after and d < created_after] *)
Definition before_cutoff (created_after : option Z) (d : Z) : bool :=
  match created_after with
  | Some c => d <? c
  | None => false
  end.

Definition stamp (t : Z) (p : post) : post :=
  mk_post (post_id p) (post_created_at p)
          (<["_pulled" := VTime t]> (post_fields p)).

(** The [for post in posts] loop. *)
Fixpoint collect_posts (created_after : option Z) (posts : list post)
    (all_posts : list post) : M (list post) :=
  match posts with
  | [] => ret all_posts
  | p :: rest =>
      let* t := now in
      let p' := stamp t p in
      if before_cutoff created_after (date_of (post_created_at p'))
      then collect_posts created_after rest all_posts
      else collect_posts created_after rest (all_posts ++ [p'])
  end.

Definition contains_error (s : string) : bool :=
  match String.index 0 "error" s with
  | Some _ => true
  | None => false
  end.

(** The [while True] loop of [pull_statuses]; [fuel] bounds the number
    of pages. *)
Fixpoint pull_statuses_loop (fuel : nat) (id : Z) (created_after : option Z)
    (replies : bool) (params : dict) (all_posts : list post)
    : M (list post) :=
  match fuel with
  | O => out_of_fuel
  | S fuel' =>
      let* fetched := try_except
        (let* ck := read_sess_cookie in
         let* r := _get false
                     (Get (AccountStatuses id (negb replies)) params ck) in
         let* j := response_json r in
         ret (Some j))
        (fun _ => ret None) in
      match fetched with
      | None => ret all_posts
      | Some (JNull | JBool _ | JInt _) => raise TypeError
      | Some (JStr s) =>
          if contains_error s then ret all_posts
          else if String.eqb s "" then ret all_posts
          else raise TypeError
      | Some (JDict d) =>
          match d !! "error" with
          | Some _ => ret all_posts
          | None =>
              if decide (d = ∅) then ret all_posts else raise TypeError
          end
      | Some (JStatuses result) =>
          match sorted_by_id result with
          | [] => ret all_posts
          | (oldest :: _) as posts =>
              let params' := <["max_id" := VInt (post_id oldest)]> params in
              let most_recent_date :=
                date_of (post_created_at (List.last posts oldest)) in
              if before_cutoff created_after most_recent_date
              then ret all_posts
              else
                let* all_posts' :=
                  collect_posts created_after posts all_posts in
                pull_statuses_loop fuel' id created_after replies
                                   params' all_posts'
          end
      end
  end.

Definition pull_statuses (fuel : nat) (id : Z) (created_after : option Z)
    (replies : bool) : M (list post) :=
  pull_statuses_loop fuel id created_after replies ∅ [].

(** *** [find_latest_user] *)

(** [d[k]] on a dictionary. *)
Definition subscript (d : dict) (k : string) : M value :=
  match d !! k with
  | Some v => ret v
  | None => raise KeyError
  end.

(** [dateutil.parser.parse] on a field. *)
Definition date_parse (v : value) : M Z :=
  match v with
  | VTime t => ret t
  | VStr _ => raise ValueError
  | _ => raise TypeError
  end.

Definition INITIAL_LOWER_BOUND : Z := 5318531.

(** [timedelta(minutes=30)] in microseconds. *)
Definition THIRTY_MINUTES : Z := 30 * 60 * 1000000.

(** [while self.pull_user(upper_bound) != None: ...] *)
Fixpoint probe_upper_bound (fuel : nat) (upper_bound : Z) : M Z :=
  match fuel with
  | O => out_of_fuel
  | S fuel' =>
      let* probed := pull_user upper_bound in
      match probed with
      | None => ret upper_bound
      | Some _ =>
          match round_times_1_2 upper_bound with
          | None => raise OverflowError
          | Some upper_bound' => probe_upper_bound fuel' upper_bound'
          end
      end
  end.

(** [while lower_bound <= upper_bound: ...] *)
Fixpoint binary_search (fuel : nat) (lower_bound upper_bound : Z)
    (user : option dict) : M (option dict) :=
  match fuel with
  | O => out_of_fuel
  | S fuel' =>
      if lower_bound <=? upper_bound then
        let middle := (lower_bound + upper_bound) `div` 2 in
        let* middle_user := pull_user middle in
        match middle_user with
        | Some u => binary_search fuel' (middle + 1) upper_bound (Some u)
        | None => binary_search fuel' lower_bound (middle - 1) user
        end
      else ret user
  end.

(** Lines 251-270: the value of [user] when the second loop ends. *)
Definition find_latest_user_search (fuel : nat) : M (option dict) :=
  let lower_bound := INITIAL_LOWER_BOUND in
  let* upper_bound := probe_upper_bound fuel lower_bound in
  binary_search fuel lower_bound upper_bound None.

(** Lines 272-284.  Both log messages format fields of [user] before
    anything is raised or returned. *)
Definition validate_latest_user (found : option dict) : M dict :=
  match found with
  | None => raise TypeError
  | Some user =>
      let* c := subscript user "created_at" in
      let* created_at := date_parse c in
      let* utcnow := now in
      let delta := utcnow - created_at in
      if delta >? THIRTY_MINUTES then
        exec subscript user "username" in
        exec subscript user "created_at" in
        raise RuntimeError
      else
        exec subscript user "username" in
        exec subscript user "id" in
        exec subscript user "created_at" in
        ret user
  end.

Definition find_latest_user (fuel : nat) : M dict :=
  let* found := find_latest_user_search fuel in
  validate_latest_user found.

(** *** [pull_group_posts], [pull_group_and_posts], [pull_user_and_posts] *)

(** [for result in results: result["_pulled"] = ...; yield result] *)
Fixpoint stamp_each (results : list post) : M (list post) :=
  match results with
  | [] => ret []
  | p :: rest =>
      let* t := now in
      let* rest' := stamp_each rest in
      ret (stamp t p :: rest')
  end.

Definition timeline_params (page : Z) : dict :=
  <["page" := VInt page]> (<["sort_by" := VStr "newest"]> ∅).

(** The [while page <= depth] loop of the generator, run to its end as
    [list(...)] does; [yielded] is what it has handed out so far.  A
    body that is a string or an object without ["error"] gets as far
    as the first item assignment, after the clock was read. *)
Fixpoint pull_group_posts_loop (fuel : nat) (id depth page : Z)
    (yielded : list post) : M (list post) :=
  match fuel with
  | O => out_of_fuel
  | S fuel' =>
      if page <=? depth then
        let* fetched := try_except
          (let* ck := read_sess_cookie in
           let* r := _get false
                       (Get (GroupTimeline id) (timeline_params page) ck) in
           let* j := response_json r in
           ret (Some j))
          (fun _ => ret None) in
        match fetched with
        | None => ret yielded
        | Some (JNull | JBool _ | JInt _) => raise TypeError
        | Some (JStr s) =>
            if contains_error s then ret yielded
            else if String.eqb s "" then ret yielded
            else exec now in raise TypeError
        | Some (JDict d) =>
            match d !! "error" with
            | Some _ => ret yielded
            | None =>
                if decide (d = ∅) then ret yielded
                else exec now in raise TypeError
            end
        | Some (JStatuses results) =>
            match results with
            | [] => ret yielded
            | _ :: _ =>
                let* stamped := stamp_each results in
                pull_group_posts_loop fuel' id depth (page + 1)
                                      (yielded ++ stamped)
            end
        end
      else ret yielded
  end.

Definition pull_group_posts (fuel : nat) (id depth : Z) : M (list post) :=
  pull_group_posts_loop fuel id depth 1 [].

Definition pull_group_and_posts (fuel : nat) (id : Z) (pull_posts : bool)
    (depth : Z) : M (option dict * list post) :=
  let* group := pull_group id in
  let* posts :=
    match group with
    | Some _ => if pull_posts then pull_group_posts fuel id depth else ret []
    | None => ret []
    end in
  exec match group with
       | None => ret tt
       | Some g => exec subscript g "title" in ret tt
       end in
  ret (group, posts).

Definition pull_user_and_posts (fuel : nat) (id : Z) (pull_posts : bool)
    (created_after : option Z) (replies : bool)
    : M (option dict * list post) :=
  let* user := pull_user id in
  let* posts :=
    match user with
    | Some _ =>
        if pull_posts then pull_statuses fuel id created_after replies
        else ret []
    | None => ret []
    end in
  exec match user with
       | None => ret tt
       | Some u => exec subscript u "username" in ret tt
       end in
  ret (user, posts).

(** *** [Client.__init__] and the guard of the commands *)

(** A non-empty string is true. *)
Definition truthy (s : string) : bool := negb (String.eqb s "").

Definition __init__ (username password : string) (threads : Z) : M unit :=
  exec set_self (mk_client username password threads 0 None) in
  if truthy username && truthy password then
    let* ck := get_sess_cookie username password in
    set_sess_cookie ck
  else ret tt.

(** Both commands open with
    [if posts and (not client.username or not client.password): raise ValueError]. *)
Definition credentials_guard (posts : bool) : M unit :=
  let* c := get_self in
  if posts && (negb (truthy (username c)) || negb (truthy (password c)))
  then raise ValueError
  else ret tt.

End Gab.

(** ** The range walks of the [posts] and [groups] commands *)

Definition task_result : Type := option dict * list post.

(** The state of a walk: [w_f] is the list [f] of futures in flight,
    each named by its ID; [w_ids] is the range iterator; [w_submitted]
    logs every [ex.submit], [w_completed] every result taken; the two
    files get the lines. *)
Record walk : Type := mk_walk {
  w_f : list Z;
  w_ids : list Z;
  w_submitted : list Z;
  w_completed : list Z;
  w_entity_file : list dict;
  w_posts_file : list post
}.

(** The futures of [items] that a mask marks as done, and the rest. *)
Fixpoint pick (mask : list bool) (items : list Z) : list Z * list Z :=
  match items, mask with
  | [], _ => ([], [])
  | x :: items', [] => ([], x :: items')
  | x :: items', b :: mask' =>
      let '(done, rest) := pick mask' items' in
      if b then (x :: done, rest) else (done, x :: rest)
  end.

(** [futures.wait(items, return_when=FIRST_COMPLETED)] returns as soon
    as one future is done: a mask that marks none lets the first one
    finish. Done futures are removed from [items]. *)
Definition await_any (mask : list bool) (items : list Z) : list Z * list Z :=
  match pick mask items with
  | ([], x :: rest) => ([x], rest)
  | picked => picked
  end.

Section Walks.

(** The outcome of the call submitted for an ID. *)
Variable task : Z -> result task_result.

(** [for completed in done: ...] *)
Fixpoint take_results (done : list Z) (w : walk) : result walk :=
  match done with
  | [] => Ret w
  | id :: done' =>
      match task id with
      | Ret (entity, found_posts) =>
          let w' :=
            match entity with
            | Some e =>
                mk_walk (w_f w) (w_ids w) (w_submitted w) (w_completed w ++ [id])
                        (w_entity_file w ++ [e]) (w_posts_file w ++ found_posts)
            | None =>
                mk_walk (w_f w) (w_ids w) (w_submitted w) (w_completed w ++ [id])
                        (w_entity_file w) (w_posts_file w)
            end in
          take_results done' w'
      | Raise e => Raise e
      | OutOfFuel => OutOfFuel
      end
  end.

(** [for _ in range(n): f.append(ex.submit(..., next(users), ...))],
    left at [StopIteration]. *)
Fixpoint schedule_more (n : nat) (w : walk) : walk :=
  match n with
  | O => w
  | S n' =>
      match w_ids w with
      | [] => w
      | id :: ids' =>
          schedule_more n'
            (mk_walk (w_f w ++ [id]) ids' (w_submitted w ++ [id]) (w_completed w)
                     (w_entity_file w) (w_posts_file w))
      end
  end.

(** The same loop in [groups]: its body evaluates [futures.append],
    and [futures] is the module [concurrent.futures]. *)
Definition schedule_more_groups (n : nat) (w : walk) : result walk :=
  match n with
  | O => Ret w
  | S _ => Raise AttributeError
  end.

Definition set_f (items : list Z) (w : walk) : walk :=
  mk_walk items (w_ids w) (w_submitted w) (w_completed w)
          (w_entity_file w) (w_posts_file w).

(** [while len(f) > 0: ...] of [posts]; one mask of [sched] per wait. *)
Fixpoint posts_loop (fuel : nat) (sched : list (list bool)) (w : walk)
    : result walk :=
  match fuel with
  | O => OutOfFuel
  | S fuel' =>
      match w_f w with
      | [] => Ret w
      | _ :: _ =>
          let '(done, rest) := await_any (hd [] sched) (w_f w) in
          match take_results done (set_f rest w) with
          | Ret w' =>
              posts_loop fuel' (tl sched) (schedule_more (length done) w')
          | failure => failure
          end
      end
  end.

(** [while len(f) > 0: ...] of [groups]. *)
Fixpoint groups_loop (fuel : nat) (sched : list (list bool)) (w : walk)
    : result walk :=
  match fuel with
  | O => OutOfFuel
  | S fuel' =>
      match w_f w with
      | [] => Ret w
      | _ :: _ =>
          let '(done, rest) := await_any (hd [] sched) (w_f w) in
          match take_results done (set_f rest w) with
          | Ret w' =>
              match schedule_more_groups (length done) w' with
              | Ret w'' => groups_loop fuel' (tl sched) w''
              | failure => failure
              end
          | failure => failure
          end
      end
  end.

(** The initial submission: [islice(users, client.threads * 2)] of
    [range(first, last + 1)].  [ThreadPoolExecutor] refuses a pool
    without workers. *)
Definition start_walk (first last threads : Z) : result walk :=
  if threads <=? 0 then Raise ValueError
  else
    let range := seqZ first (last + 1 - first) in
    let initial := take (Z.to_nat (threads * 2)) range in
    Ret (mk_walk initial (drop (Z.to_nat (threads * 2)) range) initial
                 [] [] []).

Definition posts (fuel : nat) (sched : list (list bool))
    (first last threads : Z) : result walk :=
  match start_walk first last threads with
  | Ret w => posts_loop fuel sched w
  | failure => failure
  end.

Definition groups (fuel : nat) (sched : list (list bool))
    (first last threads : Z) : result walk :=
  match start_walk first last threads with
  | Ret w => groups_loop fuel sched w
  | failure => failure
  end.

End Walks.

(** ** Observations on a run *)

Definition counter (s : state) : Z := _requests_since_refresh (self s).

Definition is_sign_in_get (x : exchange) : bool :=
  match fst x with
  | Get SignIn _ _ => true
  | _ => false
  end.

Definition is_post (x : exchange) : bool :=
  match fst x with
  | Post _ _ _ => true
  | _ => false
  end.

(** Every call of [get_sess_cookie] opens with one GET of the sign-in
    page, and nothing else requests that page: the sign-in GETs on the
    wire count the session refreshes. *)
Fixpoint logins (w : list exchange) : nat :=
  match w with
  | [] => O
  | x :: w' => ((if is_sign_in_get x then 1 else 0) + logins w')%nat
  end.

Fixpoint posts_sent (w : list exchange) : nat :=
  match w with
  | [] => O
  | x :: w' => ((if is_post x then 1 else 0) + posts_sent w')%nat
  end.

Definition not_sign_in (rq : request) : Prop :=
  match rq with
  | Get SignIn _ _ => False
  | _ => True
  end.

(** A caller issuing one non-exempt [_get] per request of [rqs]. *)
Fixpoint get_many (net : nat -> request -> http_result)
    (rqs : list request) : M unit :=
  match rqs with
  | [] => ret tt
  | rq :: rest => exec _get net false rq in get_many net rest
  end.

(** What the sign-in page and the login answer must look like for a
    failed login to count as an authentication failure: the function
    returns no session ([None], after logging the failure) or raises
    the [ValueError] about the credentials. *)
Definition auth_failure (r : result (option cookiejar)) : Prop :=
  r = Ret None \/ r = Raise ValueError.

(** *** Pages of a pagination *)

(** The page an answer brings; an answer that is no array of statuses
    brings none of them. *)
Definition answer_page (a : http_result) : list post :=
  match a with
  | HttpOk r =>
      match json_body r with
      | Some (JStatuses l) => l
      | _ => []
      end
  | HttpFail _ => []
  end.

(** The page of an exchange whose request asked for statuses. *)
Definition page_of (x : exchange) : option (list post) :=
  match fst x with
  | Get (AccountStatuses _ _) _ _ => Some (answer_page (snd x))
  | _ => None
  end.

(** The [max_id] parameter of a request for statuses. *)
Definition cursor_of (x : exchange) : option (option value) :=
  match fst x with
  | Get (AccountStatuses _ _) params _ => Some (params !! "max_id")
  | _ => None
  end.

(** The cursors sent on a stretch of wire, in request order. *)
Definition cursors (w : list exchange) : list (option value) :=
  omap cursor_of w.

(** The pages requested on a stretch of wire, in request order. *)
Definition fetched (w : list exchange) : list (list post) := omap page_of w.

Definition post_date (p : post) : Z := date_of (post_created_at p).

(** The posts of [l] that the cutoff lets through. *)
Fixpoint keep (created_after : option Z) (l : list post) : list post :=
  match l with
  | [] => []
  | p :: l' =>
      if before_cutoff created_after (post_date p)
      then keep created_after l'
      else p :: keep created_after l'
  end.

(** The posts of [l] stamped with the clock readings from the
    [n]-th on. *)
Fixpoint stamp_from (clock : nat -> Z) (n : nat) (l : list post)
    : list post :=
  match l with
  | [] => []
  | p :: l' => stamp (clock n) p :: stamp_from clock (S n) l'
  end.

(** What a sequence of pages adds to [all_posts]. *)
Fixpoint accumulate (clock : nat -> Z) (created_after : option Z) (n : nat)
    (pages : list (list post)) : list post :=
  match pages with
  | [] => []
  | page :: pages' =>
      keep created_after (stamp_from clock n (sorted_by_id page))
      ++ accumulate clock created_after (n + length page) pages'
  end.

(** The post of a page with the lowest ID and the one with the
    highest ID, the first of them if an ID repeats. *)
Definition lowest (page : list post) : option post := head (sorted_by_id page).
Definition highest (page : list post) : option post :=
  last (sorted_by_id page).

(** The page on which the code ends the pagination: an empty one, or
    one whose highest-ID post is dated before the cutoff. *)
Definition closing_page (created_after : option Z) (page : list post) : Prop :=
  match highest page with
  | None => True
  | Some p => before_cutoff created_after (post_date p) = true
  end.

(** A page with a post dated before the cutoff; its oldest post then
    is. *)
Definition has_post_before (created_after : Z) (page : list post) : Prop :=
  exists p, p ∈ page /\ post_date p < created_after.

(** C2 as worded: the page whose oldest post predates the cutoff is
    the last one requested. *)
Definition stops_at_first_old_post (created_after : Z)
    (pages : list (list post)) : Prop :=
  forall (i : nat) (page : list post),
    pages !! i = Some page ->
    has_post_before created_after page ->
    S i = length pages.

(** IDs never go down along a list. *)
Definition ascending (l : list post) : Prop :=
  StronglySorted (fun p q => post_id p <= post_id q) l.

(** Every ID of a later page lies below every ID of an earlier one. *)
Definition pages_descend (pages : list (list post)) : Prop :=
  forall (i j : nat) (pi pj : list post) (a b : post),
    pages !! i = Some pi -> pages !! j = Some pj -> (i < j)%nat ->
    a ∈ pi -> b ∈ pj -> post_id b < post_id a.

(** An API that answers a [max_id] cursor with lower IDs only. *)
Definition api_below_cursor (net : nat -> request -> http_result) : Prop :=
  forall (n : nat) (id : Z) (excl : bool) (params : dict)
         (ck : option cookiejar) (m : Z) (p : post),
    params !! "max_id" = Some (VInt m) ->
    p ∈ answer_page (net n (Get (AccountStatuses id excl) params ck)) ->
    post_id p < m.

(** An API whose post IDs are not negative. *)
Definition api_ids_nonnegative (net : nat -> request -> http_result) : Prop :=
  forall (n : nat) (rq : request) (p : post),
    p ∈ answer_page (net n rq) -> 0 <= post_id p.

(** C8 as worded: the accumulated IDs go down. *)
Definition newest_first (l : list post) : Prop :=
  forall (i j : nat) (p q : post),
    l !! i = Some p -> l !! j = Some q -> (i < j)%nat ->
    post_id q <= post_id p.

(** *** Upstream models for the search *)

(** No entity: the fetch fails, or the body does not decode, or the
    API reports "Record not found". *)
Definition absent_answer (a : http_result) : Prop :=
  match a with
  | HttpFail _ => True
  | HttpOk r =>
      match json_body r with
      | None => True
      | Some (JDict d) => is_record_not_found d = true
      | Some _ => False
      end
  end.

(** An entity: a record that says its ID. *)
Definition entity_answer (id : Z) (a : http_result) : Prop :=
  exists r d,
    a = HttpOk r /\ json_body r = Some (JDict d)
    /\ is_record_not_found d = false /\ d !! "id" = Some (VInt id).

(** An upstream with a user for every ID up to [K] and none above. *)
Definition users_upto (K : Z) (net : nat -> request -> http_result) : Prop :=
  forall (n : nat) (id : Z),
    (id <= K -> entity_answer id (net n (Get (Account id) ∅ None)))
    /\ (K < id -> absent_answer (net n (Get (Account id) ∅ None))).

(** An upstream on which a session refresh never raises. *)
Definition refresh_never_raises (net : nat -> request -> http_result) : Prop :=
  forall (u p : string) (s : state),
    exists ck, fst (get_sess_cookie_with net (send net) u p s) = Ret ck.

(** Where [n] probes from [u] lead while no probe overflows. *)
Fixpoint probe_reach (n : nat) (u : Z) : Z :=
  match n with
  | O => u
  | S n' =>
      match round_times_1_2 u with
      | Some u' => probe_reach n' u'
      | None => u
      end
  end.

(** The last probe the code can make from its lower bound: the next
    one overflows.  It lies between [2^1023] and [2^1024]. *)
Definition PROBE_LIMIT : Z :=
  Eval vm_compute in probe_reach 4000 5318531.

(** The probes from [u] climb, without overflow, until they reach
    [PROBE_LIMIT], in at most [n] steps. *)
Fixpoint climbs (n : nat) (u : Z) : bool :=
  (PROBE_LIMIT <=? u) ||
  match n with
  | O => false
  | S n' =>
      match round_times_1_2 u with
      | Some u' => (u <? u') && (u' <? DBL_OVERFLOW) && climbs n' u'
      | None => false
      end
  end.

(** *** Logins *)

(** The form the login sends. *)
Definition login_payload (u p csrf : string) : gmap string string :=
  <["authenticity_token" := csrf]>
    (<["user[password]" := p]> (<["user[email]" := u]> ∅)).

(** An answer that [raise_for_status] lets through. *)
Definition status_passes (r : response) : Prop :=
  (400 <=? status_code r) && (status_code r <? 600) = false.

(** A sign-in page from which the login reads the token [csrf]. *)
Definition offers_token (a : http_result) (csrf : string) : Prop :=
  exists page,
    a = HttpOk page /\ status_passes page
    /\ csrf_meta page = Some (Some csrf) /\ csrf <> "".

(** A jar that carries a session. *)
Definition has_session (jar : cookiejar) : Prop :=
  exists v, jar !! "_session_id" = Some v /\ v <> "".
(** The client with its request counter at [n]. *)
Definition counted (c : client) (n : Z) : client :=
  mk_client (username c) (password c) (threads c) n (sess_cookie c).

(** The client after a refresh that brought [ck]. *)
Definition refreshed (c : client) (ck : option cookiejar) : client :=
  mk_client (username c) (password c) (threads c) 0 (Some ck).

(** *** Pages of a group timeline *)

(** The [page] parameter of a request for a group's timeline. *)
Definition timeline_page_of (x : exchange) : option (option value) :=
  match fst x with
  | Get (GroupTimeline _) params _ => Some (params !! "page")
  | _ => None
  end.

Definition timeline_pages (w : list exchange) : list (option value) :=
  omap timeline_page_of w.

(** What a request for a group's timeline brought. *)
Definition timeline_answer_of (x : exchange) : option (list post) :=
  match fst x with
  | Get (GroupTimeline _) _ _ => Some (answer_page (snd x))
  | _ => None
  end.

Definition timeline_fetched (w : list exchange) : list (list post) :=
  omap timeline_answer_of w.

(** An exchange with the sign-in page. *)
Definition is_sign_in (x : exchange) : bool :=
  match fst x with
  | Get SignIn _ _ | Post SignIn _ _ => true
  | _ => false
  end.

(** A body on which the paginators raise: JSON that is neither an
    array, nor empty, nor something with ["error"] in it. *)
Definition malformed_body (a : http_result) : Prop :=
  match a with
  | HttpOk r =>
      match json_body r with
      | Some (JNull | JBool _ | JInt _) => True
      | Some (JStr str) => contains_error str = false /\ str <> ""
      | Some (JDict d) => d !! "error" = None /\ d <> ∅
      | _ => False
      end
  | HttpFail _ => False
  end.

(** An entity the API served for a request: the record of an answer
    that is no "Record not found", stamped at [t]. *)
Definition served (w : list exchange) (rq : request) (t : Z) (d : dict)
    : Prop :=
  exists resp body,
    (rq, HttpOk resp) ∈ w
    /\ json_body resp = Some (JDict body)
    /\ is_record_not_found body = false
    /\ d = <["_pulled" := VTime t]> body.

(** The probes from [u] run into the overflow within [n] steps, every
    one of them a finite double until then. *)
Fixpoint overflows_within (n : nat) (u : Z) : bool :=
  match round_times_1_2 u with
  | None => true
  | Some u' =>
      match n with
      | O => false
      | S n' => (u' <? DBL_OVERFLOW) && overflows_within n' u'
      end
  end.

(** *** Files of a walk *)

(** What the task of an ID puts in the two files. *)
Definition entity_found (task : Z -> result task_result) (id : Z)
    : option dict :=
  match task id with
  | Ret (Some e, _) => Some e
  | _ => None
  end.

Definition posts_found (task : Z -> result task_result) (id : Z)
    : list post :=
  match task id with
  | Ret (Some _, found_posts) => found_posts
  | _ => []
  end.

(** The files of a walk hold what the tasks taken so far found, in the
    order they were taken. *)
Definition files_match (task : Z -> result task_result) (w : walk) : Prop :=
  w_entity_file w = omap (entity_found task) (w_completed w)
  /\ w_posts_file w = concat (map (posts_found task) (w_completed w)).

Definition task_returns_at (task : Z -> result task_result) (id : Z) : Prop :=
  exists r, task id = Ret r.

(** *** Sample services *)

Definition initial_client : client :=
  mk_client "someone" "secret" 25 0 None.

Definition initial_state : state := mk_state initial_client [] O.

Definition sign_in_page (csrf : option (option string)) : response :=
  mk_response 200 None csrf ∅.

(** A service whose sign-in page carries no CSRF meta tag. *)
Definition net_no_csrf (n : nat) (rq : request) : http_result :=
  HttpOk (sign_in_page None).

Definition session_cookies : cookiejar := {[ "_session_id" := "s3ss10n" ]}.

Definition account_record (id : Z) : dict :=
  <["id" := VInt id]>
    (<["username" := VStr "user"]>
       ({[ "created_at" := VTime (1000 * id) ]})).

Definition not_found_record : dict :=
  {[ "error" := VStr "Record not found" ]}.

(** A service with accounts [0..K], one status per account, and a
    login that always succeeds. *)
Definition net_upto (K : Z) (n : nat) (rq : request) : http_result :=
  match rq with
  | Get SignIn _ _ => HttpOk (sign_in_page (Some (Some "token")))
  | Post SignIn _ _ => HttpOk (mk_response 200 None None session_cookies)
  | Get (Account id) _ _ | Get (Group id) _ _ =>
      HttpOk (mk_response 200
                (Some (JDict (if id <=? K then account_record id
                              else not_found_record)))
                None ∅)
  | _ => HttpOk (mk_response 200 (Some (JStatuses [])) None ∅)
  end.

(** Three statuses of one account: IDs 2, 1, 0, written on days 10,
    3 and 1. *)
Definition status_2 : post := mk_post 2 (10 * MICROSECONDS_PER_DAY) ∅.
Definition status_1 : post := mk_post 1 (3 * MICROSECONDS_PER_DAY) ∅.
Definition status_0 : post := mk_post 0 (1 * MICROSECONDS_PER_DAY) ∅.

Definition statuses_answer (l : list post) : http_result :=
  HttpOk (mk_response 200 (Some (JStatuses l)) None ∅).

(** A timeline served newest first, two statuses to a page, below the
    cursor when there is one. *)
Definition net_timeline (n : nat) (rq : request) : http_result :=
  match rq with
  | Get (AccountStatuses _ _) params _ =>
      match params !! "max_id" with
      | None => statuses_answer [status_2; status_1]
      | Some (VInt 2) => statuses_answer [status_1; status_0]
      | Some (VInt 1) => statuses_answer [status_0]
      | Some _ => statuses_answer []
      end
  | Get SignIn _ _ => HttpOk (sign_in_page (Some (Some "token")))
  | Post SignIn _ _ => HttpOk (mk_response 200 None None session_cookies)
  | _ => HttpOk (mk_response 200 (Some (JDict not_found_record)) None ∅)
  end.

(** A client that has logged in. *)
Definition logged_in_state : state :=
  mk_state (mk_client "someone" "secret" 25 0 (Some (Some session_cookies)))
           [] O.

Definition clock0 (n : nat) : Z := 0.

(** Tasks that find nothing. *)
Definition task_nothing (id : Z) : result task_result := Ret (None, []).

(** One more request than the refresh threshold. *)
Definition sample_requests : list request :=
  replicate 1001 (Get (Account 1) ∅ None).

(** A group timeline of three statuses, two to a page. *)
Definition net_group (n : nat) (rq : request) : http_result :=
  match rq with
  | Get (GroupTimeline _) params _ =>
      match params !! "page" with
      | Some (VInt 1) => statuses_answer [status_2; status_1]
      | Some (VInt 2) => statuses_answer [status_0]
      | _ => statuses_answer []
      end
  | Get SignIn _ _ => HttpOk (sign_in_page (Some (Some "token")))
  | Post SignIn _ _ => HttpOk (mk_response 200 None None session_cookies)
  | _ => HttpOk (mk_response 200 (Some (JDict not_found_record)) None ∅)
  end.

(** A service that answers every page with the JSON [null]. *)
Definition net_null (n : nat) (rq : request) : http_result :=
  match rq with
  | Get SignIn _ _ => HttpOk (sign_in_page (Some (Some "token")))
  | Post SignIn _ _ => HttpOk (mk_response 200 None None session_cookies)
  | _ => HttpOk (mk_response 200 (Some JNull) None ∅)
  end.

(** A task that finds an entity at odd IDs only. *)
Definition task_found_odd (id : Z) : result task_result :=
  if Z.odd id then Ret (Some {[ "id" := VInt id ]}, [status_1])
  else Ret (None, [status_0]).

(** A task that raises at ID 1. *)
Definition task_fails_at_1 (id : Z) : result task_result :=
  if id =? 1 then Raise KeyError else Ret (None, []).

(** ** Facts about the client *)

Ltac run_monad :=
  unfold bind, ret, raise, try_except, get_self, set_self,
    set_requests_since_refresh, set_sess_cookie, read_sess_cookie,
    raise_for_status, response_json, out_of_fuel in *;
  simpl in *.

Ltac done_frame :=
  first [reflexivity | assumption | discriminate
        | intros; discriminate].

Lemma logins_app (w1 w2 : list exchange) :
  logins (w1 ++ w2) = (logins w1 + logins w2)%nat.
Proof.
  induction w1 as [|x w1 IH]; simpl; [reflexivity|].
  rewrite IH. lia.
Qed.

Lemma posts_sent_app (w1 w2 : list exchange) :
  posts_sent (w1 ++ w2) = (posts_sent w1 + posts_sent w2)%nat.
Proof.
  induction w1 as [|x w1 IH]; simpl; [reflexivity|].
  rewrite IH. lia.
Qed.

Lemma bind_Ret_inv {A B} (m : M A) (k : A -> M B) (s s' : state) (b : B) :
  bind m k s = (Ret b, s') ->
  exists a s1, m s = (Ret a, s1) /\ k a s1 = (Ret b, s').
Proof.
  unfold bind. destruct (m s) as [[a| |] s1]; intros H; try discriminate.
  eauto.
Qed.

(** A run is known by its outcome and its final state. *)
Lemma run_returns {A} (m : M A) (s : state) (a : A) :
  fst (m s) = Ret a -> m s = (Ret a, snd (m s)).
Proof. destruct (m s) as [r s']. simpl. intros ->. reflexivity. Defined.

Section ClientFacts.

Variable net : nat -> request -> http_result.
Variable clock : nat -> Z.

(** With the flag set, [_get] is the bare round trip. *)
Lemma _get_skip (rq : request) (s : state) :
  _get net true rq s = send net rq s.
Proof.
  unfold _get. run_monad.
  destruct (send net rq s) as [[r| |] s']; reflexivity.
Qed.

Lemma get_sess_cookie_send (u p : string) (s : state) :
  get_sess_cookie net u p s = get_sess_cookie_with net (send net) u p s.
Proof.
  unfold get_sess_cookie, get_sess_cookie_with. run_monad.
  rewrite _get_skip. reflexivity.
Qed.

Lemma send_spec (rq : request) (s : state) :
  exists r,
    send net rq s =
      (r, mk_state (self s)
                   (wire s ++ [(rq, net (length (wire s)) rq)]) (ticks s)).
Proof.
  unfold send. destruct (net _ rq); eauto.
Qed.

Lemma send_eq (rq : request) (s : state) :
  send net rq s =
    (match net (length (wire s)) rq with
     | HttpFail e => Raise e
     | HttpOk r => Ret r
     end,
     mk_state (self s) (wire s ++ [(rq, net (length (wire s)) rq)])
              (ticks s)).
Proof.
  unfold send. destruct (net _ rq); reflexivity.
Qed.

(** A login leaves the client and the clock alone; on the wire it adds
    the sign-in GET, then at most the POST. *)
Lemma login_frame (u p : string) (s : state) :
  exists r extra,
    get_sess_cookie_with net (send net) u p s =
      (r, mk_state (self s)
            (wire s ++ (Get SignIn ∅ None,
                        net (length (wire s)) (Get SignIn ∅ None)) :: extra)
            (ticks s))
    /\ logins extra = O
    /\ fetched extra = []
    /\ cursors extra = []
    /\ (r <> OutOfFuel).
Proof.
  unfold get_sess_cookie_with, send. run_monad.
  destruct (net (length (wire s)) (Get SignIn ∅ None)) as [e|r] eqn:E1.
  { destruct e; eexists _, []; (split; [reflexivity|repeat split; discriminate]). }
  destruct ((400 <=? status_code r) && (status_code r <? 600)).
  { eexists _, []; (split; [reflexivity|repeat split; discriminate]). }
  destruct (csrf_meta r) as [[c|]|].
  2,3: eexists _, []; (split; [reflexivity|repeat split; discriminate]).
  destruct (String.eqb c "").
  { eexists _, []; (split; [reflexivity|repeat split; discriminate]). }
  simpl.
  match goal with
  | |- context [net ?n (Post ?a ?b ?c)] =>
      destruct (net n (Post a b c)) as [e2|r2] eqn:E2
  end.
  { destruct e2; eexists _, [_];
      (split; [rewrite <- app_assoc; reflexivity|repeat split; discriminate]). }
  destruct ((400 <=? status_code r2) && (status_code r2 <? 600)).
  { eexists _, [_];
      (split; [rewrite <- app_assoc; reflexivity|repeat split; discriminate]). }
  simpl.
  destruct (cookies r2 !! "_session_id") as [v|].
  2: { eexists _, [_];
      (split; [rewrite <- app_assoc; reflexivity|repeat split; discriminate]). }
  destruct (String.eqb v "");
    eexists _, [_];
      (split; [rewrite <- app_assoc; reflexivity|repeat split; discriminate]).
Qed.

(** One non-exempt [_get] that returns: the counter steps to
    [counter s + 1] without a login while that is within the
    threshold; past it, one login happens and the counter restarts. *)
Lemma _get_counter (rq : request) (s s' : state) (r : response) :
  _get net false rq s = (Ret r, s') ->
  not_sign_in rq ->
  (counter s + 1 <= REQUESTS_PER_SESSION_REFRESH ->
     counter s' = counter s + 1 /\ logins (wire s') = logins (wire s))
  /\ (REQUESTS_PER_SESSION_REFRESH < counter s + 1 ->
     counter s' = 0 /\ logins (wire s') = S (logins (wire s))).
Proof.
  intros Hrun Hrq. unfold _get in Hrun.
  apply bind_Ret_inv in Hrun as (r0 & s1 & Hsend & Hrun).
  destruct (send_spec rq s) as [r1 Hs1]. rewrite Hs1 in Hsend.
  injection Hsend as -> <-.
  assert (Hans : logins [(rq, net (length (wire s)) rq)] = O).
  { simpl. unfold is_sign_in_get. simpl.
    destruct rq as [[] ? ?|]; simpl in *; tauto. }
  apply bind_Ret_inv in Hrun as (u & s2 & Hmid & Hret).
  injection Hret as -> ->. cbn [negb] in Hmid.
  unfold bind at 1 2 3, get_self, set_requests_since_refresh, set_self in Hmid.
  unfold bind at 1 2, get_self in Hmid. cbn [self wire ticks] in Hmid.
  cbn [_requests_since_refresh username password] in Hmid.
  unfold counter.
  destruct (_requests_since_refresh (self s) + 1 >? REQUESTS_PER_SESSION_REFRESH)
    eqn:Ecmp.
  - apply Z.gtb_lt in Ecmp.
    apply bind_Ret_inv in Hmid as (ck & s3 & Hlogin & Hmid).
    match type of Hlogin with
    | get_sess_cookie_with net (send net) ?u ?p ?s2 = _ =>
        destruct (login_frame u p s2) as (r2 & extra & Heq & Hl & Hfe & Hcu & Hf);
        rewrite Heq in Hlogin
    end.
    injection Hlogin as -> <-.
    unfold bind, set_sess_cookie, get_self, set_self in Hmid.
    cbn in Hmid. destruct u. injection Hmid as <-.
    cbn [self wire _requests_since_refresh].
    split; [lia|]. intros _. split; [reflexivity|].
    rewrite !logins_app. rewrite Hans. cbn [logins].
    unfold is_sign_in_get at 1. cbn [fst]. rewrite Hl. lia.
  - assert (Hle : _requests_since_refresh (self s) + 1
                  <= REQUESTS_PER_SESSION_REFRESH).
    { destruct (Z.gtb_spec (_requests_since_refresh (self s) + 1)
                           REQUESTS_PER_SESSION_REFRESH); [discriminate|lia]. }
    unfold ret in Hmid. destruct u. injection Hmid as <-.
    cbn [self wire _requests_since_refresh].
    split; [|lia]. intros _. split; [reflexivity|].
    rewrite logins_app. rewrite Hans. lia.
Qed.

(** [n] non-exempt calls from a counter at zero, all returning. *)
Lemma get_many_counter (rqs : list request) (s s' : state) :
  get_many net rqs s = (Ret tt, s') ->
  Forall not_sign_in rqs ->
  0 <= counter s ->
  counter s + Z.of_nat (length rqs) <= REQUESTS_PER_SESSION_REFRESH ->
  counter s' = counter s + Z.of_nat (length rqs)
  /\ logins (wire s') = logins (wire s).
Proof.
  revert s. induction rqs as [|rq rqs IH]; intros s Hrun Hall Hc Hlen.
  - injection Hrun as <-. simpl. split; [lia|reflexivity].
  - simpl in Hrun. unfold bind in Hrun.
    destruct (_get net false rq s) as [[r| |] s1] eqn:E1; try discriminate.
    apply Forall_cons in Hall as [Hrq Hall].
    destruct (_get_counter _ _ _ _ E1 Hrq) as [Hlow _].
    simpl length in Hlen. destruct Hlow as [Hc1 Hl1]; [lia|].
    destruct (IH s1 Hrun Hall) as [Hc2 Hl2]; [lia|lia|].
    split; [rewrite Hc2, Hc1; simpl length; lia|congruence].
Qed.

Lemma get_many_app (rqs1 rqs2 : list request) (s : state) :
  get_many net (rqs1 ++ rqs2) s =
    (exec get_many net rqs1 in get_many net rqs2) s.
Proof.
  revert s. induction rqs1 as [|rq rqs1 IH]; intros s; simpl.
  - reflexivity.
  - unfold bind. destruct (_get net false rq s) as [[r| |] s1]; try reflexivity.
    rewrite IH. reflexivity.
Qed.

(** Any [_get] answers with the service's response to its request,
    keeps the clock, and only adds to the wire. *)
Lemma _get_frame (skip : bool) (rq : request) (s : state) :
  exists r c extra,
    _get net skip rq s =
      (r, mk_state c (wire s ++ (rq, net (length (wire s)) rq) :: extra)
                   (ticks s))
    /\ r <> OutOfFuel
    /\ (fetched extra = [] /\ cursors extra = [])
    /\ (forall resp, r = Ret resp -> net (length (wire s)) rq = HttpOk resp)
    /\ (sess_cookie (self s) <> None -> sess_cookie c <> None).
Proof.
  destruct skip.
  { rewrite _get_skip. unfold send.
    destruct (net (length (wire s)) rq) as [e|r0];
      eexists _, _, [];
      (split; [reflexivity|split; [discriminate|split; [split; reflexivity|]]]);
      (split; [|exact (fun H => H)]);
      intros resp H; [discriminate|congruence]. }
  unfold _get. unfold bind at 1. rewrite send_eq.
  destruct (net (length (wire s)) rq) as [e|r0] eqn:Eans.
  { eexists _, _, [];
      (split; [reflexivity|split; [discriminate|split; [split; reflexivity|]]]).
    split; [|exact (fun H => H)]. intros resp H; discriminate. }
  cbn [negb].
  unfold bind at 1 2 3, get_self, set_requests_since_refresh, set_self.
  unfold bind at 1 2, get_self. cbn [self wire ticks].
  cbn [_requests_since_refresh username password].
  destruct (_requests_since_refresh (self s) + 1 >? REQUESTS_PER_SESSION_REFRESH).
  - unfold bind at 1.
    match goal with
    | |- context [get_sess_cookie_with net (send net) ?u ?p ?s2] =>
        destruct (login_frame u p s2) as (r2 & extra & Heq & Hl & Hfe & Hcu & Hf);
        rewrite Heq
    end.
    cbn [self wire ticks].
    destruct r2 as [ck|e|]; [| |congruence].
    + unfold bind, set_sess_cookie, get_self, set_self, ret. cbn.
      eexists _, _, _. split; [rewrite <- app_assoc; reflexivity|].
      split; [discriminate|]. split; [exact (conj Hfe Hcu)|].
      split; [|discriminate]. intros resp H. congruence.
    + unfold bind. eexists _, _, _.
      split; [rewrite <- app_assoc; reflexivity|].
      split; [discriminate|]. split; [exact (conj Hfe Hcu)|].
      split; [|exact (fun H => H)]. intros resp H. discriminate.
  - unfold bind, ret. eexists _, _, [].
    split; [reflexivity|]. split; [discriminate|].
    split; [split; reflexivity|].
    split; [|exact (fun H => H)]. intros resp H. congruence.
Qed.

(** C4. From a counter at zero, [REQUESTS_PER_SESSION_REFRESH + 1]
    non-exempt [_get] calls trigger exactly one session refresh, at
    the last call and not before, and leave the counter at zero; a
    call with [skip_sess_refresh=True] leaves the counter alone and
    puts nothing but its own request on the wire. *)
Theorem refresh_once_per_threshold (rqs : list request) (s s' : state) :
  counter s = 0 ->
  length rqs = Z.to_nat (REQUESTS_PER_SESSION_REFRESH + 1) ->
  Forall not_sign_in rqs ->
  get_many net rqs s = (Ret tt, s') ->
  (logins (wire s') = S (logins (wire s)) /\ counter s' = 0)
  /\ (forall (k : nat) (sk : state),
        (k <= 1000)%nat ->
        get_many net (take k rqs) s = (Ret tt, sk) ->
        logins (wire sk) = logins (wire s) /\ counter sk = Z.of_nat k)
  /\ (forall (rq : request) (s0 : state),
        exists r,
          _get net true rq s0 =
            (r, mk_state (self s0)
                  (wire s0 ++ [(rq, net (length (wire s0)) rq)])
                  (ticks s0))).
Proof.
  intros Hc Hlen Hall Hrun.
  change (Z.to_nat (REQUESTS_PER_SESSION_REFRESH + 1)) with 1001%nat in Hlen.
  assert (Hprefix : forall (k : nat) (sk : state),
             (k <= 1000)%nat ->
             get_many net (take k rqs) s = (Ret tt, sk) ->
             logins (wire sk) = logins (wire s) /\ counter sk = Z.of_nat k).
  { intros k sk Hk Hrunk.
    assert (Hlk : length (take k rqs) = k) by (rewrite length_take; lia).
    destruct (get_many_counter _ _ _ Hrunk) as [Hck Hlk'].
    - apply Forall_take. exact Hall.
    - lia.
    - rewrite Hlk, Hc. unfold REQUESTS_PER_SESSION_REFRESH. lia.
    - split; [exact Hlk'|]. rewrite Hck, Hlk, Hc. lia. }
  split; [|split; [exact Hprefix|]].
  - rewrite <- (take_drop 1000 rqs) in Hrun.
    rewrite get_many_app in Hrun.
    apply bind_Ret_inv in Hrun as ([] & s1 & Hfirst & Hlast).
    destruct (Hprefix 1000%nat s1 (le_n _) Hfirst) as [Hl1 Hc1].
    assert (Hd : length (drop 1000 rqs) = 1%nat)
      by (rewrite length_drop; lia).
    destruct (drop 1000 rqs) as [|rq [|? ?]] eqn:Edrop; try discriminate.
    assert (Hrq : not_sign_in rq).
    { assert (Hin : Forall not_sign_in (drop 1000 rqs))
        by (apply Forall_drop; exact Hall).
      rewrite Edrop in Hin. apply Forall_cons in Hin as [? _]. assumption. }
    simpl in Hlast.
    apply bind_Ret_inv in Hlast as (r & s2 & Hget & Hret).
    injection Hret as ->.
    destruct (_get_counter _ _ _ _ Hget Hrq) as [_ Hhigh].
    destruct Hhigh as [Hc2 Hl2].
    { rewrite Hc1. unfold REQUESTS_PER_SESSION_REFRESH. lia. }
    split; [congruence|exact Hc2].
  - intros rq s0. rewrite _get_skip. apply send_spec.
Qed.

(** How [pull_user] ends, read off the outcome of its [_get]. *)
Lemma pull_user_cases (id : Z) (s : state) :
  fst (pull_user net clock id s) =
    match fst (_get net false (Get (Account id) ∅ None) s) with
    | Ret r =>
        match json_body r with
        | None => Ret None
        | Some (JDict d) =>
            if is_record_not_found d then Ret None
            else Ret (Some (<["_pulled" := VTime (clock (ticks s))]> d))
        | Some _ => Raise AttributeError
        end
    | Raise _ => Ret None
    | OutOfFuel => OutOfFuel
    end.
Proof.
  unfold pull_user. unfold bind at 1. unfold try_except, bind at 1.
  destruct (_get_frame false (Get (Account id) ∅ None) s)
    as (r & c & extra & Heq & Hf & _ & _ & _).
  rewrite Heq. cbn [fst].
  destruct r as [resp|e|]; [|reflexivity|congruence].
  unfold bind, response_json. destruct (json_body resp) as [j|]; [|reflexivity].
  unfold ret. destruct j; try reflexivity.
  destruct (is_record_not_found d); reflexivity.
Qed.

Lemma pull_group_cases (id : Z) (s : state) :
  fst (pull_group net clock id s) =
    match fst (_get net false (Get (Group id) ∅ None) s) with
    | Ret r =>
        match json_body r with
        | None => Ret None
        | Some (JDict d) =>
            if is_record_not_found d then Ret None
            else Ret (Some (<["_pulled" := VTime (clock (ticks s))]> d))
        | Some _ => Raise AttributeError
        end
    | Raise _ => Ret None
    | OutOfFuel => OutOfFuel
    end.
Proof.
  unfold pull_group. unfold bind at 1. unfold try_except, bind at 1.
  destruct (_get_frame false (Get (Group id) ∅ None) s)
    as (r & c & extra & Heq & Hf & _ & _ & _).
  rewrite Heq. cbn [fst].
  destruct r as [resp|e|]; [|reflexivity|congruence].
  unfold bind, response_json. destruct (json_body resp) as [j|]; [|reflexivity].
  unfold ret. destruct j; try reflexivity.
  destruct (is_record_not_found d); reflexivity.
Qed.

(** Where nothing is served for an ID, [pull_user] returns [None]. *)
Lemma pull_user_absent (id : Z) (s : state) :
  absent_answer (net (length (wire s)) (Get (Account id) ∅ None)) ->
  exists s', pull_user net clock id s = (Ret None, s').
Proof.
  intros Habs.
  pose proof (pull_user_cases id s) as Hcases.
  destruct (_get_frame false (Get (Account id) ∅ None) s)
    as (r & c & extra & Heq & Hf & _ & Hans & _).
  rewrite Heq in Hcases. cbn [fst] in Hcases.
  destruct (pull_user net clock id s) as [res s'] eqn:Erun.
  cbn [fst] in Hcases. exists s'. f_equal.
  destruct r as [resp|e|]; [|exact Hcases|congruence].
  rewrite (Hans resp eq_refl) in Habs. unfold absent_answer in Habs.
  destruct (json_body resp) as [[| | | |d|]|]; try contradiction;
    [|exact Hcases].
  rewrite Habs in Hcases. exact Hcases.
Qed.

(** And so does [pull_group]. *)
Lemma pull_group_absent (id : Z) (s : state) :
  absent_answer (net (length (wire s)) (Get (Group id) ∅ None)) ->
  exists s', pull_group net clock id s = (Ret None, s').
Proof.
  intros Habs.
  pose proof (pull_group_cases id s) as Hcases.
  destruct (_get_frame false (Get (Group id) ∅ None) s)
    as (r & c & extra & Heq & Hf & _ & Hans & _).
  rewrite Heq in Hcases. cbn [fst] in Hcases.
  destruct (pull_group net clock id s) as [res s'] eqn:Erun.
  cbn [fst] in Hcases. exists s'. f_equal.
  destruct r as [resp|e|]; [|exact Hcases|congruence].
  rewrite (Hans resp eq_refl) in Habs. unfold absent_answer in Habs.
  destruct (json_body resp) as [[| | | |d|]|]; try contradiction;
    [|exact Hcases].
  rewrite Habs in Hcases. exact Hcases.
Qed.

(** C5. Whenever the upstream has no entity for an ID (the request
    fails, the body does not decode, or the API answers "Record not
    found"), and whenever the fetch raises for any other reason,
    [pull_user] and [pull_group] return [None], so they do not raise;
    when the fetch brings a record, they return that record with
    ["_pulled"] set to the time of the call and nothing else changed. *)
Theorem pull_entity_absent_or_stamped (id : Z) (s : state) :
  let fetch_user := fst (_get net false (Get (Account id) ∅ None) s) in
  let fetch_group := fst (_get net false (Get (Group id) ∅ None) s) in
  let absent (fetch : result response) : Prop :=
    (exists e, fetch = Raise e)
    \/ (exists r, fetch = Ret r /\ json_body r = None)
    \/ (exists r d, fetch = Ret r /\ json_body r = Some (JDict d)
                    /\ d !! "error" = Some (VStr "Record not found")) in
  let found (fetch : result response) (d : dict) : Prop :=
    exists r, fetch = Ret r /\ json_body r = Some (JDict d)
              /\ d !! "error" <> Some (VStr "Record not found") in
  (absent_answer (net (length (wire s)) (Get (Account id) ∅ None)) ->
     fst (pull_user net clock id s) = Ret None)
  /\ (absent_answer (net (length (wire s)) (Get (Group id) ∅ None)) ->
     fst (pull_group net clock id s) = Ret None)
  /\ (absent fetch_user -> fst (pull_user net clock id s) = Ret None)
  /\ (absent fetch_group -> fst (pull_group net clock id s) = Ret None)
  /\ (forall d, found fetch_user d ->
        fst (pull_user net clock id s) =
          Ret (Some (<["_pulled" := VTime (clock (ticks s))]> d)))
  /\ (forall d, found fetch_group d ->
        fst (pull_group net clock id s) =
          Ret (Some (<["_pulled" := VTime (clock (ticks s))]> d))).
Proof.
  intros fetch_user fetch_group absent found.
  assert (Hyes : forall d : dict,
             d !! "error" = Some (VStr "Record not found") ->
             is_record_not_found d = true).
  { intros d Hd. unfold is_record_not_found. rewrite Hd. reflexivity. }
  assert (Hno : forall d : dict,
             d !! "error" <> Some (VStr "Record not found") ->
             is_record_not_found d = false).
  { intros d Hd. unfold is_record_not_found.
    destruct (d !! "error") as [[| | |str| |]|] eqn:E; try reflexivity.
    destruct (String.eqb_spec str "Record not found"); [|reflexivity].
    subst. congruence. }
  split; [|split]; [| |repeat split].
  - intros Habs. destruct (pull_user_absent id s Habs) as [s' ->]. reflexivity.
  - intros Habs. destruct (pull_group_absent id s Habs) as [s' ->].
    reflexivity.
  - intros [[e He]|[(r & Hr & Hj)|(r & d & Hr & Hj & Hd)]];
      rewrite pull_user_cases; fold fetch_user; rewrite ?He, ?Hr, ?Hj;
      [reflexivity|reflexivity|]. rewrite (Hyes d Hd). reflexivity.
  - intros [[e He]|[(r & Hr & Hj)|(r & d & Hr & Hj & Hd)]];
      rewrite pull_group_cases; fold fetch_group; rewrite ?He, ?Hr, ?Hj;
      [reflexivity|reflexivity|]. rewrite (Hyes d Hd). reflexivity.
  - intros d (r & Hr & Hj & Hd). rewrite pull_user_cases.
    fold fetch_user. rewrite Hr, Hj, (Hno d Hd). reflexivity.
  - intros d (r & Hr & Hj & Hd). rewrite pull_group_cases.
    fold fetch_group. rewrite Hr, Hj, (Hno d Hd). reflexivity.
Qed.

(** The path of [get_sess_cookie] on a page that carries no CSRF meta
    tag: the subscript of [None] raises, nothing catches it, and the
    POST is never reached. *)
Lemma get_sess_cookie_without_csrf (u p : string) (s : state)
    (page : response) :
  net (length (wire s)) (Get SignIn ∅ None) = HttpOk page ->
  csrf_meta page = None ->
  (400 <=? status_code page) && (status_code page <? 600) = false ->
  get_sess_cookie net u p s =
    (Raise TypeError,
     mk_state (self s) (wire s ++ [(Get SignIn ∅ None, HttpOk page)])
              (ticks s)).
Proof.
  intros Hpage Hcsrf Hstatus. rewrite get_sess_cookie_send.
  unfold get_sess_cookie_with. unfold bind at 1.
  unfold try_except, bind at 1. rewrite send_eq, Hpage.
  unfold bind at 1, raise_for_status. rewrite Hstatus.
  unfold ret at 1. unfold bind at 1. rewrite Hcsrf. reflexivity.
Qed.

(** A login answer without a session cookie ends in an authentication
    failure: [None] when the answer is an HTTP error, the [ValueError]
    about the credentials otherwise. *)
Lemma get_sess_cookie_without_session (u p : string) (s : state)
    (page answer : response) (csrf : string) :
  net (length (wire s)) (Get SignIn ∅ None) = HttpOk page ->
  (400 <=? status_code page) && (status_code page <? 600) = false ->
  csrf_meta page = Some (Some csrf) ->
  csrf <> "" ->
  (forall payload,
      net (S (length (wire s))) (Post SignIn payload (cookies page))
      = HttpOk answer) ->
  cookies answer !! "_session_id" = None ->
  auth_failure (fst (get_sess_cookie net u p s)).
Proof.
  intros Hpage Hstatus Hcsrf Hne Hpost Hjar. rewrite get_sess_cookie_send.
  unfold get_sess_cookie_with. unfold bind at 1.
  unfold try_except, bind at 1. rewrite send_eq, Hpage.
  unfold bind at 1, raise_for_status. rewrite Hstatus.
  unfold ret at 1. unfold bind at 1. rewrite Hcsrf. unfold ret at 1.
  destruct (String.eqb_spec csrf ""); [contradiction|].
  unfold bind at 1. rewrite send_eq. cbn [wire].
  rewrite length_app. cbn [length]. rewrite Nat.add_1_r, Hpost.
  unfold bind at 1.
  destruct ((400 <=? status_code answer) && (status_code answer <? 600)).
  - left. reflexivity.
  - right. unfold ret at 1 2. cbn. rewrite Hjar. reflexivity.
Qed.

(** C6, first half, as the code has it. On a sign-in page without
    the CSRF meta tag [get_sess_cookie] sends no POST, but it ends with
    the [TypeError] of subscripting [None], which is not an
    authentication failure. *)
Theorem get_sess_cookie_missing_csrf (u p : string) (s : state)
    (page : response) :
  net (length (wire s)) (Get SignIn ∅ None) = HttpOk page ->
  csrf_meta page = None ->
  (400 <=? status_code page) && (status_code page <? 600) = false ->
  fst (get_sess_cookie net u p s) = Raise TypeError
  /\ ~ auth_failure (fst (get_sess_cookie net u p s))
  /\ posts_sent (wire (snd (get_sess_cookie net u p s)))
     = posts_sent (wire s).
Proof.
  intros Hpage Hcsrf Hstatus.
  rewrite (get_sess_cookie_without_csrf u p s page Hpage Hcsrf Hstatus).
  cbn [fst snd wire]. split; [reflexivity|]. split.
  - intros [H|H]; discriminate.
  - rewrite posts_sent_app. simpl. lia.
Qed.

End ClientFacts.

(** ** Facts about the paginator *)

Lemma insert_by_id_perm (p : post) (l : list post) :
  insert_by_id p l ≡ₚ p :: l.
Proof.
  induction l as [|q l IH]; simpl; [reflexivity|].
  destruct (post_id p <=? post_id q); [reflexivity|].
  rewrite IH. apply Permutation_swap.
Qed.

Lemma sorted_by_id_perm (l : list post) : sorted_by_id l ≡ₚ l.
Proof.
  induction l as [|p l IH]; simpl; [reflexivity|].
  rewrite insert_by_id_perm, IH. reflexivity.
Qed.

Lemma sorted_by_id_length (l : list post) :
  length (sorted_by_id l) = length l.
Proof. apply Permutation_length, sorted_by_id_perm. Qed.

Lemma sorted_by_id_elem (p : post) (l : list post) :
  p ∈ sorted_by_id l <-> p ∈ l.
Proof. rewrite sorted_by_id_perm. reflexivity. Qed.

Lemma insert_by_id_ascending (p : post) (l : list post) :
  ascending l -> ascending (insert_by_id p l).
Proof.
  unfold ascending. induction l as [|q l IH]; intros Hl; simpl.
  - repeat constructor.
  - destruct (Z.leb_spec (post_id p) (post_id q)) as [Hle|Hgt].
    + constructor; [exact Hl|].
      apply StronglySorted_inv in Hl as [_ Hq].
      constructor; [exact Hle|].
      eapply Forall_impl; [exact Hq|]. simpl. intros; lia.
    + apply StronglySorted_inv in Hl as [Hl Hq].
      constructor; [apply IH; exact Hl|].
      rewrite insert_by_id_perm. constructor; [lia|exact Hq].
Qed.

Lemma sorted_by_id_ascending (l : list post) : ascending (sorted_by_id l).
Proof.
  induction l as [|p l IH]; simpl; [constructor|].
  apply insert_by_id_ascending, IH.
Qed.

(** The first post of the sorted page bounds every ID of the page. *)
Lemma lowest_is_least (page : list post) (p q : post) :
  lowest page = Some p -> q ∈ page -> post_id p <= post_id q.
Proof.
  unfold lowest. intros Hhd Hq.
  apply sorted_by_id_elem in Hq.
  pose proof (sorted_by_id_ascending page) as Hasc.
  destruct (sorted_by_id page) as [|p0 l]; [discriminate|].
  injection Hhd as ->.
  apply StronglySorted_inv in Hasc as [_ Hall].
  apply elem_of_cons in Hq as [->|Hq]; [lia|].
  rewrite Forall_forall in Hall. apply Hall. exact Hq.
Qed.

Lemma keep_after (D : Z) (l : list post) :
  Forall (fun p => D <= post_date p) (keep (Some D) l).
Proof.
  induction l as [|p l IH]; simpl; [constructor|].
  destruct (Z.ltb_spec (post_date p) D); [exact IH|].
  constructor; assumption.
Qed.

Lemma keep_Forall (P : post -> Prop) (ca : option Z) (l : list post) :
  Forall P l -> Forall P (keep ca l).
Proof.
  induction 1 as [|p l Hp Hl IH]; simpl; [constructor|].
  destruct (before_cutoff ca (post_date p)); [exact IH|].
  constructor; assumption.
Qed.

Lemma keep_ascending (ca : option Z) (l : list post) :
  ascending l -> ascending (keep ca l).
Proof.
  unfold ascending. induction 1 as [|p l Hl IH Hp]; simpl; [constructor|].
  destruct (before_cutoff ca (post_date p)); [exact IH|].
  constructor; [exact IH|]. apply keep_Forall. exact Hp.
Qed.

Lemma fetched_app (w1 w2 : list exchange) :
  fetched (w1 ++ w2) = fetched w1 ++ fetched w2.
Proof. unfold fetched. apply omap_app. Qed.

Lemma cursors_app (w1 w2 : list exchange) :
  cursors (w1 ++ w2) = cursors w1 ++ cursors w2.
Proof. unfold cursors. apply omap_app. Qed.

Lemma lowest_elem (page : list post) (p : post) :
  lowest page = Some p -> p ∈ page.
Proof.
  unfold lowest. intros H. apply sorted_by_id_elem.
  destruct (sorted_by_id page); [discriminate|].
  injection H as ->. apply elem_of_cons. left. reflexivity.
Qed.

Lemma last_default {A} (l : list A) (d : A) :
  l <> [] -> last l = Some (List.last l d).
Proof.
  induction l as [|x l IH]; [congruence|]. intros _.
  destruct l as [|y l]; [reflexivity|].
  change (last (x :: y :: l)) with (last (y :: l)).
  change (List.last (x :: y :: l) d) with (List.last (y :: l) d).
  apply IH. discriminate.
Qed.

Section PaginatorFacts.

Variable net : nat -> request -> http_result.
Variable clock : nat -> Z.

(** The [for] loop stamps every post and appends those the cutoff
    lets through. *)
Lemma collect_posts_spec (ca : option Z) (posts acc : list post) (s : state) :
  collect_posts clock ca posts acc s =
    (Ret (acc ++ keep ca (stamp_from clock (ticks s) posts)),
     mk_state (self s) (wire s) (ticks s + length posts)).
Proof.
  revert acc s. induction posts as [|p posts IH]; intros acc s.
  - simpl. rewrite app_nil_r, Nat.add_0_r. destruct s; reflexivity.
  - cbn [collect_posts]. unfold bind at 1, now.
    cbn [stamp post_created_at stamp_from keep].
    unfold post_date. cbn [stamp post_created_at].
    destruct (before_cutoff ca (date_of (post_created_at p))).
    + rewrite IH. cbn [self wire ticks length].
      rewrite Nat.add_succ_r. reflexivity.
    + rewrite IH. cbn [self wire ticks length].
      rewrite <- app_assoc, Nat.add_succ_r. reflexivity.
Qed.

Lemma keep_stamped_ids (ca : option Z) (n : nat) (l : list post) :
  map post_id (keep ca (stamp_from clock n l)) = map post_id (keep ca l).
Proof.
  revert n. induction l as [|p l IH]; intros n; [reflexivity|].
  cbn [stamp_from keep]. unfold post_date. cbn [stamp post_created_at].
  fold post_date.
  destruct (before_cutoff ca (date_of (post_created_at p))); cbn [map];
    rewrite IH; reflexivity.
Qed.

Lemma accumulate_ids (ca : option Z) (n : nat) (pages : list (list post)) :
  map post_id (accumulate clock ca n pages) =
    concat (map (fun pg => map post_id (keep ca (sorted_by_id pg))) pages).
Proof.
  revert n. induction pages as [|pg pages IH]; intros n; [reflexivity|].
  cbn [accumulate map concat]. rewrite map_app, keep_stamped_ids, IH.
  reflexivity.
Qed.

Lemma accumulate_after (D : Z) (n : nat) (pages : list (list post)) :
  Forall (fun p => D <= post_date p) (accumulate clock (Some D) n pages).
Proof.
  revert n. induction pages as [|pg pages IH]; intros n; [constructor|].
  cbn [accumulate]. apply Forall_app. split; [apply keep_after|apply IH].
Qed.

(** One turn of the [while] loop: it leaves the loop with what it
    had, or goes round with the page it got. *)
Lemma pull_statuses_turn fuel id ca replies params acc s :
  let out := pull_statuses_loop net clock (S fuel) id ca replies params acc s in
  (exists new,
      (fst out = Ret acc \/ exists e, fst out = Raise e)
      /\ wire (snd out) = wire s ++ new
      /\ ((fetched new = [] /\ cursors new = []
           /\ sess_cookie (self s) = None)
          \/ exists ck,
               fetched new =
                 [answer_page
                    (net (length (wire s))
                       (Get (AccountStatuses id (negb replies)) params ck))]
               /\ cursors new = [params !! "max_id"]))
  \/
  (exists s1 new pg low ck,
      out = pull_statuses_loop net clock fuel id ca replies
              (<["max_id" := VInt (post_id low)]> params)
              (acc ++ keep ca (stamp_from clock (ticks s) (sorted_by_id pg)))
              s1
      /\ wire s1 = wire s ++ new
      /\ fetched new = [pg]
      /\ cursors new = [params !! "max_id"]
      /\ ticks s1 = (ticks s + length pg)%nat
      /\ sess_cookie (self s1) <> None
      /\ lowest pg = Some low
      /\ ~ closing_page ca pg
      /\ sess_cookie (self s) = Some ck
      /\ pg = answer_page
                (net (length (wire s))
                   (Get (AccountStatuses id (negb replies)) params ck))).
Proof.
  intros out. pose proof (eq_refl out) as Hout. unfold out at 2 in Hout.
  clearbody out. cbn [pull_statuses_loop] in Hout.
  unfold bind at 1 in Hout. unfold try_except in Hout.
  unfold bind at 1 in Hout. unfold read_sess_cookie, bind at 1, get_self in Hout.
  destruct (sess_cookie (self s)) as [ck|] eqn:Eck.
  2: { left. exists []. subst out. cbn. rewrite app_nil_r. auto 6. }
  unfold ret at 1 in Hout. unfold bind at 1 in Hout.
  destruct (_get_frame net false
              (Get (AccountStatuses id (negb replies)) params ck) s)
    as (r & c & extra & Heq & Hf & [Hfe Hcu] & Hans & Hck).
  rewrite Heq in Hout.
  assert (Hcursors :
            cursors ((Get (AccountStatuses id (negb replies)) params ck,
                      net (length (wire s))
                        (Get (AccountStatuses id (negb replies)) params ck))
                     :: extra)
            = [params !! "max_id"]).
  { unfold cursors in *. cbn. rewrite Hcu. reflexivity. }
  assert (Hfetched :
            fetched ((Get (AccountStatuses id (negb replies)) params ck,
                      net (length (wire s))
                        (Get (AccountStatuses id (negb replies)) params ck))
                     :: extra)
            = [answer_page
                 (net (length (wire s))
                    (Get (AccountStatuses id (negb replies)) params ck))]).
  { unfold fetched in *. cbn. rewrite Hfe. reflexivity. }
  assert (Hleave : forall (res : result (list post)) (c' : client) (t : nat),
             res = Ret acc \/ (exists e, res = Raise e) ->
             out = (res, mk_state c'
                      (wire s ++
                       (Get (AccountStatuses id (negb replies)) params ck,
                        net (length (wire s))
                          (Get (AccountStatuses id (negb replies)) params ck))
                       :: extra) t) ->
             exists new,
               (fst out = Ret acc \/ exists e, fst out = Raise e)
               /\ wire (snd out) = wire s ++ new
               /\ ((fetched new = [] /\ cursors new = [] /\ Some ck = None)
                   \/ exists ck,
                        fetched new =
                          [answer_page
                             (net (length (wire s))
                                (Get (AccountStatuses id (negb replies))
                                     params ck))]
                        /\ cursors new = [params !! "max_id"])).
  { intros res c' t Hres ->. eexists. cbn [fst snd wire].
    split; [exact Hres|]. split; [reflexivity|]. right.
    exists ck. split; [exact Hfetched|exact Hcursors]. }
  destruct r as [resp|e|]; [|left|congruence].
  2: { apply (Hleave _ _ _ (or_introl eq_refl) Hout). }
  specialize (Hans resp eq_refl).
  unfold bind at 1, response_json in Hout.
  destruct (json_body resp) as [j|] eqn:Ej.
  2: { left. apply (Hleave _ _ _ (or_introl eq_refl) Hout). }
  unfold ret at 1 2 in Hout.
  destruct j as [| | |str|d|result].
  1-3: left; eapply Hleave; [|exact Hout]; right; eexists; reflexivity.
  { left. destruct (contains_error str); [|destruct (String.eqb str "")];
      (eapply Hleave; [|exact Hout]);
      first [left; reflexivity|right; eexists; reflexivity]. }
  { left. destruct (d !! "error"); [|destruct (decide (d = ∅))];
      (eapply Hleave; [|exact Hout]);
      first [left; reflexivity|right; eexists; reflexivity]. }
  destruct (sorted_by_id result) as [|oldest l] eqn:Esort.
  { left. eapply Hleave; [|exact Hout]. left; reflexivity. }
  destruct (before_cutoff ca
              (date_of (post_created_at (List.last (oldest :: l) oldest))))
    eqn:Ecut.
  { left. eapply Hleave; [|exact Hout]. left; reflexivity. }
  right. unfold bind at 1 in Hout. rewrite collect_posts_spec in Hout.
  cbn [self wire ticks] in Hout.
  assert (Hres : result = answer_page
                   (net (length (wire s))
                      (Get (AccountStatuses id (negb replies)) params ck))).
  { rewrite Hans. unfold answer_page. rewrite Ej. reflexivity. }
  eexists _, _, result, oldest, ck.
  split; [rewrite Esort; exact Hout|].
  cbn [wire ticks self]. split; [reflexivity|].
  split; [rewrite Hfetched, <- Hres; reflexivity|].
  split; [exact Hcursors|].
  split; [rewrite <- Esort, sorted_by_id_length; reflexivity|].
  split; [apply Hck; rewrite Eck; discriminate|].
  split; [unfold lowest; rewrite Esort; reflexivity|].
  split; [|split; [reflexivity|exact Hres]].
  unfold closing_page, highest. rewrite Esort.
  rewrite (last_default (oldest :: l) oldest) by discriminate.
  unfold post_date. rewrite Ecut. discriminate.
Qed.

(** A run that returns: the wire it added, what it accumulated, and
    where it stopped. *)
Lemma pull_statuses_loop_run fuel : forall id ca replies params acc s l s',
  pull_statuses_loop net clock fuel id ca replies params acc s = (Ret l, s') ->
  exists new, wire s' = wire s ++ new
    /\ l = acc ++ accumulate clock ca (ticks s) (removelast (fetched new))
    /\ (sess_cookie (self s) <> None -> fetched new <> [])
    /\ (forall i pg, fetched new !! i = Some pg -> closing_page ca pg ->
          S i = length (fetched new)).
Proof.
  induction fuel as [|fuel IH]; intros id ca replies params acc s l s' Hrun.
  { discriminate. }
  destruct (pull_statuses_turn fuel id ca replies params acc s)
    as [(new & Hres & Hwire & Hpages)
       |(s1 & new & pg & low & ck & Hout & Hwire & Hpages & _ & Hticks & Hck
            & Hlow & Hopen & _ & Hpg)].
  - rewrite Hrun in Hres, Hwire. cbn [fst snd] in Hres, Hwire.
    destruct Hres as [Hres|[e Hres]]; [|discriminate].
    injection Hres as ->. exists new. split; [exact Hwire|].
    destruct Hpages as [(Hnone & _ & Hck)|(ck & Hone & _)].
    + rewrite Hnone. cbn. rewrite app_nil_r.
      split; [reflexivity|]. split; [congruence|].
      intros i pg Hi. rewrite lookup_nil in Hi. discriminate.
    + rewrite Hone. cbn. rewrite app_nil_r.
      split; [reflexivity|]. split; [discriminate|].
      intros [|i] pg Hi _; [reflexivity|]. cbn in Hi. discriminate.
  - rewrite Hout in Hrun.
    destruct (IH _ _ _ _ _ _ _ _ Hrun) as (new' & Hwire' & Hl & Hne & Hclose).
    specialize (Hne Hck).
    exists (new ++ new'). rewrite fetched_app, Hpages.
    split; [rewrite Hwire', Hwire, app_assoc; reflexivity|].
    split; [|split; [discriminate|]].
    + rewrite Hl, Hticks. cbn [app].
      destruct (fetched new') as [|pg' rest]; [congruence|].
      cbn [removelast accumulate]. rewrite <- app_assoc. reflexivity.
    + intros [|i] pg0 Hi Hcl.
      * cbn in Hi. injection Hi as <-. contradiction.
      * cbn in Hi. cbn [app length]. f_equal. apply (Hclose i pg0 Hi Hcl).
Qed.

(** Against an API that answers below the cursor, the pages of a run,
    finished or not, go down, and each cursor after the first is the
    lowest ID of the page before it. *)
Lemma pull_statuses_loop_cursor fuel : forall id ca replies params acc s,
  api_below_cursor net ->
  exists new,
    wire (snd (pull_statuses_loop net clock fuel id ca replies params acc s))
      = wire s ++ new
    /\ pages_descend (fetched new)
    /\ (forall m, params !! "max_id" = Some (VInt m) ->
          forall pg p, pg ∈ fetched new -> p ∈ pg -> post_id p < m)
    /\ (forall c, cursors new !! O = Some c -> c = params !! "max_id")
    /\ (forall i pg c,
          fetched new !! i = Some pg -> cursors new !! S i = Some c ->
          exists low, lowest pg = Some low /\ c = Some (VInt (post_id low))).
Proof.
  induction fuel as [|fuel IH]; intros id ca replies params acc s Hapi.
  { exists []. cbn. rewrite app_nil_r. split; [reflexivity|].
    split; [|split; [|split]].
    - intros i j pi pj a b Hi. rewrite lookup_nil in Hi. discriminate.
    - intros m _ pg p Hpg. apply elem_of_nil in Hpg. contradiction.
    - intros c Hc. discriminate.
    - intros i pg c Hi. rewrite lookup_nil in Hi. discriminate. }
  destruct (pull_statuses_turn fuel id ca replies params acc s)
    as [(new & Hres & Hwire & Hpages)
       |(s1 & new & pg & low & ck & Hout & Hwire & Hpages & Hcur & Hticks
            & Hck & Hlow & Hopen & _ & Hpg)].
  - exists new. split; [exact Hwire|].
    destruct Hpages as [(Hnone & Hnoc & _)|(ck & Hone & Hcur)].
    + rewrite Hnone, Hnoc. split; [|split; [|split]].
      * intros i j pi pj a b Hi. rewrite lookup_nil in Hi. discriminate.
      * intros m _ pg p Hpg. apply elem_of_nil in Hpg. contradiction.
      * intros c Hc. discriminate.
      * intros i pg c Hi. rewrite lookup_nil in Hi. discriminate.
    + rewrite Hone, Hcur. split; [|split; [|split]].
      * intros [|i] [|j] pi pj a b Hi Hj Hij; try lia; cbn in Hj;
          discriminate.
      * intros m Hm pg p Hpg Hp. apply list_elem_of_singleton in Hpg. subst pg.
        eapply Hapi; eassumption.
      * intros c Hc. cbn in Hc. congruence.
      * intros i pg c _ Hc. cbn in Hc. discriminate.
  - rewrite Hout.
    destruct (IH id ca replies (<["max_id" := VInt (post_id low)]> params)
                (acc ++ keep ca (stamp_from clock (ticks s) (sorted_by_id pg)))
                s1 Hapi) as (new' & Hwire' & Hdesc & Hbound & Hfirst & Hchain).
    specialize (Hbound (post_id low) (lookup_insert_eq _ _ _)).
    exists (new ++ new'). rewrite fetched_app, cursors_app, Hpages, Hcur.
    split; [rewrite Hwire', Hwire, app_assoc; reflexivity|].
    split; [|split; [|split]].
    + intros [|i] [|j] pi pj a b Hi Hj Hij Ha Hb; try lia; cbn in Hi, Hj.
      * injection Hi as <-.
        assert (post_id b < post_id low).
        { eapply Hbound; [|exact Hb]. eapply list_elem_of_lookup_2. exact Hj. }
        pose proof (lowest_is_least pg low a Hlow Ha). lia.
      * eapply (Hdesc i j); try eassumption. lia.
    + intros m Hm pg0 p Hpg0 Hp. cbn in Hpg0.
      apply elem_of_cons in Hpg0 as [->|Hpg0].
      * rewrite Hpg in Hp. eapply Hapi; eassumption.
      * assert (post_id p < post_id low) by (eapply Hbound; eassumption).
        assert (post_id low < m).
        { pose proof (lowest_elem pg low Hlow) as Hin. rewrite Hpg in Hin.
          eapply Hapi; eassumption. }
        lia.
    + intros c Hc. cbn in Hc. congruence.
    + intros [|i] pg0 c Hi Hc; cbn in Hi, Hc.
      * injection Hi as <-. exists low. split; [exact Hlow|].
        rewrite (Hfirst c Hc). apply lookup_insert_eq.
      * apply (Hchain i pg0 c Hi Hc).
Qed.

(** Against an API that answers below a non-negative cursor, the
    loop ends within as many pages as the cursor allows. *)
Lemma pull_statuses_loop_ends (k : nat) :
  forall id ca replies params acc s m,
    api_below_cursor net -> api_ids_nonnegative net ->
    params !! "max_id" = Some (VInt m) -> m < Z.of_nat k ->
    fst (pull_statuses_loop net clock (S k) id ca replies params acc s)
      <> OutOfFuel.
Proof.
  induction k as [|k IH]; intros id ca replies params acc s m Hapi Hpos Hm Hk.
  - destruct (pull_statuses_turn O id ca replies params acc s)
      as [(new & Hres & _)
         |(s1 & new & pg & low & ck & Hout & _ & _ & _ & _ & _
              & Hlow & _ & _ & Hpg)].
    + destruct Hres as [->|[e ->]]; discriminate.
    + apply lowest_elem in Hlow. rewrite Hpg in Hlow.
      pose proof (Hapi _ _ _ _ _ _ _ Hm Hlow).
      pose proof (Hpos _ _ _ Hlow). cbn in Hk. lia.
  - destruct (pull_statuses_turn (S k) id ca replies params acc s)
      as [(new & Hres & _)
         |(s1 & new & pg & low & ck & Hout & _ & _ & _ & _ & _
              & Hlow & _ & _ & Hpg)].
    + destruct Hres as [->|[e ->]]; discriminate.
    + apply lowest_elem in Hlow. rewrite Hpg in Hlow.
      pose proof (Hapi _ _ _ _ _ _ _ Hm Hlow).
      pose proof (Hpos _ _ _ Hlow).
      rewrite Hout. apply (IH _ _ _ _ _ _ (post_id low)); try assumption.
      * apply lookup_insert_eq.
      * lia.
Qed.

(** X17. Against an API that answers a [max_id] cursor with lower
    IDs only and whose IDs are not negative, [pull_statuses] ends:
    some fuel is enough. *)
Lemma pull_statuses_ends id ca replies s :
  api_below_cursor net -> api_ids_nonnegative net ->
  exists fuel,
    fst (pull_statuses net clock fuel id ca replies s) <> OutOfFuel.
Proof.
  intros Hapi Hpos. unfold pull_statuses.
  destruct (sess_cookie (self s)) as [ck|] eqn:Eck.
  2: { exists 1%nat.
       destruct (pull_statuses_turn O id ca replies ∅ [] s)
         as [(new & [->|[e ->]] & _)|(s1 & new & pg & low & ck & _ & _ & _
               & _ & _ & _ & _ & _ & Habs & _)];
         [discriminate|discriminate|congruence]. }
  set (pg0 := answer_page
                (net (length (wire s))
                   (Get (AccountStatuses id (negb replies)) ∅ ck))).
  destruct (lowest pg0) as [low0|] eqn:Elow.
  - exists (S (S (Z.to_nat (post_id low0 + 1)))).
    destruct (pull_statuses_turn (S (Z.to_nat (post_id low0 + 1)))
                id ca replies ∅ [] s)
      as [(new & [->|[e ->]] & _)|(s1 & new & pg & low & ck' & Hout & _ & _
            & _ & _ & _ & Hlow & _ & Hck' & Hpg)];
      [discriminate|discriminate|].
    assert (ck' = ck) by congruence. subst ck'. fold pg0 in Hpg. subst pg.
    assert (low = low0) by congruence. subst low.
    rewrite Hout.
    apply (pull_statuses_loop_ends _ _ _ _ _ _ _ (post_id low0));
      try assumption.
    + apply lookup_insert_eq.
    + pose proof (Hpos _ _ _ (lowest_elem _ _ Elow)). lia.
  - exists 1%nat.
    destruct (pull_statuses_turn O id ca replies ∅ [] s)
      as [(new & [->|[e ->]] & _)|(s1 & new & pg & low & ck' & _ & _ & _
            & _ & _ & _ & Hlow & _ & Hck' & Hpg)];
      [discriminate|discriminate|].
    assert (ck' = ck) by congruence. subst ck'. fold pg0 in Hpg. subst pg.
    congruence.
Qed.

(** C8, as the code has it. The accumulated list takes the pages in
    the order they were requested, every page before the last one, and
    within a page the posts go by ascending ID, oldest first. *)
Theorem pull_statuses_order fuel id ca replies s l s' :
  pull_statuses net clock fuel id ca replies s = (Ret l, s') ->
  exists new,
    wire s' = wire s ++ new
    /\ map post_id l =
         concat (map (fun pg => map post_id (keep ca (sorted_by_id pg)))
                     (removelast (fetched new)))
    /\ Forall (fun pg => ascending (keep ca (sorted_by_id pg))) (fetched new).
Proof.
  intros Hrun. unfold pull_statuses in Hrun.
  destruct (pull_statuses_loop_run _ _ _ _ _ _ _ _ _ Hrun)
    as (new & Hwire & Hl & _ & _).
  cbn [app] in Hl. exists new. split; [exact Hwire|].
  split; [rewrite Hl; apply accumulate_ids|].
  apply Forall_forall. intros pg _.
  apply keep_ascending, sorted_by_id_ascending.
Qed.

(** C9. Against an API that answers a [max_id] cursor with lower IDs
    only, no post ID comes in two pages of one pagination: the pages
    go down, and the cursor of each request after the first is the
    lowest ID fetched until then. *)
Theorem pull_statuses_never_refetches fuel id ca replies s :
  api_below_cursor net ->
  exists new,
    wire (snd (pull_statuses net clock fuel id ca replies s)) = wire s ++ new
    /\ (forall i j pi pj a b,
          fetched new !! i = Some pi -> fetched new !! j = Some pj ->
          i <> j -> a ∈ pi -> b ∈ pj -> post_id a <> post_id b)
    /\ pages_descend (fetched new)
    /\ (forall i pg c,
          fetched new !! i = Some pg -> cursors new !! S i = Some c ->
          exists low,
            low ∈ pg /\ c = Some (VInt (post_id low))
            /\ forall j pj b,
                 (j <= i)%nat -> fetched new !! j = Some pj -> b ∈ pj ->
                 post_id low <= post_id b).
Proof.
  intros Hapi. unfold pull_statuses.
  destruct (pull_statuses_loop_cursor fuel id ca replies ∅ [] s Hapi)
    as (new & Hwire & Hdesc & _ & _ & Hchain).
  exists new. split; [exact Hwire|]. split; [|split; [exact Hdesc|]].
  - intros i j pi pj a b Hi Hj Hij Ha Hb.
    destruct (Nat.lt_total i j) as [Hlt|[Heq|Hlt]]; [|contradiction|].
    + pose proof (Hdesc i j pi pj a b Hi Hj Hlt Ha Hb). lia.
    + pose proof (Hdesc j i pj pi b a Hj Hi Hlt Hb Ha). lia.
  - intros i pg c Hi Hc.
    destruct (Hchain i pg c Hi Hc) as (low & Hlow & ->).
    exists low. split; [apply lowest_elem; exact Hlow|].
    split; [reflexivity|]. intros j pj b Hj Hpj Hb.
    destruct (Nat.eq_dec j i) as [->|Hne].
    + assert (pj = pg) by congruence. subst pj.
      apply (lowest_is_least pg low b Hlow Hb).
    + assert (Hlt : (j < i)%nat) by lia.
      pose proof (Hdesc j i pj pg b low Hpj Hi Hlt Hb
                    (lowest_elem pg low Hlow)). lia.
Qed.

End PaginatorFacts.

Lemma refresh_once_per_threshold_witness :
  logins (wire (snd (get_many (net_upto 10) sample_requests initial_state)))
    = S (logins (wire initial_state))
  /\ counter (snd (get_many (net_upto 10) sample_requests initial_state)) = 0.
Proof.
  assert (Hrun : fst (get_many (net_upto 10) sample_requests initial_state)
                 = Ret tt) by (vm_compute; reflexivity).
  exact (proj1 (refresh_once_per_threshold (net_upto 10) sample_requests
                  initial_state _ eq_refl eq_refl
                  (Forall_replicate not_sign_in 1001 (Get (Account 1) ∅ None) I)
                  (run_returns _ _ _ Hrun))).
Defined.

Lemma get_sess_cookie_missing_csrf_witness :
  fst (get_sess_cookie net_no_csrf "someone" "secret" initial_state)
    = Raise TypeError
  /\ ~ auth_failure
        (fst (get_sess_cookie net_no_csrf "someone" "secret" initial_state))
  /\ posts_sent
       (wire (snd (get_sess_cookie net_no_csrf "someone" "secret"
                     initial_state)))
     = posts_sent (wire initial_state).
Proof.
  exact (get_sess_cookie_missing_csrf net_no_csrf "someone" "secret"
           initial_state (sign_in_page None) eq_refl eq_refl eq_refl).
Defined.

(** C2 as worded fails: the first page of this timeline holds a post
    older than the cutoff, and a second page is requested all the
    same. *)
Lemma pull_statuses_goes_on_past_old_post :
  ~ stops_at_first_old_post 5
      (fetched (wire (snd (pull_statuses net_timeline clock0 10 7 (Some 5)
                             false logged_in_state)))).
Proof.
  assert (E : fetched (wire (snd (pull_statuses net_timeline clock0 10 7
                                    (Some 5) false logged_in_state)))
              = [[status_2; status_1]; [status_0]])
    by (vm_compute; reflexivity).
  rewrite E. intros Hstop.
  specialize (Hstop O [status_2; status_1] eq_refl).
  assert (Hold : has_post_before 5 [status_2; status_1]).
  { exists status_1. split; [|reflexivity].
    apply elem_of_cons. right. apply elem_of_cons. left. reflexivity. }
  specialize (Hstop Hold). discriminate.
Qed.

(** C8 as worded fails: the API serves this timeline newest first,
    and the accumulated IDs come out as 1, 2, 0. *)
Lemma pull_statuses_not_newest_first :
  exists l,
    fst (pull_statuses net_timeline clock0 10 7 None false logged_in_state)
      = Ret l
    /\ map post_id l = [1; 2; 0]
    /\ ~ newest_first l.
Proof.
  exists [stamp 0 status_1; stamp 0 status_2; stamp 0 status_0].
  split; [vm_compute; reflexivity|]. split; [reflexivity|].
  intros Hdown.
  specialize (Hdown 0%nat 1%nat (stamp 0 status_1) (stamp 0 status_2)
                    eq_refl eq_refl (le_n _)).
  cbn in Hdown. lia.
Qed.

Lemma pull_statuses_order_witness :
  fst (pull_statuses net_timeline clock0 10 7 None false logged_in_state)
    = Ret [stamp 0 status_1; stamp 0 status_2; stamp 0 status_0]
  /\ exists new,
       wire (snd (pull_statuses net_timeline clock0 10 7 None false
                    logged_in_state))
         = wire logged_in_state ++ new
       /\ map post_id [stamp 0 status_1; stamp 0 status_2; stamp 0 status_0]
          = concat (map (fun pg => map post_id (keep None (sorted_by_id pg)))
                        (removelast (fetched new)))
       /\ Forall (fun pg => ascending (keep None (sorted_by_id pg)))
                 (fetched new).
Proof.
  assert (Hrun : fst (pull_statuses net_timeline clock0 10 7 None false
                        logged_in_state)
                 = Ret [stamp 0 status_1; stamp 0 status_2; stamp 0 status_0])
    by (vm_compute; reflexivity).
  split; [exact Hrun|].
  exact (pull_statuses_order net_timeline clock0 10 7 None false
           logged_in_state _ _ (run_returns _ _ _ Hrun)).
Defined.

Lemma net_timeline_below_cursor : api_below_cursor net_timeline.
Proof.
  intros n id excl params ck m p Hm Hp. unfold net_timeline in Hp.
  rewrite Hm in Hp.
  destruct m as [|[[]|[]|]|]; cbn in Hp;
    repeat (apply elem_of_cons in Hp as [->|Hp]; [reflexivity|]);
    apply elem_of_nil in Hp; contradiction.
Defined.

Lemma pull_statuses_never_refetches_witness :
  api_below_cursor net_timeline
  /\ exists new,
       wire (snd (pull_statuses net_timeline clock0 10 7 None false
                    logged_in_state))
         = wire logged_in_state ++ new
       /\ (forall i j pi pj a b,
             fetched new !! i = Some pi -> fetched new !! j = Some pj ->
             i <> j -> a ∈ pi -> b ∈ pj -> post_id a <> post_id b)
       /\ pages_descend (fetched new)
       /\ (forall i pg c,
             fetched new !! i = Some pg -> cursors new !! S i = Some c ->
             exists low,
               low ∈ pg /\ c = Some (VInt (post_id low))
               /\ forall j pj b,
                    (j <= i)%nat -> fetched new !! j = Some pj -> b ∈ pj ->
                    post_id low <= post_id b).
Proof.
  split; [exact net_timeline_below_cursor|].
  exact (pull_statuses_never_refetches net_timeline clock0 10 7 None false
           logged_in_state net_timeline_below_cursor).
Defined.

(** ** Facts about the search *)

(** The limit is a value the probes reach, and the last one. *)
Lemma PROBE_LIMIT_reached :
  PROBE_LIMIT = probe_reach 3808 INITIAL_LOWER_BOUND
  /\ round_times_1_2 PROBE_LIMIT = None
  /\ 2 ^ 1023 < PROBE_LIMIT < 2 ^ 1024.
Proof. vm_compute. repeat split; reflexivity. Qed.

Lemma DBL_OVERFLOW_pow : DBL_OVERFLOW = 2 ^ 1024.
Proof. reflexivity. Qed.

Section SearchFacts.

Variable net : nat -> request -> http_result.
Variable clock : nat -> Z.

(** Where refreshes do not raise, a [_get] returns what was served. *)
Lemma _get_returns (rq : request) (s : state) (resp : response) :
  refresh_never_raises net ->
  net (length (wire s)) rq = HttpOk resp ->
  exists s', _get net false rq s = (Ret resp, s').
Proof.
  intros Hlogin Hans. unfold _get. unfold bind at 1.
  rewrite send_eq.
  destruct (net (length (wire s)) rq) as [e|r0] eqn:Eans; [discriminate|].
  injection Hans as ->. cbn [negb].
  unfold bind at 1 2 3, get_self, set_requests_since_refresh, set_self.
  unfold bind at 1 2, get_self. cbn [self wire ticks].
  cbn [_requests_since_refresh username password].
  destruct (_requests_since_refresh (self s) + 1 >? REQUESTS_PER_SESSION_REFRESH).
  - unfold bind at 1.
    match goal with
    | |- context [get_sess_cookie_with net (send net) ?u ?p ?s2] =>
        destruct (Hlogin u p s2) as [ck Hck];
        destruct (get_sess_cookie_with net (send net) u p s2) as [r3 s3]
    end.
    cbn [fst] in Hck. subst r3.
    unfold bind, set_sess_cookie, get_self, set_self, ret. cbn. eauto.
  - unfold bind, ret. eauto.
Qed.

Lemma pull_user_present (id : Z) (s : state) :
  refresh_never_raises net ->
  entity_answer id (net (length (wire s)) (Get (Account id) ∅ None)) ->
  exists d s',
    pull_user net clock id s = (Ret (Some d), s')
    /\ d !! "id" = Some (VInt id).
Proof.
  intros Hlogin (r & d & Hans & Hj & Hnf & Hid).
  pose proof (pull_user_cases net clock id s) as Hcases.
  destruct (_get_returns _ s r Hlogin Hans) as [s1 Hget].
  rewrite Hget in Hcases. cbn [fst] in Hcases. rewrite Hj, Hnf in Hcases.
  destruct (pull_user net clock id s) as [res s'] eqn:Erun.
  cbn [fst] in Hcases. subst res. eexists _, s'. split; [reflexivity|].
  rewrite lookup_insert_ne by discriminate. exact Hid.
Qed.

Section Upto.

Variable K : Z.
Hypothesis Hupstream : users_upto K net.
Hypothesis Hlogin : refresh_never_raises net.

Lemma pull_user_upto (id : Z) (s : state) :
  exists res s',
    pull_user net clock id s = (Ret res, s')
    /\ (id <= K -> exists d, res = Some d /\ d !! "id" = Some (VInt id))
    /\ (K < id -> res = None).
Proof.
  destruct (Hupstream (length (wire s)) id) as [Hyes Hno].
  destruct (Z.le_gt_cases id K) as [Hle|Hgt].
  - destruct (pull_user_present id s Hlogin (Hyes Hle)) as (d & s' & Hrun & Hid).
    exists (Some d), s'. split; [exact Hrun|]. split; [eauto|lia].
  - destruct (pull_user_absent net clock id s (Hno Hgt)) as (s' & Hrun).
    exists None, s'. split; [exact Hrun|]. split; [lia|reflexivity].
Qed.

(** The first loop ends on a probe above [K]. *)
Lemma probe_upper_bound_passes (n : nat) :
  forall (fuel : nat) (u : Z) (s : state),
    climbs n u = true -> (n < fuel)%nat -> K < PROBE_LIMIT ->
    exists upper s',
      probe_upper_bound net clock fuel u s = (Ret upper, s')
      /\ K < upper /\ u <= upper
      /\ (upper < 2 ^ 1024 \/ upper = u).
Proof.
  induction n as [|n IH]; intros fuel u s Hclimb Hfuel HK;
    (destruct fuel as [|fuel]; [lia|]);
    cbn [probe_upper_bound]; unfold bind at 1;
    destruct (pull_user_upto u s) as (res & s1 & Hrun & Hyes & Hno);
    rewrite Hrun;
    (destruct (Z.le_gt_cases u K) as [Hle|Hgt];
     [|rewrite (Hno Hgt); unfold ret; eexists _, _;
       split; [reflexivity|]; split; [lia|]; split; [lia|right; reflexivity]]);
    destruct (Hyes Hle) as (d & -> & _);
    cbn [climbs] in Hclimb;
    (destruct (Z.leb_spec PROBE_LIMIT u); [lia|]);
    cbn [orb] in Hclimb; [discriminate|].
  destruct (round_times_1_2 u) as [u'|]; [|discriminate].
  apply andb_prop in Hclimb as [Hclimb Hrest].
  apply andb_prop in Hclimb as [Hup Hlim].
  apply Z.ltb_lt in Hup. apply Z.ltb_lt in Hlim.
  rewrite DBL_OVERFLOW_pow in Hlim.
  destruct (IH fuel u' s1 Hrest) as (upper & s' & Hprobe & H1 & H2 & H3);
    [lia|exact HK|].
  exists upper, s'. split; [exact Hprobe|]. split; [exact H1|].
  split; [lia|]. left. destruct H3; lia.
Qed.

(** The second loop closes in on [K]. *)
Lemma binary_search_finds (f : nat) :
  forall (fuel : nat) (lo hi : Z) (user : option dict) (s : state),
    lo <= K + 1 -> K <= hi -> hi - lo + 1 < 2 ^ Z.of_nat f ->
    (f < fuel)%nat ->
    (lo = K + 1 -> exists d, user = Some d /\ d !! "id" = Some (VInt K)) ->
    exists d s',
      binary_search net clock fuel lo hi user s = (Ret (Some d), s')
      /\ d !! "id" = Some (VInt K).
Proof.
  induction f as [|f IH]; intros fuel lo hi user s Hlo Hhi Hw Hfuel Huser;
    (destruct fuel as [|fuel]; [lia|]); cbn [binary_search];
    destruct (Z.leb_spec lo hi) as [Hle|Hgt].
  - change (2 ^ Z.of_nat 0) with 1 in Hw. lia.
  - destruct Huser as (d & -> & Hid); [lia|]. unfold ret. eauto.
  - unfold bind at 1.
    destruct (pull_user_upto ((lo + hi) `div` 2) s)
      as (res & s1 & Hrun & Hyes & Hno).
    rewrite Hrun.
    assert (Hmid : lo <= (lo + hi) `div` 2 <= hi).
    { split; [apply Z.div_le_lower_bound|apply Z.div_le_upper_bound]; lia. }
    assert (Hpow : 2 ^ Z.of_nat (S f) = 2 * 2 ^ Z.of_nat f).
    { rewrite Nat2Z.inj_succ, Z.pow_succ_r by lia. reflexivity. }
    assert (Hhalf : 2 * ((lo + hi) `div` 2) <= lo + hi < 2 * ((lo + hi) `div` 2) + 2).
    { pose proof (Z.div_mod (lo + hi) 2 ltac:(lia)).
      pose proof (Z.mod_pos_bound (lo + hi) 2 ltac:(lia)). lia. }
    destruct (Z.le_gt_cases ((lo + hi) `div` 2) K) as [Hin|Hout].
    + destruct (Hyes Hin) as (d & -> & Hid).
      apply IH; try lia. intros Heq. exists d. split; [reflexivity|].
      replace K with ((lo + hi) `div` 2) by lia. exact Hid.
    + rewrite (Hno Hout). apply IH; try lia. exact Huser.
  - destruct Huser as (d & -> & Hid); [lia|]. unfold ret. eauto.
Qed.

Lemma climbs_from_lower_bound : climbs 4000 INITIAL_LOWER_BOUND = true.
Proof. vm_compute. reflexivity. Qed.

(** C3, as the code has it. On an upstream with a user for every ID up
    to [K] and none above, with [K] at or above the initial lower
    bound and below [PROBE_LIMIT], the last probe that does not
    overflow, and on which session refreshes do not raise, the two
    loops of [find_latest_user] end with the entity whose ID is
    [K]. *)
Theorem find_latest_user_search_finds (fuel : nat) (s : state) :
  INITIAL_LOWER_BOUND <= K -> K < PROBE_LIMIT -> (4000 < fuel)%nat ->
  exists d s',
    find_latest_user_search net clock fuel s = (Ret (Some d), s')
    /\ d !! "id" = Some (VInt K).
Proof.
  intros Hlow Hhigh Hfuel. unfold find_latest_user_search. unfold bind.
  destruct (probe_upper_bound_passes 4000 fuel INITIAL_LOWER_BOUND s
              climbs_from_lower_bound Hfuel Hhigh)
    as (upper & s1 & Hprobe & Hup & Hge & Hlim).
  rewrite Hprobe.
  apply (binary_search_finds 1024); try lia.
  change (Z.of_nat 1024) with 1024.
  unfold INITIAL_LOWER_BOUND in *. destruct Hlim; lia.
Qed.

End Upto.

(** More fuel does not change a run that ended. *)
Lemma probe_upper_bound_fuel (fuel : nat) :
  forall (fuel' : nat) (u : Z) (s : state),
    (fuel <= fuel')%nat ->
    fst (probe_upper_bound net clock fuel u s) <> OutOfFuel ->
    probe_upper_bound net clock fuel' u s = probe_upper_bound net clock fuel u s.
Proof.
  induction fuel as [|fuel IH]; intros fuel' u s Hle Hend.
  { cbn in Hend. congruence. }
  destruct fuel' as [|fuel']; [lia|].
  cbn [probe_upper_bound] in *. unfold bind in *.
  destruct (pull_user net clock u s) as [[[d|]| |] s1]; try reflexivity.
  destruct (round_times_1_2 u) as [u'|]; [|reflexivity].
  apply IH; [lia|exact Hend].
Qed.

Lemma binary_search_fuel (fuel : nat) :
  forall (fuel' : nat) (lo hi : Z) (user : option dict) (s : state),
    (fuel <= fuel')%nat ->
    fst (binary_search net clock fuel lo hi user s) <> OutOfFuel ->
    binary_search net clock fuel' lo hi user s
      = binary_search net clock fuel lo hi user s.
Proof.
  induction fuel as [|fuel IH]; intros fuel' lo hi user s Hle Hend.
  { cbn in Hend. congruence. }
  destruct fuel' as [|fuel']; [lia|].
  cbn [binary_search] in *. destruct (lo <=? hi); [|reflexivity].
  unfold bind in *.
  destruct (pull_user net clock ((lo + hi) `div` 2) s) as [[[d|]| |] s1];
    try reflexivity; (apply IH; [lia|exact Hend]).
Qed.

Lemma find_latest_user_search_fuel (fuel fuel' : nat) (s : state) :
  (fuel <= fuel')%nat ->
  fst (find_latest_user_search net clock fuel s) <> OutOfFuel ->
  find_latest_user_search net clock fuel' s
    = find_latest_user_search net clock fuel s.
Proof.
  intros Hle Hend. unfold find_latest_user_search in *. unfold bind in *.
  destruct (probe_upper_bound net clock fuel INITIAL_LOWER_BOUND s)
    as [r s1] eqn:Eprobe.
  assert (Hr : r <> OutOfFuel).
  { destruct r; [discriminate|discriminate|]. cbn in Hend. congruence. }
  rewrite (probe_upper_bound_fuel fuel fuel' _ s Hle) by (rewrite Eprobe; exact Hr).
  rewrite Eprobe. destruct r as [upper| |]; try reflexivity.
  apply binary_search_fuel; [exact Hle|exact Hend].
Qed.

Lemma find_latest_user_search_agree (f1 f2 : nat) (s : state)
    (r1 r2 : result (option dict)) :
  fst (find_latest_user_search net clock f1 s) = r1 ->
  fst (find_latest_user_search net clock f2 s) = r2 ->
  r1 <> OutOfFuel -> r2 <> OutOfFuel -> r1 = r2.
Proof.
  intros H1 H2 Hn1 Hn2. subst r1 r2.
  destruct (Nat.le_ge_cases f1 f2) as [Hle|Hle].
  - rewrite (find_latest_user_search_fuel f1 f2 s Hle Hn1). reflexivity.
  - rewrite (find_latest_user_search_fuel f2 f1 s Hle Hn2). reflexivity.
Qed.

(** C7. When the search has found an entity that carries the fields
    the log messages format, [find_latest_user] raises the staleness
    error exactly when the entity is more than 30 minutes old by its
    creation timestamp, and returns the entity otherwise. *)
Theorem find_latest_user_stale_iff (fuel : nat) (s s1 : state) (user : dict)
    (t : Z) :
  find_latest_user_search net clock fuel s = (Ret (Some user), s1) ->
  user !! "created_at" = Some (VTime t) ->
  is_Some (user !! "username") ->
  is_Some (user !! "id") ->
  let age := clock (ticks s1) - t in
  (fst (find_latest_user net clock fuel s) = Raise RuntimeError
   <-> THIRTY_MINUTES < age)
  /\ (fst (find_latest_user net clock fuel s) = Ret user
      <-> age <= THIRTY_MINUTES).
Proof.
  intros Hsearch Hcreated [name Hname] [uid Hid] age.
  assert (E : fst (find_latest_user net clock fuel s)
              = if age >? THIRTY_MINUTES then Raise RuntimeError
                else Ret user).
  { unfold find_latest_user. unfold bind at 1. rewrite Hsearch.
    unfold validate_latest_user, subscript. rewrite Hcreated, Hname, Hid.
    unfold bind at 1, ret at 1. unfold date_parse.
    unfold bind at 1, ret at 1. unfold bind at 1, now. cbn [self wire ticks].
    fold age. destruct (age >? THIRTY_MINUTES); reflexivity. }
  rewrite E.
  destruct (Z.gtb_spec age THIRTY_MINUTES) as [Hold|Hfresh];
    split; split; intros H; first [reflexivity|lia|discriminate H].
Qed.

(** C10. When nothing is served at or above the initial lower bound,
    the search ends without a candidate and [find_latest_user] raises
    the [TypeError] of subscripting [None]. *)
Theorem find_latest_user_nobody (fuel : nat) (s : state) :
  (forall n id,
      INITIAL_LOWER_BOUND <= id ->
      absent_answer (net n (Get (Account id) ∅ None))) ->
  (2 <= fuel)%nat ->
  (exists s1, find_latest_user_search net clock fuel s = (Ret None, s1))
  /\ fst (find_latest_user net clock fuel s) = Raise TypeError.
Proof.
  intros Habsent Hfuel.
  assert (Hsearch : exists s1,
             find_latest_user_search net clock fuel s = (Ret None, s1)).
  { destruct fuel as [|[|fuel]]; try lia.
    unfold find_latest_user_search. cbn [probe_upper_bound].
    unfold bind at 1. unfold bind at 1.
    destruct (pull_user_absent net clock INITIAL_LOWER_BOUND s) as [s1 Hfirst];
      [apply Habsent; lia|].
    rewrite Hfirst. unfold ret at 1. cbn [binary_search].
    change (INITIAL_LOWER_BOUND <=? INITIAL_LOWER_BOUND) with true.
    change ((INITIAL_LOWER_BOUND + INITIAL_LOWER_BOUND) `div` 2)
      with INITIAL_LOWER_BOUND.
    unfold bind at 1.
    destruct (pull_user_absent net clock INITIAL_LOWER_BOUND s1) as [s2 Hmid];
      [apply Habsent; lia|].
    rewrite Hmid.
    change (INITIAL_LOWER_BOUND <=? INITIAL_LOWER_BOUND - 1) with false.
    unfold ret. eauto. }
  split; [exact Hsearch|]. destruct Hsearch as [s1 Hsearch].
  unfold find_latest_user, bind. rewrite Hsearch. reflexivity.
Qed.

End SearchFacts.

Lemma net_upto_users (K : Z) : users_upto K (net_upto K).
Proof.
  intros n id. unfold net_upto. split; intros Hid.
  - destruct (Z.leb_spec id K); [|lia].
    eexists _, _. split; [reflexivity|]. split; [reflexivity|].
    split; reflexivity.
  - destruct (Z.leb_spec id K); [lia|]. reflexivity.
Defined.

Lemma net_upto_refresh (K : Z) : refresh_never_raises (net_upto K).
Proof.
  intros u p s. eexists. reflexivity.
Defined.

Lemma find_latest_user_search_finds_witness :
  exists d s',
    find_latest_user_search (net_upto 5318600) clock0 4001 initial_state
      = (Ret (Some d), s')
    /\ d !! "id" = Some (VInt 5318600).
Proof.
  refine (find_latest_user_search_finds (net_upto 5318600) clock0 5318600
            (net_upto_users _) (net_upto_refresh _) 4001 initial_state
            _ _ _).
  - discriminate.
  - reflexivity.
  - apply le_n.
Defined.

Lemma overflow_run :
  fst (find_latest_user_search (net_upto PROBE_LIMIT) clock0 4000
         initial_state) = Raise OverflowError.
Proof. vm_compute. reflexivity. Qed.

(** C3 as worded fails where the probes leave the range of doubles:
    with users up to [PROBE_LIMIT] the first loop raises
    [OverflowError], whatever the fuel. *)
Lemma find_latest_user_search_overflows :
  users_upto PROBE_LIMIT (net_upto PROBE_LIMIT)
  /\ INITIAL_LOWER_BOUND <= PROBE_LIMIT
  /\ fst (find_latest_user_search (net_upto PROBE_LIMIT) clock0 4000
            initial_state) = Raise OverflowError
  /\ ~ exists fuel d s',
         find_latest_user_search (net_upto PROBE_LIMIT) clock0 fuel
           initial_state = (Ret (Some d), s').
Proof.
  split; [apply net_upto_users|]. split; [discriminate|].
  split; [exact overflow_run|]. intros (fuel & d & s' & Hfound).
  assert (Hf : fst (find_latest_user_search (net_upto PROBE_LIMIT) clock0 fuel
                      initial_state) = Ret (Some d))
    by (rewrite Hfound; reflexivity).
  pose proof (find_latest_user_search_agree _ _ _ _ _ _ _ overflow_run Hf
                ltac:(discriminate) ltac:(discriminate)) as Habsurd.
  discriminate Habsurd.
Qed.

Lemma find_latest_user_stale_iff_witness :
  let run := find_latest_user_search (net_upto 5318600) clock0 40
               initial_state in
  let user : dict := <["_pulled" := VTime 0]> (account_record 5318600) in
  let age := clock0 (ticks (snd run)) - 1000 * 5318600 in
  fst run = Ret (Some user)
  /\ (fst (find_latest_user (net_upto 5318600) clock0 40 initial_state)
        = Raise RuntimeError
      <-> THIRTY_MINUTES < age)
  /\ (fst (find_latest_user (net_upto 5318600) clock0 40 initial_state)
        = Ret user
      <-> age <= THIRTY_MINUTES).
Proof.
  intros run user age.
  assert (Hrun : fst run = Ret (Some user)) by (vm_compute; reflexivity).
  split; [exact Hrun|].
  refine (find_latest_user_stale_iff (net_upto 5318600) clock0 40
            initial_state (snd run) user (1000 * 5318600)
            (run_returns _ _ _ Hrun) _ _ _).
  - vm_compute. reflexivity.
  - eexists. vm_compute. reflexivity.
  - eexists. vm_compute. reflexivity.
Defined.

Lemma find_latest_user_nobody_witness :
  (exists s1,
      find_latest_user_search (net_upto 100) clock0 2 initial_state
        = (Ret None, s1))
  /\ fst (find_latest_user (net_upto 100) clock0 2 initial_state)
     = Raise TypeError.
Proof.
  refine (find_latest_user_nobody (net_upto 100) clock0 2 initial_state _ _).
  - intros n id Hid. apply (net_upto_users 100 n id).
    unfold INITIAL_LOWER_BOUND in Hid. lia.
  - apply le_n.
Defined.

(** ** Facts about the walks *)

Lemma pick_perm (mask : list bool) (items : list Z) :
  (pick mask items).1 ++ (pick mask items).2 ≡ₚ items.
Proof.
  revert mask. induction items as [|x items IH]; intros mask.
  - destruct mask; reflexivity.
  - destruct mask as [|b mask]; [reflexivity|]. cbn [pick].
    specialize (IH mask). destruct (pick mask items) as [done rest].
    cbn [fst snd] in *. destruct b; cbn [fst snd].
    + cbn. rewrite IH. reflexivity.
    + rewrite <- Permutation_middle, IH. reflexivity.
Qed.

(** A wait on a non-empty list takes at least one future out of it. *)
Lemma await_any_spec (mask : list bool) (items : list Z) :
  items <> [] ->
  (await_any mask items).1 <> []
  /\ (await_any mask items).1 ++ (await_any mask items).2 ≡ₚ items.
Proof.
  intros Hne. unfold await_any. pose proof (pick_perm mask items) as Hperm.
  destruct (pick mask items) as [[|d done] [|r rest]]; cbn [fst snd] in *.
  - apply Permutation_nil_l in Hperm. congruence.
  - split; [discriminate|exact Hperm].
  - split; [discriminate|exact Hperm].
  - split; [discriminate|exact Hperm].
Qed.

Section WalkFacts.

Variable task : Z -> result task_result.
Hypothesis task_returns : forall id, exists r, task id = Ret r.

Lemma take_results_spec (done : list Z) (w : walk) :
  exists w',
    take_results task done w = Ret w'
    /\ w_f w' = w_f w /\ w_ids w' = w_ids w
    /\ w_submitted w' = w_submitted w
    /\ w_completed w' = w_completed w ++ done.
Proof.
  revert w. induction done as [|id done IH]; intros w.
  - exists w. cbn. rewrite app_nil_r. auto.
  - cbn [take_results]. destruct (task_returns id) as [[entity found] ->].
    match goal with |- context [take_results task done ?w1] =>
      destruct (IH w1) as (w' & Hrun & Hf & Hids & Hsub & Hcomp) end.
    exists w'. split; [exact Hrun|].
    destruct entity; cbn in *; rewrite Hf, Hids, Hsub, Hcomp, <- app_assoc;
      auto.
Qed.

Lemma schedule_more_spec (n : nat) (w : walk) :
  let w' := schedule_more n w in
  w_f w' = w_f w ++ take n (w_ids w)
  /\ w_ids w' = drop n (w_ids w)
  /\ w_submitted w' = w_submitted w ++ take n (w_ids w)
  /\ w_completed w' = w_completed w.
Proof.
  revert w. induction n as [|n IH]; intros w; cbn [schedule_more].
  - cbn. rewrite !app_nil_r. auto.
  - destruct (w_ids w) as [|id ids'] eqn:Eids.
    + cbn. rewrite Eids. cbn. rewrite !app_nil_r. auto.
    + match goal with |- context [schedule_more n ?w1] =>
        specialize (IH w1) end.
      cbn [w_f w_ids w_submitted w_completed] in IH.
      destruct IH as (Hf & Hids & Hsub & Hcomp). cbn zeta.
      rewrite Hf, Hids, Hsub, Hcomp, <- !app_assoc. cbn. auto.
Qed.

(** The loop of [posts] drains any walk whose log is consistent. *)
Lemma posts_loop_drains (range : list Z) (fuel : nat) :
  forall (sched : list (list bool)) (w : walk),
    w_submitted w ++ w_ids w = range ->
    w_completed w ++ w_f w ≡ₚ w_submitted w ->
    (w_f w = [] -> w_ids w = []) ->
    (length (w_f w) + length (w_ids w) < fuel)%nat ->
    exists w',
      posts_loop task fuel sched w = Ret w'
      /\ w_submitted w' = range /\ w_completed w' ≡ₚ range
      /\ w_f w' = [] /\ w_ids w' = [].
Proof.
  induction fuel as [|fuel IH]; intros sched w Hlog Hdone Hempty Hfuel;
    [lia|].
  cbn [posts_loop]. destruct (w_f w) as [|x items] eqn:Ef.
  { exists w. rewrite (Hempty eq_refl) in *.
    rewrite app_nil_r in *. subst range. rewrite Hdone. auto. }
  destruct (await_any_spec (hd [] sched) (x :: items)) as [Hsome Hperm];
    [discriminate|].
  destruct (await_any (hd [] sched) (x :: items)) as [done rest].
  cbn [fst snd] in *.
  destruct (take_results_spec done (set_f rest w))
    as (w1 & Hrun & Hf1 & Hids1 & Hsub1 & Hcomp1).
  rewrite Hrun. cbn [set_f w_f w_ids w_submitted w_completed] in *.
  destruct (schedule_more_spec (length done) w1) as (Hf2 & Hids2 & Hsub2 & Hcomp2).
  apply IH.
  - rewrite Hsub2, Hids2, Hsub1, Hids1, <- app_assoc, take_drop. exact Hlog.
  - rewrite Hcomp2, Hf2, Hsub2, Hcomp1, Hf1, Hsub1, <- Hdone.
    rewrite <- Hperm, <- !app_assoc. reflexivity.
  - rewrite Hf2, Hids2, Hf1, Hids1. intros Hnil.
    apply app_eq_nil in Hnil as [_ Hnil].
    destruct (w_ids w) as [|i ids']; [rewrite drop_nil; reflexivity|].
    destruct done as [|d done']; [congruence|]. discriminate.
  - rewrite Hf2, Hids2, Hf1, Hids1, length_app, length_take, length_drop.
    apply Permutation_length in Hperm. rewrite length_app in Hperm.
    cbn [length] in Hperm, Hfuel.
    assert (length done <> 0)%nat by (destruct done; [congruence|discriminate]).
    lia.
Qed.

(** X1. The users walk, when every task returns and the pool has a
    worker: whatever the order the futures complete in, the walk
    ends, every ID of [first..last] is submitted exactly once, in
    ascending order, and the result of every submitted task is taken
    exactly once. *)
Lemma posts_covers_range (fuel : nat) (sched : list (list bool))
    (first last threads : Z) :
  0 < threads ->
  (length (seqZ first (last + 1 - first)) < fuel)%nat ->
  exists w,
    posts task fuel sched first last threads = Ret w
    /\ w_submitted w = seqZ first (last + 1 - first)
    /\ NoDup (w_submitted w)
    /\ w_completed w ≡ₚ seqZ first (last + 1 - first)
    /\ length (w_completed w) = length (seqZ first (last + 1 - first)).
Proof.
  intros Hthreads Hfuel. unfold posts, start_walk.
  destruct (Z.leb_spec threads 0) as [|_]; [lia|].
  set (range := seqZ first (last + 1 - first)) in *.
  set (n := Z.to_nat (threads * 2)).
  destruct (posts_loop_drains range fuel sched
              (mk_walk (take n range) (drop n range) (take n range) [] [] []))
    as (w & Hrun & Hsub & Hcomp & _ & _); cbn [w_f w_ids w_submitted w_completed].
  - apply take_drop.
  - reflexivity.
  - intros Hnil. destruct range as [|x range']; [rewrite drop_nil; reflexivity|].
    assert (n <> O) by (unfold n; lia).
    destruct n; [congruence|discriminate].
  - rewrite length_take, length_drop. lia.
  - exists w. split; [exact Hrun|]. split; [exact Hsub|].
    split; [rewrite Hsub; apply NoDup_seqZ|]. split; [exact Hcomp|].
    apply Permutation_length. exact Hcomp.
Qed.

(** C1, where the code departs from it. The groups walk over a
    non-empty range never gets past its first wait: the loop that
    should submit more work raises [AttributeError], so the walk
    ends there, whatever the schedule. *)
Theorem groups_walk_aborts (fuel : nat) (sched : list (list bool))
    (first last threads : Z) :
  0 < threads -> first <= last -> (0 < fuel)%nat ->
  groups task fuel sched first last threads = Raise AttributeError.
Proof.
  intros Hthreads Hrange Hfuel. unfold groups, start_walk.
  destruct (Z.leb_spec threads 0) as [|_]; [lia|].
  destruct fuel as [|fuel]; [lia|]. cbn [groups_loop w_f].
  assert (Hlen : (0 < length (seqZ first (last + 1 - first)))%nat)
    by (rewrite length_seqZ; lia).
  destruct (seqZ first (last + 1 - first)) as [|x range]; [cbn in Hlen; lia|].
  destruct (Z.to_nat (threads * 2)) as [|n] eqn:En; [lia|].
  cbn [take].
  destruct (await_any_spec (hd [] sched) (x :: take n range)) as [Hsome _];
    [discriminate|].
  destruct (await_any (hd [] sched) (x :: take n range)) as [done rest].
  cbn [fst] in Hsome.
  match goal with |- context [take_results task done ?w0] =>
    destruct (take_results_spec done w0) as (w1 & Hrun & _) end.
  rewrite Hrun. destruct done as [|d done]; [congruence|]. reflexivity.
Qed.

End WalkFacts.

Lemma groups_walk_aborts_witness :
  groups task_nothing 5 [] 0 2 1 = Raise AttributeError.
Proof.
  refine (groups_walk_aborts task_nothing _ 5%nat [] 0 2 1 _ _ _).
  - intros id. eexists. reflexivity.
  - reflexivity.
  - discriminate.
  - apply Nat.lt_0_succ.
Defined.

(** On the same range the users walk submits and takes all three
    IDs. *)
Example posts_walk_three_ids :
  exists w,
    posts task_nothing 5 [] 0 2 1 = Ret w
    /\ w_submitted w = [0; 1; 2] /\ w_completed w = [0; 1; 2].
Proof. eexists. repeat split. Qed.

(** ** More on the client: logins, refreshes, construction *)

Section LoginFacts.

Variable net : nat -> request -> http_result.
Variable clock : nat -> Z.

(** Every way a login can go. *)
Lemma login_cases (u p : string) (s : state) :
  let a1 := net (length (wire s)) (Get SignIn ∅ None) in
  exists r new,
    get_sess_cookie_with net (send net) u p s =
      (r, mk_state (self s) (wire s ++ (Get SignIn ∅ None, a1) :: new)
                   (ticks s))
    /\ r <> Raise HTTPError /\ r <> OutOfFuel
    /\ ((new = [] /\ forall c, ~ offers_token a1 c)
        \/ exists page c,
             a1 = HttpOk page /\ offers_token a1 c
             /\ new = [(Post SignIn (login_payload u p c) (cookies page),
                        net (S (length (wire s)))
                          (Post SignIn (login_payload u p c) (cookies page)))])
    /\ (forall jar, r = Ret (Some jar) ->
          exists rq ans,
            new = [(rq, HttpOk ans)] /\ status_passes ans
            /\ jar = cookies ans /\ has_session jar).
Proof.
  intros a1. unfold get_sess_cookie_with, send. run_monad. fold a1.
  destruct a1 as [e|page] eqn:E1.
  { assert (Hno : forall c, ~ offers_token (HttpFail e) c)
      by (intros c (pg & H & _); discriminate).
    destruct e; eexists _, []; (split; [reflexivity|]);
      (split; [discriminate|]); (split; [discriminate|]);
      (split; [left; split; [reflexivity|exact Hno]|]);
      intros jar Hjar; discriminate. }
  destruct ((400 <=? status_code page) && (status_code page <? 600)) eqn:Est.
  { eexists _, []; (split; [reflexivity|]);
      (split; [discriminate|]); (split; [discriminate|]).
    split; [|intros jar Hjar; discriminate].
    left. split; [reflexivity|]. intros c (pg & H & Hst & _).
    injection H as <-. unfold status_passes in Hst. congruence. }
  destruct (csrf_meta page) as [[c|]|] eqn:Ecsrf.
  2,3: eexists _, []; (split; [reflexivity|]);
      (split; [discriminate|]); (split; [discriminate|]);
      (split; [|intros jar Hjar; discriminate]);
      left; (split; [reflexivity|]); intros c0 (pg & H & _ & Hc & _);
      injection H as <-; congruence.
  destruct (String.eqb_spec c "") as [->|Hne].
  { eexists _, []; (split; [reflexivity|]);
      (split; [discriminate|]); (split; [discriminate|]).
    split; [|intros jar Hjar; discriminate].
    left. split; [reflexivity|]. intros c0 (pg & H & _ & Hc & Hnz).
    injection H as <-. congruence. }
  simpl.
  assert (Hoffer : offers_token (HttpOk page) c).
  { exists page. unfold status_passes. auto. }
  rewrite length_app. cbn [length]. rewrite Nat.add_1_r.
  fold (login_payload u p c).
  destruct (net (S (length (wire s)))
              (Post SignIn (login_payload u p c) (cookies page)))
    as [e2|ans] eqn:E2.
  { destruct e2; eexists _, [_];
      (split; [rewrite <- app_assoc; reflexivity|]);
      (split; [discriminate|]); (split; [discriminate|]);
      (split; [right; exists page, c; rewrite E2; auto|]);
      intros jar Hjar; discriminate. }
  destruct ((400 <=? status_code ans) && (status_code ans <? 600)) eqn:Est2.
  { eexists _, [_]; (split; [rewrite <- app_assoc; reflexivity|]);
      (split; [discriminate|]); (split; [discriminate|]);
      (split; [right; exists page, c; rewrite E2; auto|]);
      intros jar Hjar; discriminate. }
  simpl.
  destruct (cookies ans !! "_session_id") as [v|] eqn:Ev.
  2: { eexists _, [_]; (split; [rewrite <- app_assoc; reflexivity|]);
      (split; [discriminate|]); (split; [discriminate|]);
      (split; [right; exists page, c; rewrite E2; auto|]);
      intros jar Hjar; discriminate. }
  destruct (String.eqb_spec v "") as [->|Hv].
  { eexists _, [_]; (split; [rewrite <- app_assoc; reflexivity|]);
      (split; [discriminate|]); (split; [discriminate|]);
      (split; [right; exists page, c; rewrite E2; auto|]);
      intros jar Hjar; discriminate. }
  eexists _, [_]; (split; [rewrite <- app_assoc; reflexivity|]);
    (split; [discriminate|]); (split; [discriminate|]);
    (split; [right; exists page, c; rewrite E2; auto|]).
  intros jar Hjar. injection Hjar as <-. eexists _, ans.
  split; [reflexivity|]. split; [exact Est2|]. split; [reflexivity|].
  exists v. auto.
Qed.


(** X5. What a login puts on the wire, for any service: it leaves
    the client object and the clock alone, sends the GET of the
    sign-in page without parameters or cookies, and then either
    nothing, exactly when that page is no passing answer with a
    non-empty CSRF token, or exactly one POST to the sign-in URL that
    carries the user name, the password and that token, with the
    cookies of the page. *)
Theorem get_sess_cookie_exchanges (u p : string) (s : state) :
  let a1 := net (length (wire s)) (Get SignIn ∅ None) in
  exists r new,
    get_sess_cookie net u p s =
      (r, mk_state (self s) (wire s ++ (Get SignIn ∅ None, a1) :: new)
                   (ticks s))
    /\ ((new = [] /\ forall c, ~ offers_token a1 c)
        \/ exists page c,
             a1 = HttpOk page /\ offers_token a1 c
             /\ new = [(Post SignIn (login_payload u p c) (cookies page),
                        net (S (length (wire s)))
                          (Post SignIn (login_payload u p c) (cookies page)))]).
Proof.
  intros a1. rewrite get_sess_cookie_send.
  destruct (login_cases u p s) as (r & new & Heq & _ & _ & Hnew & _).
  exists r, new. split; [exact Heq|exact Hnew].
Qed.

(** X6. [get_sess_cookie] lets no [HTTPError] out, and it returns a
    cookie jar exactly when the sign-in page offered a token and the
    POST was answered with a passing status and a jar that holds a
    non-empty [_session_id]; the jar returned is the jar of that
    answer. *)
Theorem get_sess_cookie_session (u p : string) (s : state) (jar : cookiejar) :
  fst (get_sess_cookie net u p s) <> Raise HTTPError
  /\ (fst (get_sess_cookie net u p s) = Ret (Some jar) <->
      exists page c ans,
        offers_token (net (length (wire s)) (Get SignIn ∅ None)) c
        /\ net (length (wire s)) (Get SignIn ∅ None) = HttpOk page
        /\ net (S (length (wire s)))
             (Post SignIn (login_payload u p c) (cookies page)) = HttpOk ans
        /\ status_passes ans /\ jar = cookies ans /\ has_session jar).
Proof.
  rewrite get_sess_cookie_send.
  destruct (login_cases u p s) as (r & new & Heq & Hhttp & _ & Hnew & Hjar).
  split; [rewrite Heq; exact Hhttp|]. split.
  - rewrite Heq. cbn [fst]. intros Hr.
    destruct (Hjar jar Hr) as (rq & ans & Hn & Hst & -> & Hsess).
    destruct Hnew as [[Hn' _]|(page & c & Hpage & Hoffer & Hn')];
      [congruence|].
    rewrite Hn' in Hn. injection Hn as _ Hans.
    exists page, c, ans. auto 7.
  - intros (page & c & ans & (pg & Hpg & Hst & Hcsrf & Hne) & Hpage & Hans
            & Hst2 & -> & v & Hv & Hvne).
    rewrite Hpage in Hpg. injection Hpg as <-.
    unfold get_sess_cookie_with. unfold bind at 1.
    unfold try_except, bind at 1. rewrite send_eq, Hpage.
    unfold bind at 1, raise_for_status. rewrite Hst.
    unfold ret at 1. unfold bind at 1. rewrite Hcsrf. unfold ret at 1.
    destruct (String.eqb_spec c ""); [contradiction|].
    unfold bind at 1. rewrite send_eq. cbn [wire].
    rewrite length_app. cbn [length]. rewrite Nat.add_1_r.
    fold (login_payload u p c). rewrite Hans.
    unfold bind at 1. rewrite Hst2. unfold ret at 1 2. cbn.
    rewrite Hv. destruct (String.eqb_spec v ""); [contradiction|reflexivity].
Qed.

(** X7. [_get], case by case.  A request the service fails raises
    that failure and does not count.  An answered request within the
    threshold returns the response, steps the counter by one and
    leaves the session cookie alone.  Past the threshold the client
    logs in with its own credentials: a login that returns, be it
    with [None], replaces the session cookie with its result and
    restarts the counter; a login that raises makes [_get] raise, the
    response is lost and the counter stays past the threshold, so
    that the next answered call logs in again. *)
Theorem _get_outcomes (rq : request) (s : state) :
  let ans := net (length (wire s)) rq in
  let sent (c : client) := mk_state c (wire s ++ [(rq, ans)]) (ticks s) in
  (forall e skip,
      ans = HttpFail e -> _get net skip rq s = (Raise e, sent (self s)))
  /\ (forall resp, ans = HttpOk resp ->
        counter s + 1 <= REQUESTS_PER_SESSION_REFRESH ->
        _get net false rq s =
          (Ret resp, sent (counted (self s) (counter s + 1))))
  /\ (forall resp, ans = HttpOk resp ->
        REQUESTS_PER_SESSION_REFRESH < counter s + 1 ->
        let login :=
          get_sess_cookie net (username (self s)) (password (self s))
            (sent (counted (self s) (counter s + 1))) in
        match fst login with
        | Ret ck =>
            _get net false rq s =
              (Ret resp,
               mk_state (refreshed (self s) ck) (wire (snd login)) (ticks s))
        | Raise e =>
            _get net false rq s = (Raise e, snd login)
            /\ self (snd login) = counted (self s) (counter s + 1)
        | OutOfFuel => False
        end).
Proof.
  intros ans sent. subst sent. cbn beta.
  pose proof (eq_refl ans) as Hans. unfold ans at 2 in Hans. clearbody ans.
  split; [|split].
  - intros e skip He. unfold _get. unfold bind at 1.
    rewrite send_eq, <- Hans, He. reflexivity.
  - intros resp Hr Hle. unfold _get. unfold bind at 1.
    rewrite send_eq, <- Hans, Hr. cbn [negb].
    unfold bind at 1 2 3, get_self, set_requests_since_refresh, set_self.
    unfold bind at 1 2, get_self. cbn [self wire ticks].
    cbn [_requests_since_refresh username password]. unfold counter in Hle.
    destruct (Z.gtb_spec (_requests_since_refresh (self s) + 1)
                REQUESTS_PER_SESSION_REFRESH) as [Hgt|_]; [lia|].
    reflexivity.
  - intros resp Hr Hgt login.
    pose proof (eq_refl login) as Hlogin. unfold login at 2 in Hlogin.
    rewrite get_sess_cookie_send in Hlogin.
    destruct (login_cases (username (self s)) (password (self s))
                (mk_state (counted (self s) (counter s + 1))
                          (wire s ++ [(rq, ans)]) (ticks s)))
      as (r & new & Heq & _ & Hfuel & _ & _).
    rewrite Heq in Hlogin. clearbody login. subst login. cbn [fst snd].
    unfold counter in Hgt.
    destruct r as [ck|e|]; [| |congruence]; [|split; [|reflexivity]];
      unfold _get; unfold bind at 1; rewrite send_eq, <- Hans, Hr; cbn [negb];
      unfold bind at 1 2 3, get_self, set_requests_since_refresh, set_self;
      unfold bind at 1 2, get_self; cbn [self wire ticks];
      cbn [_requests_since_refresh username password];
      (destruct (Z.gtb_spec (_requests_since_refresh (self s) + 1)
                  REQUESTS_PER_SESSION_REFRESH) as [_|Hle]; [|lia]);
      unfold bind at 1; unfold counted, counter in Heq;
      rewrite Hr in Heq; cbn [self wire ticks username password] in Heq;
      rewrite Heq; reflexivity.
Qed.

(** X8. A client built without a user name or without a password
    sends nothing while it is built and gets no [sess_cookie]
    attribute.  On such a client [pull_statuses] and
    [pull_group_posts] return the empty list without a single
    request, the [AttributeError] ending up in their [except], and
    the guard of both commands raises [ValueError] when posts are
    asked for. *)
Theorem client_without_credentials (u p : string) (t : Z) (s : state)
    (fuel : nat) (id depth : Z) (ca : option Z) (replies : bool) :
  truthy u && truthy p = false ->
  let built := mk_state (mk_client u p t 0 None) (wire s) (ticks s) in
  __init__ net u p t s = (Ret tt, built)
  /\ (exec __init__ net u p t in
      pull_statuses net clock (S fuel) id ca replies) s = (Ret [], built)
  /\ (exec __init__ net u p t in
      pull_group_posts net clock (S fuel) id depth) s = (Ret [], built)
  /\ (exec __init__ net u p t in credentials_guard true) s
     = (Raise ValueError, built).
Proof.
  intros Hcred built.
  assert (Hinit : __init__ net u p t s = (Ret tt, built)).
  { unfold __init__. unfold bind at 1, set_self. rewrite Hcred. reflexivity. }
  split; [exact Hinit|]. unfold bind at 1 2 3. rewrite Hinit.
  split; [reflexivity|]. split.
  - unfold pull_group_posts. cbn [pull_group_posts_loop].
    destruct (1 <=? depth); reflexivity.
  - unfold credentials_guard, bind, get_self. subst built.
    cbn [self username password andb].
    destruct (truthy u); cbn in Hcred |- *; [rewrite Hcred|]; reflexivity.
Qed.

(** X9. A client built with both credentials logs in exactly once:
    when [__init__] returns, the client holds the credentials and the
    thread count, its counter is zero, [sess_cookie] is the result of
    that login ([None], or a jar with a session), one sign-in GET and
    at most one POST went out, and the clock was not read. *)
Theorem client_with_credentials (u p : string) (t : Z) (s s' : state) :
  truthy u && truthy p = true ->
  __init__ net u p t s = (Ret tt, s') ->
  exists ck,
    self s' = mk_client u p t 0 (Some ck)
    /\ fst (get_sess_cookie net u p
              (mk_state (mk_client u p t 0 None) (wire s) (ticks s))) = Ret ck
    /\ (forall jar, ck = Some jar -> has_session jar)
    /\ logins (wire s') = S (logins (wire s))
    /\ (posts_sent (wire s') <= S (posts_sent (wire s)))%nat
    /\ ticks s' = ticks s.
Proof.
  intros Hcred Hrun. unfold __init__ in Hrun. unfold bind at 1, set_self in Hrun.
  rewrite Hcred in Hrun.
  apply bind_Ret_inv in Hrun as (ck & s1 & Hlogin & Hset).
  rewrite get_sess_cookie_send.
  rewrite get_sess_cookie_send in Hlogin.
  destruct (login_cases u p
              (mk_state (mk_client u p t 0 None) (wire s) (ticks s)))
    as (r & new & Heq & _ & _ & Hnew & Hjar).
  rewrite Heq in Hlogin. injection Hlogin as -> <-.
  unfold set_sess_cookie, bind, get_self, set_self in Hset. cbn in Hset.
  injection Hset as <-. exists ck. cbn [self wire ticks].
  split; [reflexivity|]. split; [rewrite Heq; reflexivity|].
  split.
  { intros jar ->. destruct (Hjar jar eq_refl) as (_ & _ & _ & _ & _ & Hs).
    exact Hs. }
  rewrite logins_app, posts_sent_app.
  destruct Hnew as [[-> _]|(page & c & _ & _ & ->)]; cbn; repeat split; lia.
Qed.

End LoginFacts.

Lemma client_without_credentials_witness :
  let built := mk_state (mk_client "" "secret" 25 0 None) [] O in
  __init__ net_timeline "" "secret" 25 initial_state = (Ret tt, built)
  /\ (exec __init__ net_timeline "" "secret" 25 in
      pull_statuses net_timeline clock0 1 7 None false) initial_state
     = (Ret [], built)
  /\ (exec __init__ net_timeline "" "secret" 25 in
      pull_group_posts net_timeline clock0 1 7 3) initial_state
     = (Ret [], built)
  /\ (exec __init__ net_timeline "" "secret" 25 in credentials_guard true)
       initial_state
     = (Raise ValueError, built).
Proof.
  exact (client_without_credentials net_timeline clock0 "" "secret" 25
           initial_state 0 7 3 None false eq_refl).
Defined.

Lemma client_with_credentials_witness :
  exists ck,
    self (snd (__init__ (net_upto 10) "someone" "secret" 25 initial_state))
      = mk_client "someone" "secret" 25 0 (Some ck)
    /\ fst (get_sess_cookie (net_upto 10) "someone" "secret"
              (mk_state (mk_client "someone" "secret" 25 0 None)
                        (wire initial_state) (ticks initial_state))) = Ret ck
    /\ (forall jar, ck = Some jar -> has_session jar)
    /\ logins (wire (snd (__init__ (net_upto 10) "someone" "secret" 25
                            initial_state)))
       = S (logins (wire initial_state))
    /\ (posts_sent (wire (snd (__init__ (net_upto 10) "someone" "secret" 25
                                 initial_state)))
        <= S (posts_sent (wire initial_state)))%nat
    /\ ticks (snd (__init__ (net_upto 10) "someone" "secret" 25 initial_state))
       = ticks initial_state.
Proof.
  assert (Hrun : fst (__init__ (net_upto 10) "someone" "secret" 25
                        initial_state) = Ret tt)
    by (vm_compute; reflexivity).
  exact (client_with_credentials (net_upto 10) "someone" "secret" 25
           initial_state _ eq_refl (run_returns _ _ _ Hrun)).
Defined.

(** ** More on the paginators and the entity pulls *)

Lemma timeline_pages_app (w1 w2 : list exchange) :
  timeline_pages (w1 ++ w2) = timeline_pages w1 ++ timeline_pages w2.
Proof. apply omap_app. Qed.

Lemma timeline_fetched_app (w1 w2 : list exchange) :
  timeline_fetched (w1 ++ w2) = timeline_fetched w1 ++ timeline_fetched w2.
Proof. apply omap_app. Qed.

(** Sign-in exchanges are no pages of anything. *)
Lemma sign_in_no_pages (w : list exchange) :
  forallb is_sign_in w = true ->
  fetched w = [] /\ cursors w = []
  /\ timeline_pages w = [] /\ timeline_fetched w = [].
Proof.
  induction w as [|[rq a] w IH]; intros Hall; [auto|].
  cbn [forallb] in Hall. apply andb_prop in Hall as [Hx Hall].
  destruct (IH Hall) as (H1 & H2 & H3 & H4).
  unfold fetched, cursors, timeline_pages, timeline_fetched in *.
  unfold is_sign_in in Hx. cbn [fst] in Hx.
  destruct rq as [[] ? ?|[] ? ?]; try discriminate; cbn; auto.
Qed.

Lemma stamp_from_app (clock : nat -> Z) (n : nat) (l1 l2 : list post) :
  stamp_from clock n (l1 ++ l2) =
    stamp_from clock n l1 ++ stamp_from clock (n + length l1) l2.
Proof.
  revert n. induction l1 as [|p l1 IH]; intros n; cbn [stamp_from app length].
  - rewrite Nat.add_0_r. reflexivity.
  - rewrite IH, Nat.add_succ_r. reflexivity.
Qed.

Lemma stamp_from_length (clock : nat -> Z) (n : nat) (l : list post) :
  length (stamp_from clock n l) = length l.
Proof.
  revert n. induction l as [|p l IH]; intros n; cbn; [reflexivity|].
  rewrite IH. reflexivity.
Qed.

Section GetFacts.

Variable net : nat -> request -> http_result.
Variable clock : nat -> Z.

(** A login talks to the sign-in page only. *)
Lemma login_sign_in_only (u p : string) (s : state) :
  exists r extra,
    get_sess_cookie_with net (send net) u p s =
      (r, mk_state (self s) (wire s ++ extra) (ticks s))
    /\ forallb is_sign_in extra = true /\ r <> OutOfFuel.
Proof.
  destruct (login_cases net u p s) as (r & new & Heq & _ & Hf & Hnew & _).
  eexists r, (_ :: new). split; [exact Heq|]. split; [|exact Hf].
  destruct Hnew as [[-> _]|(page & c & _ & _ & ->)]; reflexivity.
Qed.

(** Any [_get]: its own exchange first, then at most a login; it
    returns what was served, and where refreshes do not raise it
    returns whenever something was served. *)
Lemma _get_cases (skip : bool) (rq : request) (s : state) :
  exists r c extra,
    _get net skip rq s =
      (r, mk_state c (wire s ++ (rq, net (length (wire s)) rq) :: extra)
                   (ticks s))
    /\ r <> OutOfFuel
    /\ forallb is_sign_in extra = true
    /\ (forall resp, r = Ret resp -> net (length (wire s)) rq = HttpOk resp)
    /\ (sess_cookie (self s) <> None -> sess_cookie c <> None)
    /\ (refresh_never_raises net ->
        forall resp, net (length (wire s)) rq = HttpOk resp -> r = Ret resp).
Proof.
  destruct skip.
  { rewrite _get_skip. unfold send.
    destruct (net (length (wire s)) rq) as [e|r0];
      eexists _, _, [];
      (split; [reflexivity|split; [discriminate|split; [reflexivity|]]]);
      (split; [|split; [exact (fun H => H)|]]);
      try (intros resp H; congruence); intros _ resp H; congruence. }
  unfold _get. unfold bind at 1. rewrite send_eq.
  destruct (net (length (wire s)) rq) as [e|r0] eqn:Eans.
  { eexists _, _, [];
      (split; [reflexivity|split; [discriminate|split; [reflexivity|]]]).
    split; [|split; [exact (fun H => H)|]].
    - intros resp H; discriminate.
    - intros _ resp H; discriminate. }
  cbn [negb].
  unfold bind at 1 2 3, get_self, set_requests_since_refresh, set_self.
  unfold bind at 1 2, get_self. cbn [self wire ticks].
  cbn [_requests_since_refresh username password].
  destruct (_requests_since_refresh (self s) + 1 >? REQUESTS_PER_SESSION_REFRESH).
  - unfold bind at 1.
    match goal with
    | |- context [get_sess_cookie_with net (send net) ?u ?p ?s2] =>
        pose proof (fun H : refresh_never_raises net => H u p s2) as Hnever;
        destruct (login_sign_in_only u p s2) as (r2 & extra & Heq & Hall & Hf);
        rewrite Heq in Hnever |- *
    end.
    cbn [self wire ticks fst] in *.
    destruct r2 as [ck|e|]; [| |congruence].
    + unfold bind, set_sess_cookie, get_self, set_self, ret. cbn.
      eexists _, _, _. split; [rewrite <- app_assoc; reflexivity|].
      split; [discriminate|]. split; [exact Hall|].
      split; [|split; [discriminate|]]; intros; congruence.
    + unfold bind. eexists _, _, _.
      split; [rewrite <- app_assoc; reflexivity|].
      split; [discriminate|]. split; [exact Hall|].
      split; [|split; [exact (fun H => H)|]].
      * intros resp H. discriminate.
      * intros Hr. destruct (Hnever Hr) as [ck Hck]. discriminate.
  - unfold bind, ret. eexists _, _, [].
    split; [reflexivity|]. split; [discriminate|].
    split; [reflexivity|].
    split; [|split; [exact (fun H => H)|]]; intros; congruence.
Qed.

End GetFacts.

(** ** The cutoff of the paginator *)

Section CutoffFacts.

Variable net : nat -> request -> http_result.
Variable clock : nat -> Z.

(** Where refreshes do not raise, a run that returns has ended on a
    closing page: any other page sends the loop round once more, and
    the next turn puts its request on the wire. *)
Lemma pull_statuses_loop_last_page (fuel : nat) :
  forall (id : Z) (ca : option Z) (replies : bool) (params : dict)
         (acc : list post) (s : state),
    refresh_never_raises net ->
    let out := pull_statuses_loop net clock fuel id ca replies params acc s in
    forall l, fst out = Ret l ->
    exists new,
      wire (snd out) = wire s ++ new
      /\ (sess_cookie (self s) <> None -> fetched new <> [])
      /\ forall i pg,
           fetched new !! i = Some pg -> S i = length (fetched new) ->
           closing_page ca pg.
Proof.
  induction fuel as [|fuel IH];
    intros id ca replies params acc s Hnever out l Hret.
  { discriminate Hret. }
  pose proof (eq_refl out) as Hout. unfold out at 2 in Hout.
  cbn [pull_statuses_loop] in Hout.
  unfold bind at 1 in Hout. unfold try_except in Hout.
  unfold bind at 1 in Hout. unfold read_sess_cookie, bind at 1, get_self in Hout.
  destruct (sess_cookie (self s)) as [ck|] eqn:Eck.
  2: { assert (Hout' : out = (Ret acc, s)) by exact Hout.
       rewrite Hout'. exists []. cbn [snd]. rewrite app_nil_r.
       split; [reflexivity|]. split; [congruence|].
       intros i pg Hi. change (fetched []) with (@nil (list post)) in Hi.
       rewrite lookup_nil in Hi. discriminate Hi. }
  unfold ret at 1 in Hout. unfold bind at 1 in Hout.
  set (rq := Get (AccountStatuses id (negb replies)) params ck) in *.
  destruct (_get_cases net false rq s)
    as (r & c & extra & Heq & Hf & Hextra & Hans & Hck & Hgets).
  rewrite Heq in Hout.
  destruct (sign_in_no_pages extra Hextra) as (Hfe & _ & _ & _).
  set (ans := net (length (wire s)) rq) in *.
  assert (Hfetched : fetched ((rq, ans) :: extra) = [answer_page ans]).
  { unfold fetched in *. cbn. rewrite Hfe. reflexivity. }
  assert (Hleave : forall (res : result (list post)) (c' : client) (t : nat),
            out = (res, mk_state c' (wire s ++ (rq, ans) :: extra) t) ->
            (res = Ret l -> closing_page ca (answer_page ans)) ->
            exists new,
              wire (snd out) = wire s ++ new
              /\ (Some ck <> None -> fetched new <> [])
              /\ forall i pg,
                   fetched new !! i = Some pg ->
                   S i = length (fetched new) -> closing_page ca pg).
  { intros res c' t Hrun Hres. rewrite Hrun in Hret |- *.
    cbn [fst snd wire] in *. exists ((rq, ans) :: extra).
    split; [reflexivity|]. rewrite Hfetched.
    split; [intros _; discriminate|].
    intros [|i] pg Hi _; cbn in Hi; [|discriminate Hi].
    injection Hi as <-. exact (Hres Hret). }
  assert (Hnone : forall a, answer_page a = [] ->
                            closing_page ca (answer_page a)).
  { intros a ->. exact I. }
  destruct r as [resp|e|]; [| |congruence].
  2: { apply (Hleave _ _ _ Hout). intros _. apply Hnone.
       destruct ans as [e'|resp] eqn:Ea; [reflexivity|].
       specialize (Hgets Hnever resp eq_refl). discriminate Hgets. }
  pose proof (Hans resp eq_refl) as Hresp.
  unfold bind at 1, response_json in Hout.
  destruct (json_body resp) as [j|] eqn:Ej.
  2: { apply (Hleave _ _ _ Hout). intros _. apply Hnone.
       rewrite Hresp. unfold answer_page. rewrite Ej. reflexivity. }
  unfold ret at 1 2 in Hout.
  destruct j as [| | |str|d|result].
  1-3: apply (Hleave _ _ _ Hout); intros H; discriminate H.
  { destruct (contains_error str); [|destruct (String.eqb str "")];
      apply (Hleave _ _ _ Hout);
      first [intros H; discriminate H
            |intros _; apply Hnone; rewrite Hresp; unfold answer_page;
             rewrite Ej; reflexivity]. }
  { destruct (d !! "error"); [|destruct (decide (d = ∅))];
      apply (Hleave _ _ _ Hout);
      first [intros H; discriminate H
            |intros _; apply Hnone; rewrite Hresp; unfold answer_page;
             rewrite Ej; reflexivity]. }
  assert (Hpage : answer_page ans = result).
  { rewrite Hresp. unfold answer_page. rewrite Ej. reflexivity. }
  destruct (sorted_by_id result) as [|oldest rest] eqn:Esort.
  { apply (Hleave _ _ _ Hout). intros _. rewrite Hpage.
    unfold closing_page, highest. rewrite Esort. exact I. }
  destruct (before_cutoff ca
              (date_of (post_created_at (List.last (oldest :: rest) oldest))))
    eqn:Ecut.
  { apply (Hleave _ _ _ Hout). intros _. rewrite Hpage.
    unfold closing_page, highest. rewrite Esort.
    rewrite (last_default (oldest :: rest) oldest) by discriminate.
    exact Ecut. }
  unfold bind at 1 in Hout. rewrite collect_posts_spec in Hout.
  rewrite Hout in Hret |- *.
  destruct (IH _ _ _ _ _ _ Hnever l Hret) as (new' & Hwire & Hne & Hlast).
  cbn [self wire ticks] in Hwire, Hne |- *.
  assert (Hmore : fetched new' <> []).
  { apply Hne, Hck. rewrite Eck. discriminate. }
  exists (((rq, ans) :: extra) ++ new').
  split; [rewrite Hwire, <- app_assoc; reflexivity|].
  rewrite fetched_app, Hfetched. split; [intros _; discriminate|].
  intros [|i] pg Hi Hlen; cbn in Hi, Hlen.
  - destruct (fetched new'); [congruence|discriminate Hlen].
  - apply (Hlast i pg Hi). lia.
Qed.

(** C2, as the code has it. With [created_after = D] no returned post
    is dated before [D]. The pagination stops at the first page that
    is empty or whose highest-ID post is dated before [D], and that
    page adds nothing; every page requested before the last adds
    exactly its posts dated [D] or later.  Where session refreshes do
    not raise, every page that is not empty and whose highest-ID post
    is dated [D] or later is followed by another request: a page
    whose lowest-ID posts predate [D] is taken in part and the next
    page is still requested. *)
Theorem pull_statuses_cutoff fuel id D replies s l s' :
  pull_statuses net clock fuel id (Some D) replies s = (Ret l, s') ->
  exists new,
    wire s' = wire s ++ new
    /\ Forall (fun p => D <= post_date p) l
    /\ (forall i pg,
          fetched new !! i = Some pg -> closing_page (Some D) pg ->
          S i = length (fetched new))
    /\ l = accumulate clock (Some D) (ticks s) (removelast (fetched new))
    /\ (refresh_never_raises net ->
        forall i pg,
          fetched new !! i = Some pg -> ~ closing_page (Some D) pg ->
          is_Some (fetched new !! S i)).
Proof.
  intros Hrun. unfold pull_statuses in Hrun.
  destruct (pull_statuses_loop_run _ _ _ _ _ _ _ _ _ _ _ Hrun)
    as (new & Hwire & Hl & _ & Hclose).
  cbn [app] in Hl. exists new. split; [exact Hwire|].
  split; [rewrite Hl; apply accumulate_after|].
  split; [exact Hclose|]. split; [exact Hl|].
  intros Hnever i pg Hi Hopen.
  destruct (pull_statuses_loop_last_page fuel id (Some D) replies ∅ [] s
              Hnever l)
    as (new2 & Hwire2 & _ & Hlast); [rewrite Hrun; reflexivity|].
  rewrite Hrun in Hwire2. cbn [snd] in Hwire2. rewrite Hwire in Hwire2.
  apply app_inv_head in Hwire2. subst new2.
  destruct (fetched new !! S i) as [next|] eqn:Enext; [eexists; reflexivity|].
  exfalso. apply Hopen. apply (Hlast i pg Hi).
  apply lookup_ge_None in Enext. apply lookup_lt_Some in Hi. lia.
Qed.

End CutoffFacts.

Lemma net_timeline_refresh : refresh_never_raises net_timeline.
Proof. intros u p s. eexists. reflexivity. Defined.

Lemma pull_statuses_cutoff_witness :
  refresh_never_raises net_timeline
  /\ fst (pull_statuses net_timeline clock0 10 7 (Some 5) false
            logged_in_state)
     = Ret [stamp 0 status_2]
  /\ exists new,
       wire (snd (pull_statuses net_timeline clock0 10 7 (Some 5) false
                    logged_in_state))
         = wire logged_in_state ++ new
       /\ Forall (fun p => 5 <= post_date p) [stamp 0 status_2]
       /\ (forall i pg,
             fetched new !! i = Some pg -> closing_page (Some 5) pg ->
             S i = length (fetched new))
       /\ [stamp 0 status_2]
          = accumulate clock0 (Some 5) (ticks logged_in_state)
              (removelast (fetched new))
       /\ (refresh_never_raises net_timeline ->
           forall i pg,
             fetched new !! i = Some pg -> ~ closing_page (Some 5) pg ->
             is_Some (fetched new !! S i)).
Proof.
  assert (Hrun : fst (pull_statuses net_timeline clock0 10 7 (Some 5) false
                        logged_in_state) = Ret [stamp 0 status_2])
    by (vm_compute; reflexivity).
  split; [exact net_timeline_refresh|]. split; [exact Hrun|].
  exact (pull_statuses_cutoff net_timeline clock0 10 7 5 false
           logged_in_state _ _ (run_returns _ _ _ Hrun)).
Defined.

Section GroupPostsFacts.

Variable net : nat -> request -> http_result.
Variable clock : nat -> Z.

Lemma stamp_each_spec (results : list post) (s : state) :
  stamp_each clock results s =
    (Ret (stamp_from clock (ticks s) results),
     mk_state (self s) (wire s) (ticks s + length results)).
Proof.
  revert s. induction results as [|p results IH]; intros s.
  - cbn. rewrite Nat.add_0_r. destruct s; reflexivity.
  - cbn [stamp_each]. unfold bind at 1, now. unfold bind at 1.
    rewrite IH. cbn [self wire ticks length stamp_from].
    rewrite Nat.add_succ_r. reflexivity.
Qed.

(** The loop of [pull_group_posts] from any page on. *)
Lemma pull_group_posts_loop_run (fuel : nat) :
  forall (id depth page : Z) (yielded : list post) (s : state),
    let out := pull_group_posts_loop net clock fuel id depth page yielded s in
    exists new k,
      wire (snd out) = wire s ++ new
      /\ timeline_pages new = map (fun i => Some (VInt i)) (seqZ page k)
      /\ 0 <= k /\ page + k <= Z.max (depth + 1) page
      /\ fetched new = []
      /\ ((0 < fuel)%nat -> depth + 1 - page < Z.of_nat fuel ->
          fst out <> OutOfFuel)
      /\ (forall e, fst out = Raise e ->
            e = TypeError /\ exists x, x ∈ new /\ malformed_body (snd x))
      /\ (forall l, fst out = Ret l ->
            exists l', l = yielded ++ l'
              /\ ticks (snd out) = (ticks s + length l')%nat
              /\ (refresh_never_raises net ->
                  l' = stamp_from clock (ticks s)
                         (concat (timeline_fetched new)))).
Proof.
  induction fuel as [|fuel IH]; intros id depth page yielded s out.
  { exists [], 0. subst out. cbn. rewrite app_nil_r.
    repeat split; try lia; discriminate. }
  assert (Hstop : forall s0 : state,
            s0 = s -> out = (Ret yielded, s0) ->
            exists new k,
              wire (snd out) = wire s ++ new
              /\ timeline_pages new = map (fun i => Some (VInt i)) (seqZ page k)
              /\ 0 <= k /\ page + k <= Z.max (depth + 1) page
              /\ fetched new = []
              /\ ((0 < S fuel)%nat -> depth + 1 - page < Z.of_nat (S fuel) ->
                  fst out <> OutOfFuel)
              /\ (forall e, fst out = Raise e ->
                    e = TypeError
                    /\ exists x, x ∈ new /\ malformed_body (snd x))
              /\ (forall l, fst out = Ret l ->
                    exists l', l = yielded ++ l'
                      /\ ticks (snd out) = (ticks s + length l')%nat
                      /\ (refresh_never_raises net ->
                          l' = stamp_from clock (ticks s)
                                 (concat (timeline_fetched new))))).
  { intros s0 -> ->. exists [], 0. cbn [fst snd]. rewrite app_nil_r.
    repeat split; try lia; try discriminate.
    intros l Hl. injection Hl as <-. exists []. rewrite app_nil_r.
    cbn. rewrite Nat.add_0_r. auto. }
  pose proof (eq_refl out) as Hout. unfold out at 2 in Hout.
  cbn [pull_group_posts_loop] in Hout.
  destruct (Z.leb_spec page depth) as [Hpage|Hpage];
    [|apply (Hstop s eq_refl Hout)].
  unfold bind at 1 in Hout. unfold try_except in Hout.
  unfold bind at 1 in Hout. unfold read_sess_cookie, bind at 1, get_self in Hout.
  destruct (sess_cookie (self s)) as [ck|] eqn:Eck;
    [|apply (Hstop s eq_refl Hout)].
  unfold ret at 1 in Hout. unfold bind at 1 in Hout.
  set (rq := Get (GroupTimeline id) (timeline_params page) ck) in *.
  destruct (_get_cases net false rq s)
    as (r & c & extra & Heq & Hf & Hextra & Hans & Hck & Hnever).
  rewrite Heq in Hout.
  destruct (sign_in_no_pages extra Hextra) as (Hfe & _ & Htp & Htf).
  set (ans := net (length (wire s)) rq) in *.
  assert (Hpages : timeline_pages ((rq, ans) :: extra) = [Some (VInt page)]).
  { unfold timeline_pages in *. cbn. rewrite Htp. reflexivity. }
  assert (Hfetched : timeline_fetched ((rq, ans) :: extra) = [answer_page ans]).
  { unfold timeline_fetched in *. cbn. rewrite Htf. reflexivity. }
  assert (Hnone : fetched ((rq, ans) :: extra) = []).
  { unfold fetched in *. cbn. exact Hfe. }
  assert (Hseq : seqZ page 1 = [page]).
  { unfold seqZ. cbn. f_equal; lia. }
  (* The turns that leave the loop after this request. *)
  assert (Hleave : forall (res : result (list post)) (c' : client) (t : nat),
            out = (res, mk_state c' (wire s ++ (rq, ans) :: extra) t) ->
            match res with
            | Ret l => l = yielded /\ t = ticks s
                       /\ (refresh_never_raises net -> answer_page ans = [])
            | Raise e => e = TypeError /\ malformed_body ans
            | OutOfFuel => False
            end ->
            exists new k,
              wire (snd out) = wire s ++ new
              /\ timeline_pages new = map (fun i => Some (VInt i)) (seqZ page k)
              /\ 0 <= k /\ page + k <= Z.max (depth + 1) page
              /\ fetched new = []
              /\ ((0 < S fuel)%nat -> depth + 1 - page < Z.of_nat (S fuel) ->
                  fst out <> OutOfFuel)
              /\ (forall e, fst out = Raise e ->
                    e = TypeError
                    /\ exists x, x ∈ new /\ malformed_body (snd x))
              /\ (forall l, fst out = Ret l ->
                    exists l', l = yielded ++ l'
                      /\ ticks (snd out) = (ticks s + length l')%nat
                      /\ (refresh_never_raises net ->
                          l' = stamp_from clock (ticks s)
                                 (concat (timeline_fetched new))))).
  { intros res c' t -> Hres. exists ((rq, ans) :: extra), 1.
    cbn [fst snd wire ticks]. split; [reflexivity|].
    split; [rewrite Hpages, Hseq; reflexivity|].
    split; [lia|]. split; [lia|]. split; [exact Hnone|].
    split; [intros _ _ ->; exact Hres|]. split.
    - intros e ->. destruct Hres as [-> Hbad]. split; [reflexivity|].
      exists (rq, ans). split; [apply elem_of_cons; left; reflexivity|exact Hbad].
    - intros l ->. destruct Hres as (-> & -> & Hempty). exists [].
      rewrite app_nil_r. cbn [length]. rewrite Nat.add_0_r.
      split; [reflexivity|]. split; [reflexivity|].
      intros Hr. rewrite Hfetched. cbn. rewrite (Hempty Hr). reflexivity. }
  destruct r as [resp|e|]; [| |congruence].
  2: { apply (Hleave _ _ _ Hout). split; [reflexivity|]. split; [reflexivity|].
       intros Hr. destruct ans as [e'|resp] eqn:Ea; [reflexivity|].
       specialize (Hnever Hr resp eq_refl). discriminate. }
  pose proof (Hans resp eq_refl) as Hresp.
  unfold bind at 1, response_json in Hout.
  destruct (json_body resp) as [j|] eqn:Ej.
  2: { apply (Hleave _ _ _ Hout). split; [reflexivity|]. split; [reflexivity|].
       intros _. rewrite Hresp. unfold answer_page. rewrite Ej. reflexivity. }
  unfold ret at 1 2 in Hout.
  destruct j as [| | |str|d|results].
  1-3: apply (Hleave _ _ _ Hout); split; [reflexivity|];
    rewrite Hresp; cbn; rewrite Ej; exact I.
  { destruct (contains_error str) eqn:Eerr;
      [|destruct (String.eqb_spec str "")];
      apply (Hleave _ _ _ Hout).
    1,2: split; [reflexivity|]; split; [reflexivity|];
      intros _; rewrite Hresp; unfold answer_page; rewrite Ej; reflexivity.
    split; [reflexivity|]. rewrite Hresp. cbn. rewrite Ej. auto. }
  { destruct (d !! "error") eqn:Eerr; [|destruct (decide (d = ∅))];
      apply (Hleave _ _ _ Hout).
    1,2: split; [reflexivity|]; split; [reflexivity|];
      intros _; rewrite Hresp; unfold answer_page; rewrite Ej; reflexivity.
    split; [reflexivity|]. rewrite Hresp. cbn. rewrite Ej. auto. }
  destruct results as [|p results].
  { apply (Hleave _ _ _ Hout). split; [reflexivity|]. split; [reflexivity|].
    intros _. rewrite Hresp. unfold answer_page. rewrite Ej. reflexivity. }
  unfold bind at 1 in Hout. rewrite stamp_each_spec in Hout.
  cbn [self wire ticks] in Hout.
  match type of Hout with
  | _ = pull_group_posts_loop _ _ _ _ _ ?pg ?y ?s1 =>
      destruct (IH id depth pg y s1)
        as (new' & k' & Hwire' & Hpages' & Hk' & Hbound' & Hnone' & Hfuel'
            & Hraise' & Hret')
  end.
  rewrite <- Hout in Hwire', Hfuel', Hraise', Hret'.
  cbn [self wire ticks] in *.
  assert (Hpage_ans : answer_page ans = p :: results).
  { rewrite Hresp. unfold answer_page. rewrite Ej. reflexivity. }
  exists (((rq, ans) :: extra) ++ new'), (1 + k').
  split; [rewrite Hwire', <- app_assoc; reflexivity|].
  split.
  { rewrite timeline_pages_app, Hpages, Hpages'.
    rewrite (seqZ_cons page (1 + k')) by lia. cbn [map app].
    replace (Z.pred (1 + k')) with k' by lia. reflexivity. }
  split; [lia|]. split; [lia|].
  split; [rewrite fetched_app, Hnone, Hnone'; reflexivity|].
  split; [intros _ Hlt; apply Hfuel'; lia|]. split.
  - intros e He. destruct (Hraise' e He) as (-> & x & Hx & Hbad).
    split; [reflexivity|]. exists x. split; [|exact Hbad].
    apply elem_of_app. right. exact Hx.
  - intros l Hl. destruct (Hret' l Hl) as (l' & -> & Hticks & Hl').
    exists (stamp_from clock (ticks s) (p :: results) ++ l').
    split; [rewrite <- app_assoc; reflexivity|].
    split.
    { rewrite Hticks, length_app, stamp_from_length. lia. }
    intros Hr. rewrite timeline_fetched_app, Hfetched, Hpage_ans.
    change ([p :: results] ++ timeline_fetched new')
      with ((p :: results) :: timeline_fetched new').
    rewrite concat_cons, stamp_from_app, (Hl' Hr). reflexivity.
Qed.

(** X10. [pull_group_posts] asks for the pages 1, 2, ..., k of the
    timeline, in that order and each once, with k at most [depth]
    (no page when [depth] is below 1), and it ends: a fuel above
    [depth] is not used up. *)
Theorem pull_group_posts_pages (fuel : nat) (id depth : Z) (s : state) :
  let out := pull_group_posts net clock fuel id depth s in
  exists new k,
    wire (snd out) = wire s ++ new
    /\ timeline_pages new = map (fun i => Some (VInt i)) (seqZ 1 k)
    /\ 0 <= k <= Z.max depth 0
    /\ ((Z.to_nat depth < fuel)%nat -> fst out <> OutOfFuel).
Proof.
  intros out.
  destruct (pull_group_posts_loop_run fuel id depth 1 [] s)
    as (new & k & Hwire & Hpages & Hk & Hbound & _ & Hfuel & _ & _).
  exists new, k. split; [exact Hwire|]. split; [exact Hpages|].
  split; [lia|]. intros Hlt. apply Hfuel; lia.
Qed.

(** X11. Where session refreshes do not raise, [pull_group_posts]
    returns every post the API served on the pages it asked for, in
    the API's order, page after page, each stamped with the clock
    reading taken when it was yielded: one reading per post. *)
Theorem pull_group_posts_yields (fuel : nat) (id depth : Z) (s s' : state)
    (l : list post) :
  refresh_never_raises net ->
  pull_group_posts net clock fuel id depth s = (Ret l, s') ->
  exists new,
    wire s' = wire s ++ new
    /\ l = stamp_from clock (ticks s) (concat (timeline_fetched new))
    /\ ticks s' = (ticks s + length l)%nat.
Proof.
  intros Hnever Hrun.
  destruct (pull_group_posts_loop_run fuel id depth 1 [] s)
    as (new & k & Hwire & _ & _ & _ & _ & _ & _ & Hret).
  fold (pull_group_posts net clock fuel id depth) in Hwire, Hret.
  rewrite Hrun in Hwire, Hret. cbn [fst snd] in Hwire, Hret.
  destruct (Hret l eq_refl) as (l' & Hl & Hticks & Hl').
  cbn [app] in Hl. subst l'. exists new.
  split; [exact Hwire|]. split; [exact (Hl' Hnever)|exact Hticks].
Qed.

(** X12. On a logged-in client and where refreshes do not raise, a
    page body that is JSON null, a number, a boolean, or a string or
    an object that is not empty and has no ["error"] in it makes both
    paginators raise [TypeError], at the first page as at any later
    turn of their loops: the posts gathered until then are lost.
    ([pull_statuses] is its loop from no parameters and no posts,
    [pull_group_posts] its loop from page 1.) *)
Theorem paginators_raise_on_malformed_bodies (fuel : nat) (id depth page : Z)
    (ca : option Z) (replies : bool) (params : dict)
    (acc yielded : list post) (s : state) (ck : option cookiejar) :
  sess_cookie (self s) = Some ck ->
  refresh_never_raises net ->
  (malformed_body
     (net (length (wire s))
        (Get (AccountStatuses id (negb replies)) params ck)) ->
   fst (pull_statuses_loop net clock (S fuel) id ca replies params acc s)
     = Raise TypeError)
  /\ (page <= depth ->
      malformed_body
        (net (length (wire s))
           (Get (GroupTimeline id) (timeline_params page) ck)) ->
      fst (pull_group_posts_loop net clock (S fuel) id depth page yielded s)
        = Raise TypeError).
Proof.
  intros Hck Hnever. split.
  - intros Hbad. cbn [pull_statuses_loop].
    unfold bind at 1. unfold try_except.
    unfold bind at 1. unfold read_sess_cookie, bind at 1, get_self.
    rewrite Hck. unfold ret at 1. unfold bind at 1.
    destruct (_get_cases net false
                (Get (AccountStatuses id (negb replies)) params ck) s)
      as (r & c & extra & Heq & _ & _ & _ & _ & Hret).
    rewrite Heq. unfold malformed_body in Hbad.
    destruct (net (length (wire s))
                (Get (AccountStatuses id (negb replies)) params ck))
      as [e0|resp]; [contradiction|].
    rewrite (Hret Hnever resp eq_refl).
    unfold bind at 1, response_json.
    destruct (json_body resp) as [[| | |str|d|l]|]; try contradiction;
      try reflexivity.
    + destruct Hbad as [Herr Hne]. unfold bind, ret, raise. cbn [fst].
      rewrite Herr.
      destruct (String.eqb_spec str ""); [contradiction|reflexivity].
    + destruct Hbad as [Herr Hne]. unfold bind, ret, raise. cbn [fst].
      rewrite Herr.
      destruct (decide (d = ∅)); [contradiction|reflexivity].
  - intros Hpage Hbad. cbn [pull_group_posts_loop].
    destruct (Z.leb_spec page depth) as [_|]; [|lia].
    unfold bind at 1. unfold try_except.
    unfold bind at 1. unfold read_sess_cookie, bind at 1, get_self.
    rewrite Hck. unfold ret at 1. unfold bind at 1.
    destruct (_get_cases net false
                (Get (GroupTimeline id) (timeline_params page) ck) s)
      as (r & c & extra & Heq & _ & _ & _ & _ & Hret).
    rewrite Heq. unfold malformed_body in Hbad.
    destruct (net (length (wire s))
                (Get (GroupTimeline id) (timeline_params page) ck))
      as [e0|resp]; [contradiction|].
    rewrite (Hret Hnever resp eq_refl).
    unfold bind at 1, response_json.
    destruct (json_body resp) as [[| | |str|d|l]|]; try contradiction;
      try reflexivity.
    + destruct Hbad as [Herr Hne]. unfold bind, ret, raise. cbn [fst].
      rewrite Herr.
      destruct (String.eqb_spec str ""); [contradiction|reflexivity].
    + destruct Hbad as [Herr Hne]. unfold bind, ret, raise. cbn [fst].
      rewrite Herr.
      destruct (decide (d = ∅)); [contradiction|reflexivity].
Qed.

End GroupPostsFacts.

Lemma net_null_refresh : refresh_never_raises net_null.
Proof. intros u p s. eexists. reflexivity. Defined.

Lemma paginators_raise_on_malformed_bodies_witness :
  fst (pull_statuses_loop net_null clock0 1 7 None false
         {[ "max_id" := VInt 1 ]} [status_2; status_1] logged_in_state)
    = Raise TypeError
  /\ fst (pull_group_posts_loop net_null clock0 1 7 3 2 [status_2]
            logged_in_state)
     = Raise TypeError.
Proof.
  pose proof (paginators_raise_on_malformed_bodies net_null clock0 0 7 3 2
                None false {[ "max_id" := VInt 1 ]} [status_2; status_1]
                [status_2] logged_in_state (Some session_cookies) eq_refl
                net_null_refresh) as [Hstatuses Htimeline].
  exact (conj (Hstatuses I) (Htimeline ltac:(discriminate) I)).
Defined.

Lemma net_group_refresh : refresh_never_raises net_group.
Proof. intros u p s. eexists. reflexivity. Defined.

Lemma pull_group_posts_yields_witness :
  let run := pull_group_posts net_group clock0 5 7 10 logged_in_state in
  let l := stamp_from clock0 0 [status_2; status_1; status_0] in
  fst run = Ret l
  /\ exists new,
       wire (snd run) = wire logged_in_state ++ new
       /\ l = stamp_from clock0 (ticks logged_in_state)
                (concat (timeline_fetched new))
       /\ ticks (snd run) = (ticks logged_in_state + length l)%nat.
Proof.
  intros run l.
  assert (Hrun : fst run = Ret l) by (vm_compute; reflexivity).
  split; [exact Hrun|].
  exact (pull_group_posts_yields net_group clock0 5 7 10 logged_in_state
           (snd run) l net_group_refresh (run_returns _ _ _ Hrun)).
Defined.

Section EntityFacts.

Variable net : nat -> request -> http_result.
Variable clock : nat -> Z.

(** What a [pull_user] or [pull_group] leaves on the wire. *)
Lemma pull_entity_run (e : endpoint) (s : state) :
  let rq := Get e ∅ None in
  let pull : M (option dict) :=
    let* fetched := try_except
      (let* r := _get net false rq in
       let* j := response_json r in
       ret (Some j))
      (fun _ => ret None) in
    match fetched with
    | None => ret None
    | Some (JDict result) =>
        if is_record_not_found result then ret None
        else let* t := now clock in ret (Some (<["_pulled" := VTime t]> result))
    | Some _ => raise AttributeError
    end in
  exists new,
    wire (snd (pull s)) = wire s ++ new
    /\ forallb is_sign_in (tl new) = true
    /\ head new = Some (rq, net (length (wire s)) rq)
    /\ fst (pull s) <> OutOfFuel
    /\ (sess_cookie (self s) <> None -> sess_cookie (self (snd (pull s))) <> None)
    /\ (forall d, fst (pull s) = Ret (Some d) ->
          served new rq (clock (ticks s)) d).
Proof.
  intros rq pull. set (out := pull s).
  assert (Hout : out = pull s) by reflexivity. clearbody out.
  subst pull. cbv beta in Hout.
  unfold bind at 1 in Hout. unfold try_except, bind at 1 in Hout.
  destruct (_get_cases net false rq s)
    as (r & c & extra & Heq & Hf & Hextra & Hans & Hck & _).
  rewrite Heq in Hout. exists ((rq, net (length (wire s)) rq) :: extra).
  destruct r as [resp|e0|]; [| |congruence].
  2: { subst out. cbn. repeat split; done_frame. }
  pose proof (Hans resp eq_refl) as Hresp.
  unfold bind at 1, response_json in Hout.
  destruct (json_body resp) as [j|] eqn:Ej.
  2: { subst out. cbn. repeat split; done_frame. }
  unfold ret at 1 2 in Hout.
  destruct j as [| | | |d|];
    try (subst out; cbn; repeat split; done_frame).
  destruct (is_record_not_found d) eqn:Enf;
    [subst out; cbn; repeat split; done_frame|].
  unfold bind, now, ret in Hout. subst out.
  cbn [fst snd self wire ticks tl head].
  repeat split; try done_frame.
  intros d0 Hd. injection Hd as <-. exists resp, d.
  rewrite Hresp. split; [apply elem_of_cons; left; reflexivity|]. auto.
Qed.

Lemma pull_user_run (id : Z) (s : state) :
  exists new,
    wire (snd (pull_user net clock id s)) = wire s ++ new
    /\ forallb is_sign_in (tl new) = true
    /\ head new = Some (Get (Account id) ∅ None,
                        net (length (wire s)) (Get (Account id) ∅ None))
    /\ fst (pull_user net clock id s) <> OutOfFuel
    /\ (sess_cookie (self s) <> None ->
        sess_cookie (self (snd (pull_user net clock id s))) <> None)
    /\ (forall d, fst (pull_user net clock id s) = Ret (Some d) ->
          served new (Get (Account id) ∅ None) (clock (ticks s)) d).
Proof. exact (pull_entity_run (Account id) s). Qed.

Lemma pull_group_run (id : Z) (s : state) :
  exists new,
    wire (snd (pull_group net clock id s)) = wire s ++ new
    /\ forallb is_sign_in (tl new) = true
    /\ head new = Some (Get (Group id) ∅ None,
                        net (length (wire s)) (Get (Group id) ∅ None))
    /\ fst (pull_group net clock id s) <> OutOfFuel
    /\ (sess_cookie (self s) <> None ->
        sess_cookie (self (snd (pull_group net clock id s))) <> None)
    /\ (forall d, fst (pull_group net clock id s) = Ret (Some d) ->
          served new (Get (Group id) ∅ None) (clock (ticks s)) d).
Proof. exact (pull_entity_run (Group id) s). Qed.

(** The wire of an entity pull carries no page of statuses. *)
Lemma entity_wire_no_pages (new : list exchange) (e : endpoint)
    (a : http_result) :
  match e with Account _ | Group _ => True | _ => False end ->
  head new = Some (Get e ∅ None, a) ->
  forallb is_sign_in (tl new) = true ->
  fetched new = [] /\ timeline_pages new = [].
Proof.
  intros He Hhead Htl. destruct new as [|x rest]; [discriminate|].
  injection Hhead as ->. cbn [tl] in Htl.
  destruct (sign_in_no_pages rest Htl) as (H1 & _ & H3 & _).
  unfold fetched, timeline_pages in *.
  destruct e; try contradiction; cbn; auto.
Qed.

(** X13. [pull_user_and_posts]: for an ID the upstream does not
    serve it returns [(None, [])]; when posts are not asked for, or
    no user is found, no request for statuses goes out; whenever it
    returns, the first component is what [pull_user] returned, a
    found user carries ["username"], and the posts are those
    [pull_statuses] returns from the state [pull_user] left when
    posts are asked for, none otherwise; a found record without
    ["username"] ends in [KeyError] once the posts are pulled. *)
Theorem pull_user_and_posts_outcome (fuel : nat) (id : Z) (pull_posts : bool)
    (ca : option Z) (replies : bool) (s : state) :
  let out := pull_user_and_posts net clock fuel id pull_posts ca replies s in
  let pulled := pull_user net clock id s in
  (absent_answer (net (length (wire s)) (Get (Account id) ∅ None)) ->
     out = (Ret (None, []), snd pulled))
  /\ (pull_posts = false \/ fst pulled = Ret None ->
      exists new, wire (snd out) = wire s ++ new /\ fetched new = [])
  /\ (forall u l, fst out = Ret (u, l) ->
        fst pulled = Ret u
        /\ match u with
           | None => l = [] /\ snd out = snd pulled
           | Some d =>
               is_Some (d !! "username")
               /\ if pull_posts
                  then pull_statuses net clock fuel id ca replies (snd pulled)
                       = (Ret l, snd out)
                  else l = [] /\ snd out = snd pulled
           end)
  /\ (forall d, fst pulled = Ret (Some d) -> d !! "username" = None ->
        (pull_posts = false
         \/ exists l, fst (pull_statuses net clock fuel id ca replies
                             (snd pulled)) = Ret l) ->
        fst out = Raise KeyError).
Proof.
  intros out pulled.
  destruct (pull_user_run id s) as (new & Hwire & Htl & Hhead & _ & _ & _).
  destruct (entity_wire_no_pages new (Account id) _ I Hhead Htl) as [Hnone _].
  fold pulled in Hwire.
  assert (Hout : out = pull_user_and_posts net clock fuel id pull_posts ca
                         replies s) by reflexivity.
  clearbody out. unfold pull_user_and_posts in Hout.
  unfold bind at 1 in Hout. fold pulled in Hout.
  split; [|split; [|split]].
  - intros Habs. destruct (pull_user_absent net clock id s Habs) as [s' Hs'].
    fold pulled in Hs'. rewrite Hs' in Hout |- *. exact Hout.
  - intros Hcase. exists new. split; [|exact Hnone].
    destruct pulled as [[[d|]| |] s1]; cbn [fst snd] in *;
      try (rewrite Hout; exact Hwire).
    destruct Hcase as [->|Hcase]; [|discriminate Hcase].
    unfold bind, ret, subscript in Hout.
    destruct (d !! "username"); rewrite Hout; exact Hwire.
  - intros u l Hret. destruct pulled as [[[d|]| |] s1]; cbn [fst snd] in *;
      [| |rewrite Hout in Hret; discriminate Hret
       |rewrite Hout in Hret; discriminate Hret].
    + unfold bind at 1 in Hout. destruct pull_posts.
      * destruct (pull_statuses net clock fuel id ca replies s1)
          as [[l0| |] s2]; [|rewrite Hout in Hret; discriminate Hret
                            |rewrite Hout in Hret; discriminate Hret].
        unfold bind, ret, subscript, raise in Hout.
        destruct (d !! "username") as [v|] eqn:Ev; rewrite Hout in Hret |- *;
          [|discriminate Hret].
        cbn in Hret |- *. injection Hret as <- <-. eauto.
      * unfold bind, ret, subscript, raise in Hout.
        destruct (d !! "username") as [v|] eqn:Ev; rewrite Hout in Hret |- *;
          [|discriminate Hret].
        cbn in Hret |- *. injection Hret as <- <-. eauto.
    + rewrite Hout in Hret |- *. cbn in Hret |- *.
      injection Hret as <- <-. auto.
  - intros d Hd Hname Hposts. rewrite Hout.
    destruct pulled as [r s1]. cbn [fst snd] in *. subst r.
    unfold bind at 1.
    destruct Hposts as [->|[l Hl]].
    + unfold bind, ret, subscript. rewrite Hname. reflexivity.
    + destruct pull_posts.
      * destruct (pull_statuses net clock fuel id ca replies s1) as [r2 s2].
        cbn [fst] in Hl. subst r2.
        unfold bind, ret, subscript. rewrite Hname. reflexivity.
      * unfold bind, ret, subscript. rewrite Hname. reflexivity.
Qed.

(** X14. [pull_group_and_posts]: the same for groups, with the
    timeline pages of [pull_group_posts] and the ["title"] of the
    group. *)
Theorem pull_group_and_posts_outcome (fuel : nat) (id : Z) (pull_posts : bool)
    (depth : Z) (s : state) :
  let out := pull_group_and_posts net clock fuel id pull_posts depth s in
  let pulled := pull_group net clock id s in
  (absent_answer (net (length (wire s)) (Get (Group id) ∅ None)) ->
     out = (Ret (None, []), snd pulled))
  /\ (pull_posts = false \/ fst pulled = Ret None ->
      exists new, wire (snd out) = wire s ++ new /\ timeline_pages new = [])
  /\ (forall g l, fst out = Ret (g, l) ->
        fst pulled = Ret g
        /\ match g with
           | None => l = [] /\ snd out = snd pulled
           | Some d =>
               is_Some (d !! "title")
               /\ if pull_posts
                  then pull_group_posts net clock fuel id depth (snd pulled)
                       = (Ret l, snd out)
                  else l = [] /\ snd out = snd pulled
           end)
  /\ (forall d, fst pulled = Ret (Some d) -> d !! "title" = None ->
        (pull_posts = false
         \/ exists l, fst (pull_group_posts net clock fuel id depth
                             (snd pulled)) = Ret l) ->
        fst out = Raise KeyError).
Proof.
  intros out pulled.
  destruct (pull_group_run id s) as (new & Hwire & Htl & Hhead & _ & _ & _).
  destruct (entity_wire_no_pages new (Group id) _ I Hhead Htl) as [_ Hnone].
  fold pulled in Hwire.
  assert (Hout : out = pull_group_and_posts net clock fuel id pull_posts depth
                         s) by reflexivity.
  clearbody out. unfold pull_group_and_posts in Hout.
  unfold bind at 1 in Hout. fold pulled in Hout.
  split; [|split; [|split]].
  - intros Habs. destruct (pull_group_absent net clock id s Habs) as [s' Hs'].
    fold pulled in Hs'. rewrite Hs' in Hout |- *. exact Hout.
  - intros Hcase. exists new. split; [|exact Hnone].
    destruct pulled as [[[d|]| |] s1]; cbn [fst snd] in *;
      try (rewrite Hout; exact Hwire).
    destruct Hcase as [->|Hcase]; [|discriminate Hcase].
    unfold bind, ret, subscript in Hout.
    destruct (d !! "title"); rewrite Hout; exact Hwire.
  - intros u l Hret. destruct pulled as [[[d|]| |] s1]; cbn [fst snd] in *;
      [| |rewrite Hout in Hret; discriminate Hret
       |rewrite Hout in Hret; discriminate Hret].
    + unfold bind at 1 in Hout. destruct pull_posts.
      * destruct (pull_group_posts net clock fuel id depth s1)
          as [[l0| |] s2]; [|rewrite Hout in Hret; discriminate Hret
                            |rewrite Hout in Hret; discriminate Hret].
        unfold bind, ret, subscript, raise in Hout.
        destruct (d !! "title") as [v|] eqn:Ev; rewrite Hout in Hret |- *;
          [|discriminate Hret].
        cbn in Hret |- *. injection Hret as <- <-. eauto.
      * unfold bind, ret, subscript, raise in Hout.
        destruct (d !! "title") as [v|] eqn:Ev; rewrite Hout in Hret |- *;
          [|discriminate Hret].
        cbn in Hret |- *. injection Hret as <- <-. eauto.
    + rewrite Hout in Hret |- *. cbn in Hret |- *.
      injection Hret as <- <-. auto.
  - intros d Hd Hname Hposts. rewrite Hout.
    destruct pulled as [r s1]. cbn [fst snd] in *. subst r.
    unfold bind at 1.
    destruct Hposts as [->|[l Hl]].
    + unfold bind, ret, subscript. rewrite Hname. reflexivity.
    + destruct pull_posts.
      * destruct (pull_group_posts net clock fuel id depth s1) as [r2 s2].
        cbn [fst] in Hl. subst r2.
        unfold bind, ret, subscript. rewrite Hname. reflexivity.
      * unfold bind, ret, subscript. rewrite Hname. reflexivity.
Qed.

End EntityFacts.

(** ** More on the search *)

Lemma served_app_r (w new : list exchange) (rq : request) (t : Z) (d : dict) :
  served new rq t d -> served (w ++ new) rq t d.
Proof.
  intros (resp & body & Hin & H). exists resp, body.
  split; [apply elem_of_app; right; exact Hin|exact H].
Qed.

Lemma served_app_l (w new : list exchange) (rq : request) (t : Z) (d : dict) :
  served w rq t d -> served (w ++ new) rq t d.
Proof.
  intros (resp & body & Hin & H). exists resp, body.
  split; [apply elem_of_app; left; exact Hin|exact H].
Qed.

Section LatestUserFacts.

Variable net : nat -> request -> http_result.
Variable clock : nat -> Z.

Lemma probe_upper_bound_wire (fuel : nat) :
  forall (u : Z) (s : state),
    exists new,
      wire (snd (probe_upper_bound net clock fuel u s)) = wire s ++ new.
Proof.
  induction fuel as [|fuel IH]; intros u s.
  { exists []. cbn. rewrite app_nil_r. reflexivity. }
  cbn [probe_upper_bound]. unfold bind at 1.
  destruct (pull_user_run net clock u s) as (new & Hwire & _).
  destruct (pull_user net clock u s) as [[[d|]| |] s1]; cbn [snd] in *;
    try (exists new; exact Hwire).
  destruct (round_times_1_2 u) as [u'|]; [|exists new; exact Hwire].
  destruct (IH u' s1) as (new' & Hwire'). exists (new ++ new').
  rewrite Hwire', Hwire, app_assoc. reflexivity.
Qed.

(** The candidate of the second loop is always an account the API
    served at an ID from the lower bound on. *)
Lemma binary_search_served (fuel : nat) :
  forall (lo hi : Z) (user : option dict) (s : state) (w0 : list exchange)
         (base : Z),
    base <= lo ->
    (forall d, user = Some d ->
       exists id t, base <= id /\ served w0 (Get (Account id) ∅ None) t d) ->
    let out := binary_search net clock fuel lo hi user s in
    exists new,
      wire (snd out) = wire s ++ new
      /\ forall d, fst out = Ret (Some d) ->
           exists id t,
             base <= id /\ served (w0 ++ new) (Get (Account id) ∅ None) t d.
Proof.
  induction fuel as [|fuel IH]; intros lo hi user s w0 base Hlo Huser out.
  { exists []. subst out. cbn. rewrite app_nil_r. split; [reflexivity|].
    discriminate. }
  subst out. cbn [binary_search].
  destruct (Z.leb_spec lo hi) as [Hle|Hgt].
  2: { exists []. cbn. rewrite !app_nil_r. split; [reflexivity|].
       intros d Hd. injection Hd as ->. apply Huser. reflexivity. }
  unfold bind at 1 2.
  set (middle := (lo + hi) `div` 2).
  assert (Hmid : lo <= middle).
  { apply Z.div_le_lower_bound; lia. }
  destruct (pull_user_run net clock middle s)
    as (new & Hwire & _ & _ & _ & _ & Hserved).
  destruct (pull_user net clock middle s) as [[[d|]| |] s1];
    cbn [fst snd] in *.
  - destruct (IH (middle + 1) hi (Some d) s1 (w0 ++ new) base) as
      (new' & Hwire' & Hret'); [lia| |].
    { intros d0 Hd0. injection Hd0 as <-. exists middle, (clock (ticks s)).
      split; [lia|]. apply served_app_r. apply Hserved. reflexivity. }
    exists (new ++ new'). rewrite Hwire', Hwire, !app_assoc.
    split; [reflexivity|exact Hret'].
  - destruct (IH lo (middle - 1) user s1 (w0 ++ new) base) as
      (new' & Hwire' & Hret'); [lia| |].
    { intros d0 Hd0. destruct (Huser d0 Hd0) as (i & t & Hi & Hs).
      exists i, t. split; [exact Hi|]. apply served_app_l. exact Hs. }
    exists (new ++ new'). rewrite Hwire', Hwire, !app_assoc.
    split; [reflexivity|exact Hret'].
  - exists new. split; [exact Hwire|]. discriminate.
  - exists new. split; [exact Hwire|]. discriminate.
Qed.

(** X15. Whatever the upstream, a user that [find_latest_user]
    returns is the stamped body of an answer to an account request of
    this run, for an ID at or above the initial lower bound, that was
    no "Record not found"; its ["created_at"] is a timestamp at most
    30 minutes before the last clock reading; and it carries
    ["username"] and ["id"]. *)
Theorem find_latest_user_returns (fuel : nat) (s s' : state) (user : dict) :
  find_latest_user net clock fuel s = (Ret user, s') ->
  exists new id pulled created n,
    wire s' = wire s ++ new
    /\ INITIAL_LOWER_BOUND <= id
    /\ served new (Get (Account id) ∅ None) pulled user
    /\ user !! "created_at" = Some (VTime created)
    /\ ticks s' = S n
    /\ clock n - created <= THIRTY_MINUTES
    /\ is_Some (user !! "username") /\ is_Some (user !! "id").
Proof.
  intros Hrun. unfold find_latest_user in Hrun.
  apply bind_Ret_inv in Hrun as (found & s2 & Hsearch & Hcheck).
  unfold find_latest_user_search in Hsearch.
  apply bind_Ret_inv in Hsearch as (upper & s1 & Hprobe & Hbin).
  destruct (probe_upper_bound_wire fuel INITIAL_LOWER_BOUND s) as [new1 Hw1].
  rewrite Hprobe in Hw1. cbn [snd] in Hw1.
  destruct (binary_search_served fuel INITIAL_LOWER_BOUND upper None s1 new1
              INITIAL_LOWER_BOUND (Z.le_refl _))
    as (new2 & Hw2 & Hserved); [discriminate|].
  rewrite Hbin in Hw2, Hserved. cbn [fst snd] in Hw2, Hserved.
  unfold validate_latest_user in Hcheck.
  destruct found as [d|]; [|unfold raise in Hcheck; discriminate Hcheck].
  destruct (Hserved d eq_refl) as (id & t & Hid & Hd).
  unfold subscript, date_parse, bind, now, ret, raise in Hcheck.
  destruct (d !! "created_at") as [[| | | |created|]|] eqn:Ec;
    try discriminate Hcheck.
  cbv beta iota zeta in Hcheck. cbn [self wire ticks] in Hcheck.
  destruct (clock (ticks s2) - created >? THIRTY_MINUTES) eqn:Hfresh.
  { destruct (d !! "username"); simpl in Hcheck; discriminate Hcheck. }
  rewrite Z.gtb_ltb in Hfresh. apply Z.ltb_ge in Hfresh.
  destruct (d !! "username") as [name|] eqn:En;
    [|simpl in Hcheck; discriminate Hcheck].
  destruct (d !! "id") as [uid|] eqn:Ei;
    simpl in Hcheck; [|discriminate Hcheck].
  injection Hcheck as <- <-. cbn [wire ticks].
  exists (new1 ++ new2), id, t, created, (ticks s2).
  split; [rewrite Hw2, Hw1, app_assoc; reflexivity|].
  split; [exact Hid|]. split; [exact Hd|]. split; [exact Ec|].
  split; [reflexivity|]. split; [exact Hfresh|]. split; eauto.
Qed.

(** The first loop ends: on a missing user, or on the overflow. *)
Lemma probe_upper_bound_ends (n : nat) :
  forall (fuel : nat) (u : Z) (s : state),
    overflows_within n u = true -> (n < fuel)%nat -> u < DBL_OVERFLOW ->
    match fst (probe_upper_bound net clock fuel u s) with
    | Ret upper => upper < DBL_OVERFLOW
    | Raise _ => True
    | OutOfFuel => False
    end.
Proof.
  induction n as [|n IH]; intros fuel u s Hover Hfuel Hu;
    (destruct fuel as [|fuel]; [lia|]);
    cbn [probe_upper_bound]; unfold bind at 1;
    destruct (pull_user_run net clock u s) as (new & _ & _ & _ & Hend & _);
    (destruct (pull_user net clock u s) as [[[d|]| |] s1]; cbn [fst] in *;
     [|exact Hu|exact I|congruence]);
    cbn [overflows_within] in Hover;
    (destruct (round_times_1_2 u) as [u'|]; [|exact I]);
    [discriminate Hover|].
  apply andb_prop in Hover as [Hlim Hrest]. apply Z.ltb_lt in Hlim.
  apply IH; [exact Hrest|lia|exact Hlim].
Qed.

(** The second loop ends: every turn halves the interval. *)
Lemma binary_search_ends (f : nat) :
  forall (fuel : nat) (lo hi : Z) (user : option dict) (s : state),
    hi - lo + 1 < 2 ^ Z.of_nat f -> (f < fuel)%nat ->
    fst (binary_search net clock fuel lo hi user s) <> OutOfFuel.
Proof.
  induction f as [|f IH]; intros fuel lo hi user s Hw Hfuel;
    (destruct fuel as [|fuel]; [lia|]); cbn [binary_search];
    destruct (Z.leb_spec lo hi) as [Hle|Hgt]; try discriminate.
  - change (2 ^ Z.of_nat 0) with 1 in Hw. lia.
  - unfold bind at 1.
    destruct (pull_user_run net clock ((lo + hi) `div` 2) s)
      as (new & _ & _ & _ & Hend & _).
    assert (Hmid : lo <= (lo + hi) `div` 2 <= hi).
    { split; [apply Z.div_le_lower_bound|apply Z.div_le_upper_bound]; lia. }
    assert (Hpow : 2 ^ Z.of_nat (S f) = 2 * 2 ^ Z.of_nat f).
    { rewrite Nat2Z.inj_succ, Z.pow_succ_r by lia. reflexivity. }
    assert (Hhalf : 2 * ((lo + hi) `div` 2) <= lo + hi
                    < 2 * ((lo + hi) `div` 2) + 2).
    { pose proof (Z.div_mod (lo + hi) 2 ltac:(lia)).
      pose proof (Z.mod_pos_bound (lo + hi) 2 ltac:(lia)). lia. }
    destruct (pull_user net clock ((lo + hi) `div` 2) s) as [[[d|]| |] s1];
      cbn [fst] in *; [| |discriminate|congruence];
      apply IH; lia.
Qed.

Lemma overflows_from_lower_bound :
  overflows_within 4000 INITIAL_LOWER_BOUND = true.
Proof. vm_compute. reflexivity. Qed.

(** X16. [find_latest_user] ends whatever the upstream answers.  The
    probes of the first loop leave the range of doubles within 4000
    steps, where [round(upper_bound * 1.2)] raises [OverflowError]:
    the loop ends on a missing user or on that error, below 2^1024,
    and the binary search halves its interval at every turn.  A fuel
    above 4000 is not used up. *)
Theorem find_latest_user_terminates (fuel : nat) (s : state) :
  (4000 < fuel)%nat ->
  fst (find_latest_user net clock fuel s) <> OutOfFuel.
Proof.
  intros Hfuel. unfold find_latest_user, find_latest_user_search.
  unfold bind at 1 2.
  pose proof (probe_upper_bound_ends 4000 fuel INITIAL_LOWER_BOUND s
                overflows_from_lower_bound Hfuel ltac:(reflexivity)) as Hprobe.
  destruct (probe_upper_bound net clock fuel INITIAL_LOWER_BOUND s)
    as [[upper|e|] s1]; cbn [fst] in Hprobe; [|discriminate|contradiction].
  pose proof (binary_search_ends 1024 fuel INITIAL_LOWER_BOUND upper None s1)
    as Hbin.
  destruct (binary_search net clock fuel INITIAL_LOWER_BOUND upper None s1)
    as [[found|e|] s2]; cbn [fst] in *.
  - unfold validate_latest_user.
    destruct found as [d|]; [|unfold raise; discriminate].
    unfold subscript, date_parse, bind, now, ret, raise.
    destruct (d !! "created_at") as [[| | | |created|]|]; try discriminate.
    cbv beta iota zeta. cbn [self wire ticks].
    destruct (clock (ticks s2) - created >? THIRTY_MINUTES);
      destruct (d !! "username"); try (simpl; discriminate);
      destruct (d !! "id"); simpl; discriminate.
  - discriminate.
  - exfalso. apply Hbin; [|lia|reflexivity].
    rewrite DBL_OVERFLOW_pow in Hprobe.
    change (Z.of_nat 1024) with 1024. unfold INITIAL_LOWER_BOUND. lia.
Qed.

End LatestUserFacts.

Lemma find_latest_user_returns_witness :
  let run := find_latest_user (net_upto 5318600) clock0 40 initial_state in
  let user : dict := <["_pulled" := VTime 0]> (account_record 5318600) in
  fst run = Ret user
  /\ exists new id pulled created n,
       wire (snd run) = wire initial_state ++ new
       /\ INITIAL_LOWER_BOUND <= id
       /\ served new (Get (Account id) ∅ None) pulled user
       /\ user !! "created_at" = Some (VTime created)
       /\ ticks (snd run) = S n
       /\ clock0 n - created <= THIRTY_MINUTES
       /\ is_Some (user !! "username") /\ is_Some (user !! "id").
Proof.
  intros run user.
  assert (Hrun : fst run = Ret user) by (vm_compute; reflexivity).
  split; [exact Hrun|].
  exact (find_latest_user_returns (net_upto 5318600) clock0 40 initial_state
           (snd run) user (run_returns _ _ _ Hrun)).
Defined.

Lemma find_latest_user_terminates_witness :
  (4000 < 4001)%nat
  /\ fst (find_latest_user (net_upto 5318600) clock0 4001 initial_state)
     <> OutOfFuel.
Proof.
  split; [apply le_n|].
  exact (find_latest_user_terminates (net_upto 5318600) clock0 4001
           initial_state (le_n 4001)).
Defined.

(** The sample timeline has no negative ID. *)
Lemma net_timeline_nonnegative : api_ids_nonnegative net_timeline.
Proof.
  intros n rq p Hp. unfold net_timeline in Hp.
  destruct rq as [[| | |id excl|] params ck|[] payload ck]; cbn in Hp;
    try (apply elem_of_nil in Hp; contradiction).
  destruct (params !! "max_id") as [[| |m| | |]|]; cbn in Hp;
    try (apply elem_of_nil in Hp; contradiction).
  - destruct m as [|[[]|[]|]|]; cbn in Hp;
      repeat (apply elem_of_cons in Hp as [->|Hp]; [cbn; lia|]);
      apply elem_of_nil in Hp; contradiction.
  - repeat (apply elem_of_cons in Hp as [->|Hp]; [cbn; lia|]).
    apply elem_of_nil in Hp. contradiction.
Defined.

Lemma pull_statuses_ends_witness :
  exists fuel,
    fst (pull_statuses net_timeline clock0 fuel 7 None false logged_in_state)
      <> OutOfFuel.
Proof.
  exact (pull_statuses_ends net_timeline clock0 7 None false logged_in_state
           net_timeline_below_cursor net_timeline_nonnegative).
Defined.

(** ** More on the walks *)

Section WalkOutcomes.

Variable task : Z -> result task_result.

Lemma take_results_outcome (done : list Z) (w : walk) :
  match take_results task done w with
  | Ret w' =>
      Forall (task_returns_at task) done
      /\ w_f w' = w_f w /\ w_ids w' = w_ids w
      /\ w_submitted w' = w_submitted w
      /\ w_completed w' = w_completed w ++ done
      /\ w_entity_file w' = w_entity_file w ++ omap (entity_found task) done
      /\ w_posts_file w' =
           w_posts_file w ++ concat (map (posts_found task) done)
  | Raise e => exists id, id ∈ done /\ task id = Raise e
  | OutOfFuel => exists id, id ∈ done /\ task id = OutOfFuel
  end.
Proof.
  revert w. induction done as [|id done IH]; intros w.
  - cbn. rewrite !app_nil_r. repeat split. constructor.
  - cbn [take_results]. destruct (task id) as [[entity found]|e|] eqn:Etask.
    + match goal with |- context [take_results task done ?w1] =>
        specialize (IH w1); destruct (take_results task done w1) as [w'|e|]
      end.
      * destruct IH as (Hall & Hf & Hids & Hsub & Hcomp & Hent & Hposts).
        split; [constructor; [eexists; exact Etask|exact Hall]|].
        assert (E1 : entity_found task id = entity).
        { unfold entity_found. rewrite Etask. destruct entity; reflexivity. }
        assert (E2 : posts_found task id
                     = match entity with Some _ => found | None => [] end).
        { unfold posts_found. rewrite Etask. destruct entity; reflexivity. }
        change (omap (entity_found task) (id :: done))
          with (match entity_found task id with
                | Some e => e :: omap (entity_found task) done
                | None => omap (entity_found task) done
                end).
        cbn [map concat]. rewrite E1, E2.
        rewrite Hf, Hids, Hsub, Hcomp, Hent, Hposts.
        destruct entity;
          cbn [w_f w_ids w_submitted w_completed w_entity_file w_posts_file];
          rewrite <- ?app_assoc; auto 10.
      * destruct IH as (i & Hi & Hraise). exists i.
        split; [apply elem_of_cons; right; exact Hi|exact Hraise].
      * destruct IH as (i & Hi & Hraise). exists i.
        split; [apply elem_of_cons; right; exact Hi|exact Hraise].
    + exists id. split; [apply elem_of_cons; left; reflexivity|exact Etask].
    + exists id. split; [apply elem_of_cons; left; reflexivity|exact Etask].
Qed.

Lemma schedule_more_files (n : nat) (w : walk) :
  w_entity_file (schedule_more n w) = w_entity_file w
  /\ w_posts_file (schedule_more n w) = w_posts_file w.
Proof.
  revert w. induction n as [|n IH]; intros w; cbn [schedule_more]; [auto|].
  destruct (w_ids w) as [|id ids']; [auto|].
  match goal with |- context [schedule_more n ?w1] => specialize (IH w1) end.
  exact IH.
Qed.

(** The loop of [posts], whatever the tasks do. *)
Lemma posts_loop_outcome (range : list Z) (fuel : nat) :
  forall (sched : list (list bool)) (w : walk),
    w_submitted w ++ w_ids w = range ->
    w_completed w ++ w_f w ≡ₚ w_submitted w ->
    (w_f w = [] -> w_ids w = []) ->
    (length (w_f w) + length (w_ids w) < fuel)%nat ->
    Forall (task_returns_at task) (w_completed w) ->
    match posts_loop task fuel sched w with
    | Ret w' =>
        w_submitted w' = range /\ w_completed w' ≡ₚ range
        /\ Forall (task_returns_at task) range
    | Raise e => exists id, id ∈ range /\ task id = Raise e
    | OutOfFuel => exists id, id ∈ range /\ task id = OutOfFuel
    end.
Proof.
  induction fuel as [|fuel IH]; intros sched w Hlog Hdone Hempty Hfuel Hret;
    [lia|].
  cbn [posts_loop]. destruct (w_f w) as [|x items] eqn:Ef.
  { rewrite (Hempty eq_refl) in *. rewrite app_nil_r in *. subst range.
    split; [reflexivity|]. split; [exact Hdone|]. rewrite <- Hdone.
    exact Hret. }
  destruct (await_any_spec (hd [] sched) (x :: items)) as [Hsome Hperm];
    [discriminate|].
  destruct (await_any (hd [] sched) (x :: items)) as [done rest].
  cbn [fst snd] in *.
  assert (Hin : forall id, id ∈ done -> id ∈ range).
  { intros id Hid. subst range. apply elem_of_app. left.
    rewrite <- Hdone. apply elem_of_app. right. rewrite <- Hperm.
    apply elem_of_app. left. exact Hid. }
  pose proof (take_results_outcome done (set_f rest w)) as Htake.
  destruct (take_results task done (set_f rest w)) as [w1|e|].
  - destruct Htake as (Hall & Hf1 & Hids1 & Hsub1 & Hcomp1 & _ & _).
    cbn [set_f w_f w_ids w_submitted w_completed] in *.
    destruct (schedule_more_spec (length done) w1)
      as (Hf2 & Hids2 & Hsub2 & Hcomp2).
    apply IH.
    + rewrite Hsub2, Hids2, Hsub1, Hids1, <- app_assoc, take_drop. exact Hlog.
    + rewrite Hcomp2, Hf2, Hsub2, Hcomp1, Hf1, Hsub1, <- Hdone.
      rewrite <- Hperm, <- !app_assoc. reflexivity.
    + rewrite Hf2, Hids2, Hf1, Hids1. intros Hnil.
      apply app_eq_nil in Hnil as [_ Hnil].
      destruct (w_ids w) as [|i ids']; [rewrite drop_nil; reflexivity|].
      destruct done as [|d done']; [congruence|]. discriminate.
    + rewrite Hf2, Hids2, Hf1, Hids1, length_app, length_take, length_drop.
      apply Permutation_length in Hperm. rewrite length_app in Hperm.
      cbn [length] in Hperm, Hfuel.
      assert (length done <> 0)%nat
        by (destruct done; [congruence|discriminate]).
      lia.
    + rewrite Hcomp2, Hcomp1. apply Forall_app. split; assumption.
  - destruct Htake as (id & Hid & Hraise). exists id. auto.
  - destruct Htake as (id & Hid & Hraise). exists id. auto.
Qed.

Lemma start_walk_ready (first last threads : Z) :
  0 < threads ->
  exists w,
    start_walk first last threads = Ret w
    /\ w_submitted w ++ w_ids w = seqZ first (last + 1 - first)
    /\ w_completed w = [] /\ w_f w = w_submitted w
    /\ (w_f w = [] -> w_ids w = [])
    /\ w_entity_file w = [] /\ w_posts_file w = [].
Proof.
  intros Hthreads. unfold start_walk.
  destruct (Z.leb_spec threads 0) as [|_]; [lia|].
  eexists. split; [reflexivity|]. cbn [w_f w_ids w_submitted w_completed
    w_entity_file w_posts_file].
  split; [apply take_drop|]. repeat split.
  intros Hnil. destruct (seqZ first (last + 1 - first)) as [|x range'];
    [rewrite drop_nil; reflexivity|].
  destruct (Z.to_nat (threads * 2)) eqn:En; [lia|discriminate].
Qed.

(** X3. The users walk re-raises what a task raised: it raises [e]
    only if the task of some ID of the range raised [e], and it does
    raise whenever the task of some ID of the range raises, whatever
    the order the futures complete in. *)
Theorem posts_walk_fails_fast (fuel : nat) (sched : list (list bool))
    (first last threads : Z) :
  0 < threads ->
  (length (seqZ first (last + 1 - first)) < fuel)%nat ->
  (forall id, task id <> OutOfFuel) ->
  (forall e, posts task fuel sched first last threads = Raise e ->
     exists id, first <= id <= last /\ task id = Raise e)
  /\ ((exists id e, first <= id <= last /\ task id = Raise e) ->
      exists e, posts task fuel sched first last threads = Raise e).
Proof.
  intros Hthreads Hfuel Hnofuel. unfold posts.
  destruct (start_walk_ready first last threads Hthreads)
    as (w & -> & Hlog & Hcomp & Hf & Hempty & _ & _).
  pose proof (posts_loop_outcome _ fuel sched w Hlog) as Hout.
  rewrite Hcomp, Hf in Hout. specialize (Hout (reflexivity _)).
  rewrite <- Hf in Hout. specialize (Hout Hempty).
  assert (Hlen : (length (w_f w) + length (w_ids w) < fuel)%nat).
  { rewrite Hf, <- length_app, Hlog. exact Hfuel. }
  specialize (Hout Hlen (Forall_nil_2 _)).
  assert (Hrange : forall id, id ∈ seqZ first (last + 1 - first)
                              <-> first <= id <= last).
  { intros id. rewrite elem_of_seqZ. lia. }
  split.
  - intros e He. rewrite He in Hout. destruct Hout as (id & Hid & Hraise).
    exists id. split; [apply Hrange; exact Hid|exact Hraise].
  - intros (id & e & Hid & Hraise).
    destruct (posts_loop task fuel sched w) as [w'|e'|].
    + destruct Hout as (_ & _ & Hall). rewrite Forall_forall in Hall.
      destruct (Hall id (proj2 (Hrange id) Hid)) as [r Hr]. congruence.
    + eauto.
    + destruct Hout as (i & _ & Hi). destruct (Hnofuel i Hi).
Qed.

(** The files keep pace with the tasks taken. *)
Lemma posts_loop_files (fuel : nat) :
  forall (sched : list (list bool)) (w w' : walk),
    files_match task w ->
    posts_loop task fuel sched w = Ret w' ->
    files_match task w'.
Proof.
  induction fuel as [|fuel IH]; intros sched w w' Hfiles Hrun; [discriminate|].
  cbn [posts_loop] in Hrun. destruct (w_f w) as [|x items] eqn:Ef.
  { injection Hrun as <-. exact Hfiles. }
  destruct (await_any (hd [] sched) (x :: items)) as [done rest].
  pose proof (take_results_outcome done (set_f rest w)) as Htake.
  destruct (take_results task done (set_f rest w)) as [w1|e|];
    [|discriminate|discriminate].
  destruct Htake as (_ & _ & _ & _ & Hcomp1 & Hent1 & Hposts1).
  cbn [set_f w_f w_ids w_submitted w_completed w_entity_file w_posts_file]
    in *.
  apply (IH _ _ _) in Hrun; [exact Hrun|].
  destruct (schedule_more_spec (length done) w1) as (_ & _ & _ & Hcomp2).
  destruct (schedule_more_files (length done) w1) as (Hent2 & Hposts2).
  destruct Hfiles as [Hent Hposts]. unfold files_match.
  rewrite Hent2, Hposts2, Hcomp2, Hent1, Hposts1, Hcomp1, Hent, Hposts.
  rewrite omap_app, map_app, concat_app. auto.
Qed.

(** X2. When the users walk returns, the two files hold exactly what
    the tasks taken found, in the order their results were taken: one
    line per entity that is not [None], and the posts of those
    entities only (posts that come with a [None] entity are not
    written). *)
Theorem posts_walk_files (fuel : nat) (sched : list (list bool))
    (first last threads : Z) (w : walk) :
  posts task fuel sched first last threads = Ret w ->
  files_match task w.
Proof.
  unfold posts, start_walk. destruct (threads <=? 0); [discriminate|].
  apply posts_loop_files. split; reflexivity.
Qed.

(** In [groups] no turn of the loop hands over to a next one. *)
Lemma groups_loop_first_turn (fuel : nat) (sched : list (list bool))
    (w w' : walk) :
  w_f w <> [] -> groups_loop task fuel sched w <> Ret w'.
Proof.
  intros Hf Hrun. destruct fuel as [|fuel]; [discriminate Hrun|].
  cbn [groups_loop] in Hrun. destruct (w_f w) as [|x items]; [congruence|].
  destruct (await_any_spec (hd [] sched) (x :: items)) as [Hsome _];
    [discriminate|].
  destruct (await_any (hd [] sched) (x :: items)) as [done rest].
  cbn [fst] in Hsome.
  destruct (take_results task done (set_f rest w)) as [w1|e|];
    try discriminate Hrun.
  destruct done; [congruence|discriminate Hrun].
Qed.

(** X4. Over an empty range ([last < first]) both walks end at once,
    with nothing submitted, taken or written, whatever the tasks
    would do; and an empty range is the only one over which the
    groups walk returns. *)
Theorem walks_over_empty_range (fuel : nat) (sched : list (list bool))
    (first last threads : Z) :
  0 < threads -> (0 < fuel)%nat ->
  (last < first ->
     posts task fuel sched first last threads = Ret (mk_walk [] [] [] [] [] [])
     /\ groups task fuel sched first last threads
        = Ret (mk_walk [] [] [] [] [] []))
  /\ ((exists w, groups task fuel sched first last threads = Ret w) ->
      last < first).
Proof.
  intros Hthreads Hfuel. split.
  - intros Hrange. unfold posts, groups, start_walk.
    destruct (Z.leb_spec threads 0) as [|_]; [lia|].
    replace (seqZ first (last + 1 - first)) with (@nil Z)
      by (unfold seqZ; replace (Z.to_nat (last + 1 - first)) with O by lia;
          reflexivity).
    rewrite take_nil, drop_nil.
    destruct fuel as [|fuel]; [lia|]. split; reflexivity.
  - intros [w Hw]. destruct (Z.lt_ge_cases last first) as [|Hne]; [assumption|].
    exfalso. unfold groups in Hw.
    destruct (start_walk_ready first last threads Hthreads)
      as (w0 & Hstart & Hlog & _ & Hf & Hnil & _ & _).
    rewrite Hstart in Hw. apply (groups_loop_first_turn _ _ _ _) in Hw;
      [exact Hw|].
    intros Hf0. rewrite (Hnil Hf0), <- Hf, Hf0 in Hlog.
    apply (f_equal length) in Hlog. rewrite length_seqZ in Hlog.
    cbn in Hlog. lia.
Qed.

End WalkOutcomes.

Lemma posts_covers_range_witness :
  exists w,
    posts task_nothing 4 [[false; true]] 0 2 1 = Ret w
    /\ w_submitted w = seqZ 0 (2 + 1 - 0)
    /\ NoDup (w_submitted w)
    /\ w_completed w ≡ₚ seqZ 0 (2 + 1 - 0)
    /\ length (w_completed w) = length (seqZ 0 (2 + 1 - 0)).
Proof.
  refine (posts_covers_range task_nothing _ 4%nat [[false; true]] 0 2 1 _ _).
  - intros id. eexists. reflexivity.
  - reflexivity.
  - apply le_n.
Defined.

Lemma posts_walk_files_witness :
  files_match task_found_odd
    {| w_f := []; w_ids := []; w_submitted := [0; 1; 2];
       w_completed := [1; 0; 2];
       w_entity_file := [{[ "id" := VInt 1 ]}];
       w_posts_file := [status_1] |}.
Proof.
  exact (posts_walk_files task_found_odd 4%nat [[false; true]] 0 2 1 _
           eq_refl).
Defined.

Lemma posts_walk_fails_fast_witness :
  (forall e, posts task_fails_at_1 4 [] 0 2 1 = Raise e ->
     exists id, 0 <= id <= 2 /\ task_fails_at_1 id = Raise e)
  /\ ((exists id e, 0 <= id <= 2 /\ task_fails_at_1 id = Raise e) ->
      exists e, posts task_fails_at_1 4 [] 0 2 1 = Raise e).
Proof.
  refine (posts_walk_fails_fast task_fails_at_1 4%nat [] 0 2 1 _ _ _).
  - reflexivity.
  - apply le_n.
  - intros id. unfold task_fails_at_1. destruct (id =? 1); discriminate.
Defined.

Lemma walks_over_empty_range_witness :
  (posts task_fails_at_1 1 [] 5 4 1 = Ret (mk_walk [] [] [] [] [] [])
   /\ groups task_fails_at_1 1 [] 5 4 1 = Ret (mk_walk [] [] [] [] [] []))
  /\ ~ (exists w, groups task_nothing 5 [] 0 2 1 = Ret w).
Proof.
  pose proof (walks_over_empty_range task_fails_at_1 1%nat [] 5 4 1
                eq_refl (le_n 1)) as [Hempty _].
  pose proof (walks_over_empty_range task_nothing 5%nat [] 0 2 1
                eq_refl (Nat.lt_0_succ 4)) as [_ Honly].
  split; [exact (Hempty eq_refl)|].
  intros Hreturns. specialize (Honly Hreturns). discriminate Honly.
Defined.
